(** * jenkins-exporter: the polling cycle and the gauges it publishes

    A shallow embedding of [jenkins-metrics.go] and [config.go].

    The exporter has two kinds of effects: calls on the Jenkins SDK
    (whose answers are inputs) and calls on the Prometheus gauge vectors
    and on the logger (which are outputs).  A run of a Go function is
    modelled by the journal of the calls it makes, in program order,
    together with the way the function ends.  The gauge registry that a
    scrape would see is obtained by replaying a journal on a registry. *)

From stdpp Require Import gmap strings list fin_maps pretty.
From Stdlib Require Import ZArith Lia.

Local Open Scope string_scope.
Local Open Scope list_scope.
Local Open Scope Z_scope.

(** ** Go primitives used by the exporter *)

Module Go.

(** Two's complement wrap-around of a 64 bit signed integer. *)
Definition int64 (z : Z) : Z := (z + 2 ^ 63) mod 2 ^ 64 - 2 ^ 63.

Definition min_int64 : Z := - 2 ^ 63.
Definition max_int64 : Z := 2 ^ 63 - 1.

(** [strconv.Itoa]: decimal digits, with a leading minus sign. *)
Definition Itoa (i : Z) : string := pretty i.

(** The bytes [0x80] to [0xBF], which continue a UTF-8 sequence. *)
Definition continuation (b : N) : bool := ((128 <=? b) && (b <=? 191))%N.

(** The length of the UTF-8 sequence that the byte [b0] starts; [1] for
    an ASCII byte and for a byte that starts no sequence. *)
Definition sequenceLength (b0 : N) : nat :=
  if (b0 <? 194)%N then 1
  else if (b0 <=? 223)%N then 2
  else if (b0 <=? 239)%N then 3
  else if (b0 <=? 244)%N then 4
  else 1.

(** The second byte that the first byte [b0] of a sequence accepts. *)
Definition accepts (b0 b1 : N) : bool :=
  (if (b0 =? 224)%N then (160 <=? b1) && (b1 <=? 191)
   else if (b0 =? 237)%N then (128 <=? b1) && (b1 <=? 159)
   else if (b0 =? 240)%N then (144 <=? b1) && (b1 <=? 191)
   else if (b0 =? 244)%N then (128 <=? b1) && (b1 <=? 143)
   else continuation b1)%N.

(** [utf8.RuneCountInString]: the number of characters of a string; a
    byte that is not part of a well-formed sequence counts as one. *)
Fixpoint RuneCountInString (s : string) : nat :=
  match s with
  | EmptyString => 0
  | String c0 s1 =>
      let b0 := Ascii.N_of_ascii c0 in
      S match sequenceLength b0, s1 with
        | 2%nat, String c1 s2 =>
            if accepts b0 (Ascii.N_of_ascii c1) then RuneCountInString s2
            else RuneCountInString s1
        | 3%nat, String c1 (String c2 s3) =>
            if accepts b0 (Ascii.N_of_ascii c1) && continuation (Ascii.N_of_ascii c2)
            then RuneCountInString s3 else RuneCountInString s1
        | 4%nat, String c1 (String c2 (String c3 s4)) =>
            if accepts b0 (Ascii.N_of_ascii c1) && continuation (Ascii.N_of_ascii c2)
               && continuation (Ascii.N_of_ascii c3)
            then RuneCountInString s4 else RuneCountInString s1
        | _, _ => RuneCountInString s1
        end
  end.

(** [fmt.Sprintf("%03s", s)]: [s] padded on the left with zeros up to
    width three, the width being counted in characters. *)
Definition Sprintf_03s (s : string) : string :=
  String.concat "" (replicate (3 - RuneCountInString s)%nat "0") +:+ s.

(** Integer division [/] truncates towards zero. *)
Definition div (a b : Z) : Z := Z.quot a b.

(** [error] values are represented by their message. *)
Definition error : Type := string.

(** The pair [(value, err)] returned by a fallible call, under the Go
    convention that a non-nil [err] comes with a nil or zero value. *)
Inductive result (A : Type) : Type :=
  | Ok (a : A)
  | Err (err : error).
Arguments Ok {A} a.
Arguments Err {A} err.

Definition err_of {A} (r : result A) : option error :=
  match r with Ok _ => None | Err e => Some e end.

(** [time.Time], observed through [Unix()] only. *)
Record Time : Type := { Unix : Z }.
Definition Local (t : Time) : Time := t.

(** [time.Second], in nanoseconds; a [time.Duration] is an int64. *)
Definition Second : Z := 1000000000.

(** A gauge holds a float64.  Every number the exporter stores is the
    conversion of an integer, except the build duration, whose
    millisecond count has the numeric type the SDK gives to
    [Build.GetDuration]; that quotient is kept symbolic. *)
Inductive float64 : Type :=
  | ofInt (n : Z)
  | ofMillisDiv1000 (ms : Z).

End Go.

Import Go.

(** ** config.go *)

Record jenkins : Type := {
  URL : string;
  User : string;
  Password : string;
  Jobs : list string;
  UpdateInterval : N          (* uint64 *)
}.

Record Config : Type := { Jenkins : jenkins }.

(** The zero value of [Config] ([var config Config]). *)
Definition zeroConfig : Config :=
  {| Jenkins := {| URL := ""; User := ""; Password := ""; Jobs := [];
                   UpdateInterval := 0%N |} |}.

Module toml.

(** The keys of the [Jenkins] table that a configuration file sets,
    with the values that the decoder stores in the fields of the
    struct; a key that the file leaves out is [None]. *)
Record Document : Type := {
  url : option string;
  user : option string;
  password : option string;
  jobs : option (list string);
  updateInterval : option N
}.

(** Decoding into a struct overwrites the fields whose key is present
    and leaves the others as they are. *)
Definition Decode (doc : Document) (c : Config) : Config :=
  let j := Jenkins c in
  {| Jenkins := {| URL := default (URL j) (url doc);
                   User := default (User j) (user doc);
                   Password := default (Password j) (password doc);
                   Jobs := default (Jobs j) (jobs doc);
                   UpdateInterval := default (UpdateInterval j) (updateInterval doc) |} |}.

End toml.

(** What the process sees of the file system: [os.Stat] and the content
    of a file as the TOML decoder reads it (the keys decoded, and the
    decoder's error if there is one). *)
Record FileSystem : Type := {
  Stat : string -> option error;
  ReadToml : string -> toml.Document * option error
}.

Definition DecodeFile (fs : FileSystem) (path : string) (c : Config) : Config * option error :=
  let '(doc, err) := ReadToml fs path in (toml.Decode doc c, err).

Definition loadConfig (fs : FileSystem) (pathToConfig : string) : Config * option error :=
  let config := zeroConfig in
  DecodeFile fs pathToConfig config.

(** ** The part of the gojenkins SDK that the exporter calls

    An SDK object is modelled by the answers its methods give during one
    polling cycle.  The methods that return an [error] are recorded in
    the journal when they are called.  The other methods that the
    exporter calls ([GetName], [GetBuildNumber], [GetDuration],
    [GetTimestamp], [GetResult], [IsGood]) return a value only; they are
    read as fields of the answer and leave no entry in the journal. *)

Module gojenkins.

Module PipelineNode.
Record t : Type := { ID : string; Name : string; Status : string; Duration : Z (* int64 *) }.
End PipelineNode.

Module PipelineRun.
Record t : Type := { Stages : list PipelineNode.t }.
End PipelineRun.

Module TestCase.
Record t : Type := {
  Age : Z; FailedSince : Z; Name : string; Skipped : bool; Status : string
}.
End TestCase.

Module Suite.
Record t : Type := { Cases : list TestCase.t; Name : string }.
End Suite.

Module TestResult.
Record t : Type := {
  FailCount : Z; PassCount : Z; SkipCount : Z; Suites : list Suite.t
}.
End TestResult.

Module Build.
Record t : Type := {
  GetBuildNumber : Z;
  GetDuration : Z;
  GetTimestamp : Time;
  GetResult : string;
  GetResultSet : result TestResult.t;
  IsGood : bool
}.
End Build.

Module Job.
Record t : Type := {
  GetName : string;
  GetLastCompletedBuild : result Build.t;
  GetLastBuild : result Build.t;
  IsRunning : result bool;
  GetPipelineRun : string -> result PipelineRun.t
}.
End Job.

Module Jenkins.
Record t : Type := {
  Init : result unit;
  GetJob : string -> result Job.t
}.
End Jenkins.

(** The SDK methods that return an [error], as the exporter calls them. *)
Inductive Call : Type :=
  | CallInit
  | CallGetJob (id : string)
  | CallGetLastCompletedBuild
  | CallGetLastBuild
  | CallGetResultSet
  | CallIsRunning
  | CallGetPipelineRun (id : string).

End gojenkins.

(** ** The gauge vectors *)

Module prometheus.

(** One constructor per [prometheus.NewGaugeVec] of the exporter. *)
Inductive GaugeVec : Type :=
  | jenkinsRunningBuild
  | jenkinsRunningBuildPipelineStatus
  | jenkinsRunningBuildElapsedTime
  | jenkinsCompletedBuildSuccess
  | jenkinsCompletedBuildDurationSeconds
  | jenkinsCompletedBuildTimestamp
  | jenkinsCompletedBuildTestCount
  | jenkinsCompletedBuildTestCaseFailureAge
  | jenkinsCompletedBuildPipelineDurationSeconds.

#[global] Instance GaugeVec_eq_dec : EqDecision GaugeVec.
Proof. solve_decision. Defined.

(** [GaugeOpts.Name] *)
Definition Name (g : GaugeVec) : string :=
  match g with
  | jenkinsRunningBuild => "jenkins_running_build"
  | jenkinsRunningBuildPipelineStatus => "jenkins_running_build_pipeline_status"
  | jenkinsRunningBuildElapsedTime => "jenkins_running_build_elapsed_time"
  | jenkinsCompletedBuildSuccess => "jenkins_build_success"
  | jenkinsCompletedBuildDurationSeconds => "jenkins_build_duration_seconds"
  | jenkinsCompletedBuildTimestamp => "jenkins_build_timestamp"
  | jenkinsCompletedBuildTestCount => "jenkins_build_test_count"
  | jenkinsCompletedBuildTestCaseFailureAge => "jenkins_build_test_case_failure_age"
  | jenkinsCompletedBuildPipelineDurationSeconds => "jenkins_build_pipeline_duration_seconds"
  end.

(** The label names given to [NewGaugeVec]. *)
Definition labelNames (g : GaugeVec) : list string :=
  match g with
  | jenkinsRunningBuild => ["jobname"; "buildid"; "isgood"]
  | jenkinsRunningBuildPipelineStatus => ["jobname"; "buildid"; "id"; "stage"]
  | jenkinsRunningBuildElapsedTime => ["jobname"; "buildid"; "isgood"]
  | jenkinsCompletedBuildSuccess => ["jobname"; "buildid"]
  | jenkinsCompletedBuildDurationSeconds => ["jobname"; "buildid"]
  | jenkinsCompletedBuildTimestamp => ["jobname"; "buildid"]
  | jenkinsCompletedBuildTestCount => ["jobname"; "buildid"; "result"]
  | jenkinsCompletedBuildTestCaseFailureAge =>
      ["jobname"; "buildid"; "suite"; "case"; "status"; "failedsince"]
  | jenkinsCompletedBuildPipelineDurationSeconds => ["jobname"; "buildid"; "id"; "stage"]
  end.

(** The series of a vector: label values to gauge value. *)
Abbreviation Series := (gmap (list string) float64).

(** The registry holds the nine vectors registered by [init]. *)
Record Registry : Type := {
  RunningBuild : Series;
  RunningBuildPipelineStatus : Series;
  RunningBuildElapsedTime : Series;
  CompletedBuildSuccess : Series;
  CompletedBuildDurationSeconds : Series;
  CompletedBuildTimestamp : Series;
  CompletedBuildTestCount : Series;
  CompletedBuildTestCaseFailureAge : Series;
  CompletedBuildPipelineDurationSeconds : Series
}.

Definition empty : Registry :=
  {| RunningBuild := ∅; RunningBuildPipelineStatus := ∅; RunningBuildElapsedTime := ∅;
     CompletedBuildSuccess := ∅; CompletedBuildDurationSeconds := ∅;
     CompletedBuildTimestamp := ∅; CompletedBuildTestCount := ∅;
     CompletedBuildTestCaseFailureAge := ∅;
     CompletedBuildPipelineDurationSeconds := ∅ |}.

Definition series (g : GaugeVec) (r : Registry) : Series :=
  match g with
  | jenkinsRunningBuild => RunningBuild r
  | jenkinsRunningBuildPipelineStatus => RunningBuildPipelineStatus r
  | jenkinsRunningBuildElapsedTime => RunningBuildElapsedTime r
  | jenkinsCompletedBuildSuccess => CompletedBuildSuccess r
  | jenkinsCompletedBuildDurationSeconds => CompletedBuildDurationSeconds r
  | jenkinsCompletedBuildTimestamp => CompletedBuildTimestamp r
  | jenkinsCompletedBuildTestCount => CompletedBuildTestCount r
  | jenkinsCompletedBuildTestCaseFailureAge => CompletedBuildTestCaseFailureAge r
  | jenkinsCompletedBuildPipelineDurationSeconds => CompletedBuildPipelineDurationSeconds r
  end.

Definition withSeries (g : GaugeVec) (s : Series) (r : Registry) : Registry :=
  match g with
  | jenkinsRunningBuild =>
      {| RunningBuild := s;
         RunningBuildPipelineStatus := RunningBuildPipelineStatus r;
         RunningBuildElapsedTime := RunningBuildElapsedTime r;
         CompletedBuildSuccess := CompletedBuildSuccess r;
         CompletedBuildDurationSeconds := CompletedBuildDurationSeconds r;
         CompletedBuildTimestamp := CompletedBuildTimestamp r;
         CompletedBuildTestCount := CompletedBuildTestCount r;
         CompletedBuildTestCaseFailureAge := CompletedBuildTestCaseFailureAge r;
         CompletedBuildPipelineDurationSeconds := CompletedBuildPipelineDurationSeconds r |}
  | jenkinsRunningBuildPipelineStatus =>
      {| RunningBuild := RunningBuild r;
         RunningBuildPipelineStatus := s;
         RunningBuildElapsedTime := RunningBuildElapsedTime r;
         CompletedBuildSuccess := CompletedBuildSuccess r;
         CompletedBuildDurationSeconds := CompletedBuildDurationSeconds r;
         CompletedBuildTimestamp := CompletedBuildTimestamp r;
         CompletedBuildTestCount := CompletedBuildTestCount r;
         CompletedBuildTestCaseFailureAge := CompletedBuildTestCaseFailureAge r;
         CompletedBuildPipelineDurationSeconds := CompletedBuildPipelineDurationSeconds r |}
  | jenkinsRunningBuildElapsedTime =>
      {| RunningBuild := RunningBuild r;
         RunningBuildPipelineStatus := RunningBuildPipelineStatus r;
         RunningBuildElapsedTime := s;
         CompletedBuildSuccess := CompletedBuildSuccess r;
         CompletedBuildDurationSeconds := CompletedBuildDurationSeconds r;
         CompletedBuildTimestamp := CompletedBuildTimestamp r;
         CompletedBuildTestCount := CompletedBuildTestCount r;
         CompletedBuildTestCaseFailureAge := CompletedBuildTestCaseFailureAge r;
         CompletedBuildPipelineDurationSeconds := CompletedBuildPipelineDurationSeconds r |}
  | jenkinsCompletedBuildSuccess =>
      {| RunningBuild := RunningBuild r;
         RunningBuildPipelineStatus := RunningBuildPipelineStatus r;
         RunningBuildElapsedTime := RunningBuildElapsedTime r;
         CompletedBuildSuccess := s;
         CompletedBuildDurationSeconds := CompletedBuildDurationSeconds r;
         CompletedBuildTimestamp := CompletedBuildTimestamp r;
         CompletedBuildTestCount := CompletedBuildTestCount r;
         CompletedBuildTestCaseFailureAge := CompletedBuildTestCaseFailureAge r;
         CompletedBuildPipelineDurationSeconds := CompletedBuildPipelineDurationSeconds r |}
  | jenkinsCompletedBuildDurationSeconds =>
      {| RunningBuild := RunningBuild r;
         RunningBuildPipelineStatus := RunningBuildPipelineStatus r;
         RunningBuildElapsedTime := RunningBuildElapsedTime r;
         CompletedBuildSuccess := CompletedBuildSuccess r;
         CompletedBuildDurationSeconds := s;
         CompletedBuildTimestamp := CompletedBuildTimestamp r;
         CompletedBuildTestCount := CompletedBuildTestCount r;
         CompletedBuildTestCaseFailureAge := CompletedBuildTestCaseFailureAge r;
         CompletedBuildPipelineDurationSeconds := CompletedBuildPipelineDurationSeconds r |}
  | jenkinsCompletedBuildTimestamp =>
      {| RunningBuild := RunningBuild r;
         RunningBuildPipelineStatus := RunningBuildPipelineStatus r;
         RunningBuildElapsedTime := RunningBuildElapsedTime r;
         CompletedBuildSuccess := CompletedBuildSuccess r;
         CompletedBuildDurationSeconds := CompletedBuildDurationSeconds r;
         CompletedBuildTimestamp := s;
         CompletedBuildTestCount := CompletedBuildTestCount r;
         CompletedBuildTestCaseFailureAge := CompletedBuildTestCaseFailureAge r;
         CompletedBuildPipelineDurationSeconds := CompletedBuildPipelineDurationSeconds r |}
  | jenkinsCompletedBuildTestCount =>
      {| RunningBuild := RunningBuild r;
         RunningBuildPipelineStatus := RunningBuildPipelineStatus r;
         RunningBuildElapsedTime := RunningBuildElapsedTime r;
         CompletedBuildSuccess := CompletedBuildSuccess r;
         CompletedBuildDurationSeconds := CompletedBuildDurationSeconds r;
         CompletedBuildTimestamp := CompletedBuildTimestamp r;
         CompletedBuildTestCount := s;
         CompletedBuildTestCaseFailureAge := CompletedBuildTestCaseFailureAge r;
         CompletedBuildPipelineDurationSeconds := CompletedBuildPipelineDurationSeconds r |}
  | jenkinsCompletedBuildTestCaseFailureAge =>
      {| RunningBuild := RunningBuild r;
         RunningBuildPipelineStatus := RunningBuildPipelineStatus r;
         RunningBuildElapsedTime := RunningBuildElapsedTime r;
         CompletedBuildSuccess := CompletedBuildSuccess r;
         CompletedBuildDurationSeconds := CompletedBuildDurationSeconds r;
         CompletedBuildTimestamp := CompletedBuildTimestamp r;
         CompletedBuildTestCount := CompletedBuildTestCount r;
         CompletedBuildTestCaseFailureAge := s;
         CompletedBuildPipelineDurationSeconds := CompletedBuildPipelineDurationSeconds r |}
  | jenkinsCompletedBuildPipelineDurationSeconds =>
      {| RunningBuild := RunningBuild r;
         RunningBuildPipelineStatus := RunningBuildPipelineStatus r;
         RunningBuildElapsedTime := RunningBuildElapsedTime r;
         CompletedBuildSuccess := CompletedBuildSuccess r;
         CompletedBuildDurationSeconds := CompletedBuildDurationSeconds r;
         CompletedBuildTimestamp := CompletedBuildTimestamp r;
         CompletedBuildTestCount := CompletedBuildTestCount r;
         CompletedBuildTestCaseFailureAge := CompletedBuildTestCaseFailureAge r;
         CompletedBuildPipelineDurationSeconds := s |}
  end.

(** [vec.Reset()] deletes every series of the vector. *)
Definition Reset (g : GaugeVec) (r : Registry) : Registry := withSeries g ∅ r.

(** [vec.WithLabelValues(lvs...)] alone creates the series, with the
    value 0, if it does not exist, and leaves an existing one as it is. *)
Definition With (g : GaugeVec) (lvs : list string) (r : Registry) : Registry :=
  withSeries g (<[lvs := default (ofInt 0) (series g r !! lvs)]> (series g r)) r.

(** [vec.WithLabelValues(lvs...).Set(v)] creates the series if it does
    not exist and stores [v]. *)
Definition Set_ (g : GaugeVec) (lvs : list string) (v : float64) (r : Registry) : Registry :=
  withSeries g (<[lvs := v]> (series g r)) r.

End prometheus.

Import prometheus.

(** ** Journals: the effects of a run *)

Inductive Level : Type := DebugLevel | ErrorLevel | FatalLevel.

(** The calls that a journal records.  [GaugeSet g lvs v] is
    [g.WithLabelValues(lvs...).Set(v)]; [GaugeWith g lvs] is a call of
    [g.WithLabelValues(lvs...)] whose [Set] is not reached, because the
    evaluation of its argument panics. *)
Inductive Event : Type :=
  | SetLevel (l : Level)
  | Log (l : Level) (format : string) (args : list string)
  | CreateJenkins (base : string) (auth : option (string * string))
  | Called (c : gojenkins.Call) (err : option error)
  | GaugeReset (g : GaugeVec)
  | GaugeSet (g : GaugeVec) (lvs : list string) (v : float64)
  | GaugeWith (g : GaugeVec) (lvs : list string)
  | CloseIdleConnections
  | Sleep (d : Z).

Inductive PanicCause : Type :=
  | NilDereference
  | LabelCardinality (g : GaugeVec).

(** How a block of statements ends: it falls through to the next
    statement, executes [return], panics, or exits the process. *)
Inductive Flow (A : Type) : Type :=
  | Next (a : A)
  | Returned
  | Panicked (p : PanicCause)
  | Exited (status : Z).
Arguments Next {A} a.
Arguments Returned {A}.
Arguments Panicked {A} p.
Arguments Exited {A} status.

Definition M (A : Type) : Type := (list Event * Flow A)%type.

#[global] Instance M_ret : MRet M := fun A a => ([], Next a).

#[global] Instance M_bind : MBind M := fun A B k m =>
  match m with
  | (evs, Next a) => let '(evs', f) := k a in (evs ++ evs', f)
  | (evs, Returned) => (evs, Returned)
  | (evs, Panicked p) => (evs, Panicked p)
  | (evs, Exited s) => (evs, Exited s)
  end.

Definition journal {A} (m : M A) : list Event := m.1.
Definition flow {A} (m : M A) : Flow A := m.2.

Definition emit (e : Event) : M unit := ([e], Next tt).
Definition return_ {A} : M A := ([], Returned).
Definition panic {A} (p : PanicCause) : M A := ([], Panicked p).
Definition exit {A} (status : Z) : M A := ([], Exited status).

(** [defer]: the deferred call runs when the function ends, however it
    ends. *)
Definition defer {A} (e : Event) (body : M A) : M A :=
  let '(evs, f) := body in (evs ++ [e], f).

(** A call of a Go function: [return] ends the callee only. *)
Definition call_func (body : M unit) : M unit :=
  match body with
  | (evs, Returned) => (evs, Next tt)
  | m => m
  end.

(** [for _, x := range xs { body }] *)
Fixpoint range {X} (xs : list X) (body : X -> M unit) : M unit :=
  match xs with
  | [] => mret tt
  | x :: xs' => body x ;; range xs' body
  end.

(** A [range] loop that updates a local variable of the enclosing function. *)
Fixpoint range_var {X V} (xs : list X) (v : V) (body : V -> X -> M V) : M V :=
  match xs with
  | [] => mret v
  | x :: xs' => v' ← body v x; range_var xs' v' body
  end.

Definition Reset_ (g : GaugeVec) : M unit := emit (GaugeReset g).

Definition Errorf (format : string) (args : list string) : M unit :=
  emit (Log ErrorLevel format args).
Definition Debugf (format : string) (args : list string) : M unit :=
  emit (Log DebugLevel format args).

(** [log.Fatal] and [log.Fatalf] log and then call [os.Exit(1)]. *)
Definition Fatalf {A} (format : string) (args : list string) : M A :=
  emit (Log FatalLevel format args) ;; exit 1.

(** A call on the SDK, recorded with the [err] it returns. *)
Definition sdk {A} (c : gojenkins.Call) (r : result A) : M (result A) :=
  ([Called c (err_of r)], Next r).

(** [if err != nil { log.Errorf(format, err); return }] *)
Definition check {A} (r : result A) (format : string) : M A :=
  match r with
  | Ok a => mret a
  | Err err => Errorf format [err] ;; return_
  end.

(** Use of a pointer whose [err] was not checked: a nil pointer panics
    at its first dereference. *)
Definition deref {A} (r : result A) : M A :=
  match r with
  | Ok a => mret a
  | Err _ => panic NilDereference
  end.

(** [vec.WithLabelValues(lvs...).Set(v)]; [WithLabelValues] panics when
    the number of values differs from the number of label names.  (It
    also rejects a value that is not valid UTF-8; the label values of
    the exporter are strings decoded from JSON or built by [Itoa] and
    [Sprintf], which are.) *)
Definition WithLabelValues_Set (g : GaugeVec) (lvs : list string) (v : float64) : M unit :=
  if decide (length lvs = length (labelNames g))
  then emit (GaugeSet g lvs v)
  else panic (LabelCardinality g).

(** [vec.WithLabelValues(lvs...)] when the [Set] that is chained to it
    is not reached. *)
Definition WithLabelValues (g : GaugeVec) (lvs : list string) : M unit :=
  if decide (length lvs = length (labelNames g))
  then emit (GaugeWith g lvs)
  else panic (LabelCardinality g).

(** [vec.WithLabelValues(lvs...).Set(float64(p.Field))] for a pointer
    [p] whose [err] was not checked.  Go calls [WithLabelValues] before
    it evaluates the argument of [Set]: with a nil [p] the series has
    been created when the dereference panics, and [Set] is not called. *)
Definition WithLabelValues_Set_deref {A} (g : GaugeVec) (lvs : list string)
    (p : result A) (Field : A -> float64) : M unit :=
  match p with
  | Ok a => WithLabelValues_Set g lvs (Field a)
  | Err _ => WithLabelValues g lvs ;; panic NilDereference
  end.

(** The registry after the calls of a journal. *)
Definition apply (e : Event) (r : Registry) : Registry :=
  match e with
  | GaugeReset g => prometheus.Reset g r
  | GaugeSet g lvs v => prometheus.Set_ g lvs v r
  | GaugeWith g lvs => prometheus.With g lvs r
  | _ => r
  end.

Definition replay (evs : list Event) (r : Registry) : Registry :=
  fold_left (fun r e => apply e r) evs r.

(** ** jenkins-metrics.go: [init] (load configuration) *)

(** The flags as [flag.Parse] leaves them.  A command line that
    [flag.Parse] refuses ends the process inside [flag.Parse]; [init] is
    modelled from the statement that follows it. *)
Record CommandLine : Type := {
  debug : option bool;       (* -debug, when given *)
  config_path : option string (* -config <path>, when given *)
}.

Definition flag_Bool (given : option bool) (value : bool) : bool := default value given.
Definition flag_String (given : option string) (value : string) : string := default value given.

Definition init (args : CommandLine) (fs : FileSystem) : M Config :=
  let debugFlag := flag_Bool (debug args) false in
  let configFileFlag := flag_String (config_path args) "./config.toml" in
  (if debugFlag then emit (SetLevel DebugLevel) else mret tt) ;;
  config ←
    match Stat fs configFileFlag with
    | None =>
        let '(config, err) := loadConfig fs configFileFlag in
        match err with
        | Some err => Fatalf "Unable to parse configuration file: %s" [err]
        | None => mret config
        end
    | Some _ =>
        Fatalf "Please provide a config file with `-config <yourconfig>` or just create `config.toml` in this directory" []
    end;
  Debugf "Configuration: %+v" [] ;;
  if (UpdateInterval (Jenkins config) <=? 0)%N
  then mret {| Jenkins := {| URL := URL (Jenkins config);
                             User := User (Jenkins config);
                             Password := Password (Jenkins config);
                             Jobs := Jobs (Jenkins config);
                             UpdateInterval := 1800%N |} |}
  else mret config.

(** ** jenkins-metrics.go: [updateMetrics] *)

#[global] Instance float64_eq_dec : EqDecision float64.
Proof. solve_decision. Defined.

(** The value given to [jenkinsRunningBuildPipelineStatus] (the [switch]
    on [stage.Status]). *)
Definition stageStatus (Status : string) : float64 :=
  if decide (Status = "SUCCESS") then ofInt 0
  else if decide (Status = "IN_PROGRESS") then ofInt 1
  else if decide (Status = "UNSTABLE") then ofInt 2
  else if decide (Status = "FAILED") then ofInt 3
  else ofInt (-1).

(** The value given to [jenkinsCompletedBuildSuccess]. *)
Definition buildResult (result : string) : float64 :=
  if decide (result = "FAILURE") then ofInt 0 else ofInt 1.

Section updateMetrics.

Import gojenkins.

Variable config : Config.
Variable jenkinsCli : Jenkins.t.

(** The nine [Reset()] calls, in the order of the source. *)
Definition resetAll : M unit :=
  Reset_ jenkinsRunningBuild ;;
  Reset_ jenkinsRunningBuildElapsedTime ;;
  Reset_ jenkinsRunningBuildPipelineStatus ;;
  Reset_ jenkinsCompletedBuildSuccess ;;
  Reset_ jenkinsCompletedBuildDurationSeconds ;;
  Reset_ jenkinsCompletedBuildTestCount ;;
  Reset_ jenkinsCompletedBuildPipelineDurationSeconds ;;
  Reset_ jenkinsCompletedBuildTestCaseFailureAge ;;
  Reset_ jenkinsCompletedBuildTimestamp.

(** The body of the loop over [config.Jenkins.Jobs]. *)
Definition updateJob (jobname : string) : M unit :=
  r ← sdk (CallGetJob jobname) (Jenkins.GetJob jenkinsCli jobname);
  job ← check r "Job Does Not Exist";
  (* Get Last Completed build *)
  r ← sdk CallGetLastCompletedBuild (Job.GetLastCompletedBuild job);
  lastCompletedBuild ← check r
    ("Unable to collect metrics for job: " +:+ jobname +:+ " - unable to get Last Completed Build");
  (* Get Last Build (can be a running build) *)
  r ← sdk CallGetLastBuild (Job.GetLastBuild job);
  lastBuild ← check r
    ("Unable to collect metrics for job: " +:+ jobname +:+ " - unable to get Last Build");
  (* Common labels to various metrics *)
  let commonArgs :=
    [Job.GetName job; Itoa (Build.GetBuildNumber lastCompletedBuild)] in
  (* Simple metrics - build timestamp and duration *)
  WithLabelValues_Set jenkinsCompletedBuildDurationSeconds commonArgs
    (ofMillisDiv1000 (Build.GetDuration lastCompletedBuild)) ;;
  WithLabelValues_Set jenkinsCompletedBuildTimestamp commonArgs
    (ofInt (Unix (Local (Build.GetTimestamp lastCompletedBuild)))) ;;
  (* Simple metrics - test counts *)
  r ← sdk CallGetResultSet (Build.GetResultSet lastCompletedBuild);
  (* err is not checked: resultset.FailCount is the first use of the pointer *)
  WithLabelValues_Set_deref jenkinsCompletedBuildTestCount (commonArgs ++ ["fail"])
    r (fun resultset => ofInt (TestResult.FailCount resultset)) ;;
  resultset ← deref r;  (* not nil from here on *)
  WithLabelValues_Set jenkinsCompletedBuildTestCount (commonArgs ++ ["skip"])
    (ofInt (TestResult.SkipCount resultset)) ;;
  WithLabelValues_Set jenkinsCompletedBuildTestCount (commonArgs ++ ["pass"])
    (ofInt (TestResult.PassCount resultset)) ;;
  (* Is there any build running? *)
  r ← sdk CallIsRunning (Job.IsRunning job);
  let isRunning :=
    (fun (running : bool) (err : option error) =>
       if running then ofInt 1 else ofInt 0)
      (match r with Ok running => running | Err _ => false end) (err_of r) in
  (* Is the build good (without errors so far)? *)
  let isGood :=
    (fun (isGood : bool) => if isGood then "1" else "0") (Build.IsGood lastBuild) in
  WithLabelValues_Set jenkinsRunningBuild
    [Job.GetName job; Itoa (Build.GetBuildNumber lastBuild); isGood] isRunning ;;
  (* If there is a job running, add metric with elapsed time *)
  (if decide (isRunning = ofInt 1) then
     let elapsedTime := 0 in
     r ← sdk (CallGetPipelineRun (Itoa (Build.GetBuildNumber lastBuild)))
             (Job.GetPipelineRun job (Itoa (Build.GetBuildNumber lastBuild)));
     livePipe ← deref r;
     elapsedTime ← range_var (PipelineRun.Stages livePipe) elapsedTime
       (fun elapsedTime stage =>
          let elapsedTime :=
            int64 (elapsedTime + Go.div (PipelineNode.Duration stage) 1000) in
          WithLabelValues_Set jenkinsRunningBuildPipelineStatus
            [Job.GetName job;
             Itoa (Build.GetBuildNumber lastBuild);
             Sprintf_03s (PipelineNode.ID stage);
             PipelineNode.Name stage]
            (stageStatus (PipelineNode.Status stage)) ;;
          mret elapsedTime);
     WithLabelValues_Set jenkinsRunningBuildElapsedTime
       [Job.GetName job; Itoa (Build.GetBuildNumber lastBuild); isGood]
       (ofInt elapsedTime)
   else mret tt) ;;
  (* Build result *)
  WithLabelValues_Set jenkinsCompletedBuildSuccess commonArgs
    (buildResult (Build.GetResult lastCompletedBuild)) ;;
  (* Iterate over failed and regression tests *)
  range (TestResult.Suites resultset) (fun suite =>
    range (Suite.Cases suite) (fun testcase =>
      if negb (TestCase.Skipped testcase)
         && negb (bool_decide (TestCase.Status testcase = "PASSED"))
      then
        WithLabelValues_Set jenkinsCompletedBuildTestCaseFailureAge
          (commonArgs ++ [Suite.Name suite;
                          TestCase.Name testcase;
                          TestCase.Status testcase;
                          Itoa (TestCase.FailedSince testcase)])
          (ofInt (TestCase.Age testcase))
      else mret tt)) ;;
  (* Last completed pipeline build duration *)
  r ← sdk (CallGetPipelineRun (Itoa (Build.GetBuildNumber lastCompletedBuild)))
          (Job.GetPipelineRun job (Itoa (Build.GetBuildNumber lastCompletedBuild)));
  lastCompletedPipeline ← deref r;
  range (PipelineRun.Stages lastCompletedPipeline) (fun stage =>
    WithLabelValues_Set jenkinsCompletedBuildPipelineDurationSeconds
      [Job.GetName job;
       Itoa (Build.GetBuildNumber lastCompletedBuild);
       Sprintf_03s (PipelineNode.ID stage);
       PipelineNode.Name stage]
      (ofInt (Go.div (PipelineNode.Duration stage) 1000))) ;;
  Debugf "Finished collecting metrics for job: %s" [jobname].

Definition updateMetrics : M unit :=
  Debugf "Connecting to Jenkins API and collecting metrics..." [] ;;
  (* Connect to Jenkins *)
  (if decide (User (Jenkins config) ≠ "")
   then emit (CreateJenkins (URL (Jenkins config))
                (Some (User (Jenkins config), Password (Jenkins config))))
   else emit (CreateJenkins (URL (Jenkins config)) None)) ;;
  defer CloseIdleConnections (
    r ← sdk CallInit (Jenkins.Init jenkinsCli);
    _ ← check r "Unable to connect to Jenkins";
    (* Reset all metrics *)
    resetAll ;;
    (* Iterate over configured jobs *)
    range (Jobs (Jenkins config)) updateJob).

End updateMetrics.

(** ** jenkins-metrics.go: the polling loop of [main] *)

(** The argument of [time.Sleep]: [time.Duration(UpdateInterval) * time.Second],
    computed on int64. *)
Definition sleepTime (config : Config) : Z :=
  int64 (int64 (Z.of_N (UpdateInterval (Jenkins config))) * Second).

(** One turn of the [for] loop of the polling goroutine. *)
Definition pollOnce (config : Config) (jenkinsCli : gojenkins.Jenkins.t) : M unit :=
  call_func (updateMetrics config jenkinsCli) ;;
  emit (Sleep (sleepTime config)).

(** The first turns of the loop, one per element of [ticks]: the
    Jenkins server as it answers during that turn. *)
Definition poll (config : Config) (ticks : list gojenkins.Jenkins.t) : M unit :=
  range ticks (pollOnce config).

(** * Vocabulary of the properties *)

Import gojenkins.

(** [elapsedTime] after the loop over the stages of the running pipeline. *)
Definition elapsedTime_after (elapsedTime : Z) (stages : list PipelineNode.t) : Z :=
  fold_left (fun elapsedTime stage =>
               int64 (elapsedTime + Go.div (PipelineNode.Duration stage) 1000))
            stages elapsedTime.

Definition stageLabels (job : Job.t) (build : Build.t) (stage : PipelineNode.t) : list string :=
  [Job.GetName job; Itoa (Build.GetBuildNumber build);
   Sprintf_03s (PipelineNode.ID stage); PipelineNode.Name stage].

Definition pipelineStatusSets (job : Job.t) (lastBuild : Build.t)
    (stages : list PipelineNode.t) : list Event :=
  map (fun stage => GaugeSet jenkinsRunningBuildPipelineStatus
                      (stageLabels job lastBuild stage)
                      (stageStatus (PipelineNode.Status stage))) stages.

Definition pipelineDurationSets (job : Job.t) (lastCompletedBuild : Build.t)
    (stages : list PipelineNode.t) : list Event :=
  map (fun stage => GaugeSet jenkinsCompletedBuildPipelineDurationSeconds
                      (stageLabels job lastCompletedBuild stage)
                      (ofInt (Go.div (PipelineNode.Duration stage) 1000))) stages.

(** A test case is reported when it is neither skipped nor passed. *)
Definition reported (testcase : TestCase.t) : bool :=
  negb (TestCase.Skipped testcase)
  && negb (bool_decide (TestCase.Status testcase = "PASSED")).

Definition failureLabels (commonArgs : list string) (suite : Suite.t)
    (testcase : TestCase.t) : list string :=
  commonArgs ++ [Suite.Name suite; TestCase.Name testcase; TestCase.Status testcase;
                 Itoa (TestCase.FailedSince testcase)].

Definition failureAgeSets (commonArgs : list string) (suites : list Suite.t) : list Event :=
  flat_map (fun suite =>
    flat_map (fun testcase =>
      if reported testcase
      then [GaugeSet jenkinsCompletedBuildTestCaseFailureAge
              (failureLabels commonArgs suite testcase)
              (ofInt (TestCase.Age testcase))]
      else []) (Suite.Cases suite)) suites.

(** The journal so far, followed by the rest of the block. *)
Definition prepend {A} (evs : list Event) (m : M A) : M A :=
  (evs ++ journal m, flow m).

Definition isRunning (job : Job.t) : bool :=
  match Job.IsRunning job with Ok running => running | Err _ => false end.

Definition isGood (lastBuild : Build.t) : string :=
  if Build.IsGood lastBuild then "1" else "0".

Definition commonArgs (job : Job.t) (lastCompletedBuild : Build.t) : list string :=
  [Job.GetName job; Itoa (Build.GetBuildNumber lastCompletedBuild)].

Definition runningLabels (job : Job.t) (lastBuild : Build.t) : list string :=
  [Job.GetName job; Itoa (Build.GetBuildNumber lastBuild); isGood lastBuild].

(** From [GetJob] to the call of [GetResultSet] (excluded). *)
Definition fetchedJournal (jobname : string) (job : Job.t) (lastCompletedBuild : Build.t)
  : list Event :=
  [Called (CallGetJob jobname) None;
   Called CallGetLastCompletedBuild None;
   Called CallGetLastBuild None;
   GaugeSet jenkinsCompletedBuildDurationSeconds (commonArgs job lastCompletedBuild)
     (ofMillisDiv1000 (Build.GetDuration lastCompletedBuild));
   GaugeSet jenkinsCompletedBuildTimestamp (commonArgs job lastCompletedBuild)
     (ofInt (Unix (Local (Build.GetTimestamp lastCompletedBuild))))].

(** The test counts, [IsRunning] and [jenkinsRunningBuild]. *)
Definition countsJournal (job : Job.t) (lastCompletedBuild lastBuild : Build.t)
    (resultset : TestResult.t) : list Event :=
  [Called CallGetResultSet None;
   GaugeSet jenkinsCompletedBuildTestCount (commonArgs job lastCompletedBuild ++ ["fail"])
     (ofInt (TestResult.FailCount resultset));
   GaugeSet jenkinsCompletedBuildTestCount (commonArgs job lastCompletedBuild ++ ["skip"])
     (ofInt (TestResult.SkipCount resultset));
   GaugeSet jenkinsCompletedBuildTestCount (commonArgs job lastCompletedBuild ++ ["pass"])
     (ofInt (TestResult.PassCount resultset));
   Called CallIsRunning (err_of (Job.IsRunning job));
   GaugeSet jenkinsRunningBuild (runningLabels job lastBuild)
     (if isRunning job then ofInt 1 else ofInt 0)].

(** The block guarded by [isRunning == 1], when the pipeline run is there. *)
Definition liveJournal (job : Job.t) (lastBuild : Build.t) (livePipe : PipelineRun.t)
  : list Event :=
  Called (CallGetPipelineRun (Itoa (Build.GetBuildNumber lastBuild))) None ::
  pipelineStatusSets job lastBuild (PipelineRun.Stages livePipe) ++
  [GaugeSet jenkinsRunningBuildElapsedTime (runningLabels job lastBuild)
     (ofInt (elapsedTime_after 0 (PipelineRun.Stages livePipe)))].

(** The build result and the failed tests. *)
Definition testsJournal (job : Job.t) (lastCompletedBuild : Build.t)
    (resultset : TestResult.t) : list Event :=
  GaugeSet jenkinsCompletedBuildSuccess (commonArgs job lastCompletedBuild)
    (buildResult (Build.GetResult lastCompletedBuild)) ::
  failureAgeSets (commonArgs job lastCompletedBuild) (TestResult.Suites resultset).

(** The stages of the last completed build, to the end of the body. *)
Definition completedJournal (jobname : string) (job : Job.t) (lastCompletedBuild : Build.t)
    (lastCompletedPipeline : PipelineRun.t) : list Event :=
  Called (CallGetPipelineRun (Itoa (Build.GetBuildNumber lastCompletedBuild))) None ::
  pipelineDurationSets job lastCompletedBuild (PipelineRun.Stages lastCompletedPipeline) ++
  [Log DebugLevel "Finished collecting metrics for job: %s" [jobname]].

Definition nilPipeline (id : string) (err : error) : M unit :=
  ([Called (CallGetPipelineRun id) (Some err)], Panicked NilDereference).

Definition finishJob (jobname : string) (job : Job.t) (lastCompletedBuild : Build.t)
    (resultset : TestResult.t) : M unit :=
  prepend (testsJournal job lastCompletedBuild resultset)
    match Job.GetPipelineRun job (Itoa (Build.GetBuildNumber lastCompletedBuild)) with
    | Err err => nilPipeline (Itoa (Build.GetBuildNumber lastCompletedBuild)) err
    | Ok lastCompletedPipeline =>
        (completedJournal jobname job lastCompletedBuild lastCompletedPipeline, Next tt)
    end.

(** Every run of the body, by the answers of the SDK. *)
Definition updateJob_runs (jenkinsCli : Jenkins.t) (jobname : string) : M unit :=
  match Jenkins.GetJob jenkinsCli jobname with
  | Err err =>
      ([Called (CallGetJob jobname) (Some err);
        Log ErrorLevel "Job Does Not Exist" [err]], Returned)
  | Ok job =>
  match Job.GetLastCompletedBuild job with
  | Err err =>
      ([Called (CallGetJob jobname) None;
        Called CallGetLastCompletedBuild (Some err);
        Log ErrorLevel
          ("Unable to collect metrics for job: " +:+ jobname +:+
           " - unable to get Last Completed Build") [err]], Returned)
  | Ok lastCompletedBuild =>
  match Job.GetLastBuild job with
  | Err err =>
      ([Called (CallGetJob jobname) None;
        Called CallGetLastCompletedBuild None;
        Called CallGetLastBuild (Some err);
        Log ErrorLevel
          ("Unable to collect metrics for job: " +:+ jobname +:+
           " - unable to get Last Build") [err]], Returned)
  | Ok lastBuild =>
  prepend (fetchedJournal jobname job lastCompletedBuild)
  match Build.GetResultSet lastCompletedBuild with
  | Err err =>
      ([Called CallGetResultSet (Some err);
        GaugeWith jenkinsCompletedBuildTestCount (commonArgs job lastCompletedBuild ++ ["fail"])],
       Panicked NilDereference)
  | Ok resultset =>
  prepend (countsJournal job lastCompletedBuild lastBuild resultset)
    (if isRunning job then
       match Job.GetPipelineRun job (Itoa (Build.GetBuildNumber lastBuild)) with
       | Err err => nilPipeline (Itoa (Build.GetBuildNumber lastBuild)) err
       | Ok livePipe =>
           prepend (liveJournal job lastBuild livePipe)
             (finishJob jobname job lastCompletedBuild resultset)
       end
     else finishJob jobname job lastCompletedBuild resultset)
  end end end end.

(** The [Set] calls on the vector [g], in order. *)
Definition setsOf (g : GaugeVec) (evs : list Event) : list (list string * float64) :=
  flat_map (fun e => match e with
                     | GaugeSet g' lvs v => if decide (g' = g) then [(lvs, v)] else []
                     | _ => []
                     end) evs.

(** The events that the body of the loop can record for [jobname]: SDK
    calls, log lines, and [WithLabelValues] calls, followed by [Set] or
    not, with as many values as the vector has labels, the first of
    which is the name of the job that [GetJob] returned. *)
Definition jobEvent (jenkinsCli : Jenkins.t) (jobname : string) (e : Event) : Prop :=
  match e with
  | Called _ _ | Log _ _ _ => True
  | GaugeSet g lvs _ | GaugeWith g lvs =>
      length lvs = length (labelNames g) /\
      exists job, Jenkins.GetJob jenkinsCli jobname = Ok job /\
                  head lvs = Some (Job.GetName job)
  | _ => False
  end.

(** The events of a journal that touch no gauge leave the registry as it is. *)
Definition silent (e : Event) : Prop :=
  match e with GaugeReset _ | GaugeSet _ _ _ | GaugeWith _ _ => False | _ => True end.

(** The failed tests of a result set, as label values and gauge value. *)
Definition failureSeries (args : list string) (suites : list Suite.t)
  : list (list string * float64) :=
  flat_map (fun suite =>
    flat_map (fun testcase =>
      if reported testcase
      then [(failureLabels args suite testcase, ofInt (TestCase.Age testcase))]
      else []) (Suite.Cases suite)) suites.

(** The sum, over the stages, of the duration in whole seconds. *)
Definition stageSeconds (stages : list PipelineNode.t) : Z :=
  foldr (fun stage sum => Go.div (PipelineNode.Duration stage) 1000 + sum) 0 stages.

Module Sample.

Definition build : PipelineNode.t :=
  {| PipelineNode.ID := "6"; PipelineNode.Name := "Build";
     PipelineNode.Status := "SUCCESS"; PipelineNode.Duration := 2500 |}.

Definition test : PipelineNode.t :=
  {| PipelineNode.ID := "12"; PipelineNode.Name := "Test";
     PipelineNode.Status := "IN_PROGRESS"; PipelineNode.Duration := -1500 |}.

Definition failing : TestCase.t :=
  {| TestCase.Age := 3; TestCase.FailedSince := 40; TestCase.Name := "t1";
     TestCase.Skipped := false; TestCase.Status := "FAILED" |}.

Definition passing : TestCase.t :=
  {| TestCase.Age := 0; TestCase.FailedSince := 0; TestCase.Name := "t2";
     TestCase.Skipped := false; TestCase.Status := "PASSED" |}.

Definition report : TestResult.t :=
  {| TestResult.FailCount := 1; TestResult.PassCount := 1; TestResult.SkipCount := 0;
     TestResult.Suites := [ {| Suite.Cases := [failing; passing]; Suite.Name := "s" |} ] |}.

Definition build42 : Build.t :=
  {| Build.GetBuildNumber := 42; Build.GetDuration := 61500;
     Build.GetTimestamp := {| Unix := 1600000000 |};
     Build.GetResult := "FAILURE"; Build.GetResultSet := Ok report;
     Build.IsGood := false |}.

Definition build43 : Build.t :=
  {| Build.GetBuildNumber := 43; Build.GetDuration := 0;
     Build.GetTimestamp := {| Unix := 1600000100 |};
     Build.GetResult := ""; Build.GetResultSet := Err "no test report";
     Build.IsGood := false |}.

Definition app : Job.t :=
  {| Job.GetName := "app";
     Job.GetLastCompletedBuild := Ok build42;
     Job.GetLastBuild := Ok build43;
     Job.IsRunning := Ok true;
     Job.GetPipelineRun := fun _ => Ok {| PipelineRun.Stages := [build; test] |} |}.

(** A server that knows the job [app] only. *)
Definition server : Jenkins.t :=
  {| Jenkins.Init := Ok tt;
     Jenkins.GetJob := fun id => if decide (id = "app") then Ok app else Err "404" |}.

(** A server that refuses the connection. *)
Definition down : Jenkins.t :=
  {| Jenkins.Init := Err "connection refused";
     Jenkins.GetJob := fun _ => Err "connection refused" |}.

Definition config (Jobs : list string) : Config :=
  {| Jenkins := {| URL := "http://jenkins"; User := ""; Password := "";
                   Jobs := Jobs; UpdateInterval := 1800 |} |}.

End Sample.

(** A test case of the result set that is neither skipped nor passed,
    with the labels and the value of its series. *)
Definition failedCase (job : Job.t) (lastCompletedBuild : Build.t)
    (resultset : TestResult.t) (lvs : list string) (v : float64) : Prop :=
  exists suite testcase,
    In suite (TestResult.Suites resultset) /\
    In testcase (Suite.Cases suite) /\
    TestCase.Skipped testcase = false /\
    TestCase.Status testcase <> "PASSED" /\
    lvs = [Job.GetName job; Itoa (Build.GetBuildNumber lastCompletedBuild);
           Suite.Name suite; TestCase.Name testcase; TestCase.Status testcase;
           Itoa (TestCase.FailedSince testcase)] /\
    v = ofInt (TestCase.Age testcase).

(** The journal of [CreateJenkins], with or without credentials. *)
Definition connectJournal (config : Config) : list Event :=
  [Log DebugLevel "Connecting to Jenkins API and collecting metrics..." [];
   CreateJenkins (URL (Jenkins config))
     (if decide (User (Jenkins config) ≠ "")
      then Some (User (Jenkins config), Password (Jenkins config))
      else None)].

(** The journal of the nine [Reset()] calls. *)
Definition resetJournal : list Event :=
  [GaugeReset jenkinsRunningBuild;
   GaugeReset jenkinsRunningBuildElapsedTime;
   GaugeReset jenkinsRunningBuildPipelineStatus;
   GaugeReset jenkinsCompletedBuildSuccess;
   GaugeReset jenkinsCompletedBuildDurationSeconds;
   GaugeReset jenkinsCompletedBuildTestCount;
   GaugeReset jenkinsCompletedBuildPipelineDurationSeconds;
   GaugeReset jenkinsCompletedBuildTestCaseFailureAge;
   GaugeReset jenkinsCompletedBuildTimestamp].

Definition unreachable (err : error) : list Event :=
  [Called CallInit (Some err);
   Log ErrorLevel "Unable to connect to Jenkins" [err];
   CloseIdleConnections].

(** A registry left by an earlier cycle, with a series of a job that is
    no longer configured. *)
Definition stale : Registry :=
  prometheus.Set_ jenkinsCompletedBuildSuccess ["old"; "7"] (ofInt 1) prometheus.empty.

(** The calls whose [err] the exporter checks. *)
Definition checked (c : Call) : Prop :=
  match c with
  | CallInit | CallGetJob _ | CallGetLastCompletedBuild | CallGetLastBuild => True
  | _ => False
  end.

(** A checked call that returned an error. *)
Definition upstreamError (e : Event) : Prop :=
  match e with
  | Called c (Some _) => checked c
  | _ => False
  end.

(** A block either records no upstream error, or returns right after
    logging the first one. *)
Definition abandons (m : M unit) : Prop :=
  match flow m with
  | Returned =>
      exists pre c err format,
        checked c /\
        journal m = pre ++ [Called c (Some err); Log ErrorLevel format [err]] /\
        Forall (fun e => ~ upstreamError e) pre
  | _ => Forall (fun e => ~ upstreamError e) (journal m)
  end.

(** The catalogue: the names of the nine gauge families, each with the
    label names of its declaration. *)
Definition catalogue : list (string * list string) :=
  [("jenkins_running_build", ["jobname"; "buildid"; "isgood"]);
   ("jenkins_running_build_pipeline_status", ["jobname"; "buildid"; "id"; "stage"]);
   ("jenkins_running_build_elapsed_time", ["jobname"; "buildid"; "isgood"]);
   ("jenkins_build_success", ["jobname"; "buildid"]);
   ("jenkins_build_duration_seconds", ["jobname"; "buildid"]);
   ("jenkins_build_timestamp", ["jobname"; "buildid"]);
   ("jenkins_build_test_count", ["jobname"; "buildid"; "result"]);
   ("jenkins_build_test_case_failure_age",
    ["jobname"; "buildid"; "suite"; "case"; "status"; "failedsince"]);
   ("jenkins_build_pipeline_duration_seconds", ["jobname"; "buildid"; "id"; "stage"])].

(** Every series of the registry has one value per label of its vector. *)
Definition wellLabelled (r : Registry) : Prop :=
  forall g lvs, is_Some (series g r !! lvs) -> length lvs = length (labelNames g).

(** The path that [init] reads: the value of [-config], or its default. *)
Definition configFile (args : CommandLine) : string :=
  flag_String (config_path args) "./config.toml".

Module Startup.

(** A configuration file that does not set the update interval. *)
Definition document : toml.Document :=
  {| toml.url := Some "http://jenkins"; toml.user := None; toml.password := None;
     toml.jobs := Some ["app"]; toml.updateInterval := None |}.

(** A working directory that holds [config.toml] and nothing else. *)
Definition disk : FileSystem :=
  {| Stat := fun path => if decide (path = "./config.toml") then None
                         else Some "no such file or directory";
     ReadToml := fun _ => (document, None) |}.

(** The exporter started without any flag. *)
Definition noFlags : CommandLine := {| debug := None; config_path := None |}.

End Startup.

(** ** jenkins-metrics.go: [init] (register the metrics)

    The default registerer is seen through the names of the collectors
    it holds. *)

(** [prometheus.MustRegister(vec)]: registers the vector under its
    name; it panics ([None]) when a collector of that name is already
    registered. *)
Definition MustRegister (g : GaugeVec) (registered : list string) : option (list string) :=
  if decide (Name g ∈ registered) then None else Some (registered ++ [Name g]).

(** The nine [MustRegister] calls of the first [init], in the order of
    the source. *)
Definition registerMetrics (registered : list string) : option (list string) :=
  registered ← MustRegister jenkinsRunningBuild registered;
  registered ← MustRegister jenkinsRunningBuildElapsedTime registered;
  registered ← MustRegister jenkinsRunningBuildPipelineStatus registered;
  registered ← MustRegister jenkinsCompletedBuildSuccess registered;
  registered ← MustRegister jenkinsCompletedBuildDurationSeconds registered;
  registered ← MustRegister jenkinsCompletedBuildTimestamp registered;
  registered ← MustRegister jenkinsCompletedBuildTestCount registered;
  registered ← MustRegister jenkinsCompletedBuildPipelineDurationSeconds registered;
  MustRegister jenkinsCompletedBuildTestCaseFailureAge registered.

(** The vectors in the order in which [init] registers them. *)
Definition registrationOrder : list GaugeVec :=
  [jenkinsRunningBuild; jenkinsRunningBuildElapsedTime; jenkinsRunningBuildPipelineStatus;
   jenkinsCompletedBuildSuccess; jenkinsCompletedBuildDurationSeconds;
   jenkinsCompletedBuildTimestamp; jenkinsCompletedBuildTestCount;
   jenkinsCompletedBuildPipelineDurationSeconds; jenkinsCompletedBuildTestCaseFailureAge].

(** ** More vocabulary *)

(** The calls of a journal on the SDK methods that return an [error],
    in order. *)
Definition callsOf (evs : list Event) : list Call :=
  flat_map (fun e => match e with Called c _ => [c] | _ => [] end) evs.

(** The [time.Sleep] calls of a journal, in order. *)
Definition sleepsOf (evs : list Event) : list Z :=
  flat_map (fun e => match e with Sleep d => [d] | _ => [] end) evs.

(** An error line of the log. *)
Definition errorLog (e : Event) : Prop :=
  match e with Log ErrorLevel _ _ => True | _ => False end.

(** The largest update interval whose [time.Duration] fits in an int64. *)
Definition maxInterval : N := 9223372036.

(** Servers that answer some calls with an error. *)
Module Faulty.

(** The job [app] whose last completed build has no test report. *)
Definition unreported : Job.t :=
  {| Job.GetName := "app";
     Job.GetLastCompletedBuild := Ok Sample.build43;
     Job.GetLastBuild := Ok Sample.build43;
     Job.IsRunning := Ok false;
     Job.GetPipelineRun := fun _ => Ok {| PipelineRun.Stages := [Sample.build] |} |}.

(** The job [app] when [IsRunning] fails. *)
Definition unknown : Job.t :=
  {| Job.GetName := "app";
     Job.GetLastCompletedBuild := Ok Sample.build42;
     Job.GetLastBuild := Ok Sample.build43;
     Job.IsRunning := Err "timeout";
     Job.GetPipelineRun := fun _ => Ok {| PipelineRun.Stages := [Sample.build] |} |}.

(** The job [app], running, when the pipeline runs cannot be fetched. *)
Definition freestyle : Job.t :=
  {| Job.GetName := "app";
     Job.GetLastCompletedBuild := Ok Sample.build42;
     Job.GetLastBuild := Ok Sample.build43;
     Job.IsRunning := Ok true;
     Job.GetPipelineRun := fun _ => Err "404" |}.

Definition serving (job : Job.t) : Jenkins.t :=
  {| Jenkins.Init := Ok tt;
     Jenkins.GetJob := fun id => if decide (id = "app") then Ok job else Err "404" |}.

(** A cycle over the job [app] during which [IsRunning] fails. *)
Definition timeoutCycle : M unit :=
  updateMetrics (Sample.config ["app"]) (serving unknown).

End Faulty.

(** [MustRegister] for each vector of a list, in order. *)
Definition registerAll (gs : list GaugeVec) (registered : list string)
  : option (list string) :=
  fold_left (fun registered g => registered ≫= MustRegister g) gs (Some registered).

(** What [updateMetrics] may record: everything but a change of the log
    level and a sleep. *)
Definition cycleEvent (e : Event) : Prop :=
  match e with SetLevel _ | Sleep _ => False | _ => True end.

(** [config] with another update interval. *)
Definition withInterval (config : Config) (interval : N) : Config :=
  {| Jenkins := {| URL := URL (Jenkins config); User := User (Jenkins config);
                   Password := Password (Jenkins config); Jobs := Jobs (Jenkins config);
                   UpdateInterval := interval |} |}.

(** The total duration of the stages, in milliseconds. *)
Definition totalMillis (stages : list PipelineNode.t) : Z :=
  foldr (fun stage sum => PipelineNode.Duration stage + sum) 0 stages.

(** A server that knows two jobs. *)
Module Fleet.

(** The job [lib], idle, whose last build is the completed build 42. *)
Definition lib : Job.t :=
  {| Job.GetName := "lib";
     Job.GetLastCompletedBuild := Ok Sample.build42;
     Job.GetLastBuild := Ok Sample.build42;
     Job.IsRunning := Ok false;
     Job.GetPipelineRun := fun _ => Ok {| PipelineRun.Stages := [Sample.build] |} |}.

Definition server : Jenkins.t :=
  {| Jenkins.Init := Ok tt;
     Jenkins.GetJob := fun id => if decide (id = "app") then Ok Sample.app
                                 else if decide (id = "lib") then Ok lib else Err "404" |}.

End Fleet.

(** * Properties *)

(** ** The monad *)

Lemma bind_Next {A B} (m : M A) (k : A -> M B) evs a :
  m = (evs, Next a) -> m ≫= k = (evs ++ journal (k a), flow (k a)).
Proof. intros ->. unfold mbind, M_bind, journal, flow. by destruct (k a). Qed.



Lemma WithLabelValues_Set_ok g lvs v :
  length lvs = length (labelNames g) ->
  WithLabelValues_Set g lvs v = ([GaugeSet g lvs v], Next tt).
Proof. intros H. unfold WithLabelValues_Set. by rewrite decide_True. Qed.

Lemma range_var_cons {X V} (x : X) (xs : list X) (v : V) (body : V -> X -> M V) :
  range_var (x :: xs) v body = v' ← body v x; range_var xs v' body.
Proof. reflexivity. Qed.

(** A loop whose body only records calls runs to its end. *)
Lemma range_journal {X} (xs : list X) (body : X -> M unit) (evs : X -> list Event) :
  (forall x, body x = (evs x, Next tt)) ->
  range xs body = (flat_map evs xs, Next tt).
Proof.
  intros Hbody. induction xs as [|x xs IH]; [done|].
  cbn [range flat_map]. rewrite (bind_Next _ _ _ _ (Hbody x)), IH. done.
Qed.

(** ** The journal of the loops of [updateMetrics] *)

Lemma stages_loop job lastBuild stages elapsedTime :
  range_var stages elapsedTime
    (fun elapsedTime stage =>
       WithLabelValues_Set jenkinsRunningBuildPipelineStatus
         [Job.GetName job;
          Itoa (Build.GetBuildNumber lastBuild);
          Sprintf_03s (PipelineNode.ID stage);
          PipelineNode.Name stage]
         (stageStatus (PipelineNode.Status stage)) ;;
       mret (int64 (elapsedTime + Go.div (PipelineNode.Duration stage) 1000)))
  = (pipelineStatusSets job lastBuild stages,
     Next (elapsedTime_after elapsedTime stages)).
Proof.
  revert elapsedTime. induction stages as [|stage stages IH]; intros elapsedTime; [done|].
  rewrite range_var_cons.
  erewrite bind_Next; [|reflexivity]. rewrite IH. done.
Qed.

Lemma durations_loop job lastCompletedBuild stages :
  range stages (fun stage =>
    WithLabelValues_Set jenkinsCompletedBuildPipelineDurationSeconds
      [Job.GetName job;
       Itoa (Build.GetBuildNumber lastCompletedBuild);
       Sprintf_03s (PipelineNode.ID stage);
       PipelineNode.Name stage]
      (ofInt (Go.div (PipelineNode.Duration stage) 1000)))
  = (pipelineDurationSets job lastCompletedBuild stages, Next tt).
Proof.
  unfold pipelineDurationSets.
  rewrite (range_journal stages _ (fun stage =>
    [GaugeSet jenkinsCompletedBuildPipelineDurationSeconds
       (stageLabels job lastCompletedBuild stage)
       (ofInt (Go.div (PipelineNode.Duration stage) 1000))]))
    by (intros stage; by apply WithLabelValues_Set_ok).
  by f_equal.
Qed.

Lemma failures_loop name buildid suites :
  range suites (fun suite =>
    range (Suite.Cases suite) (fun testcase =>
      if negb (TestCase.Skipped testcase)
         && negb (bool_decide (TestCase.Status testcase = "PASSED"))
      then
        WithLabelValues_Set jenkinsCompletedBuildTestCaseFailureAge
          ([name; buildid] ++ [Suite.Name suite;
                               TestCase.Name testcase;
                               TestCase.Status testcase;
                               Itoa (TestCase.FailedSince testcase)])
          (ofInt (TestCase.Age testcase))
      else mret tt))
  = (failureAgeSets [name; buildid] suites, Next tt).
Proof.
  unfold failureAgeSets. apply range_journal. intros suite.
  apply range_journal. intros testcase. unfold reported, failureLabels.
  destruct (_ && _); [by apply WithLabelValues_Set_ok | done].
Qed.

(** ** Symbolic execution of a block *)

Lemma prepend_pair {A} evs evs' (f : Flow A) : prepend evs (evs', f) = (evs ++ evs', f).
Proof. done. Qed.

Lemma prepend_prepend {A} evs evs' (m : M A) :
  prepend evs (prepend evs' m) = prepend (evs ++ evs') m.
Proof. unfold prepend; cbn. by rewrite app_assoc. Qed.



Lemma bind_pair_Next {A B} evs (a : A) (k : A -> M B) :
  (evs, Next a) ≫= k = prepend evs (k a).
Proof. unfold prepend, mbind, M_bind, journal, flow. by destruct (k a). Qed.

Lemma bind_sdk {A B} c (r : result A) (k : result A -> M B) :
  sdk c r ≫= k = prepend [Called c (err_of r)] (k r).
Proof. apply bind_pair_Next. Qed.

Lemma bind_check_Ok {A B} (a : A) format (k : A -> M B) :
  check (Ok a) format ≫= k = k a.
Proof. unfold check. cbn. by destruct (k a). Qed.

Lemma bind_check_Err {A B} err format (k : A -> M B) :
  check (Err err) format ≫= k = ([Log ErrorLevel format [err]], Returned).
Proof. done. Qed.

Lemma bind_deref_Ok {A B} (a : A) (k : A -> M B) : deref (Ok a) ≫= k = k a.
Proof. unfold deref. cbn. by destruct (k a). Qed.

Lemma bind_deref_Err {A B} err (k : A -> M B) :
  deref (Err err) ≫= k = ([], Panicked NilDereference).
Proof. done. Qed.

Lemma bind_Set {B} g lvs v (k : unit -> M B) :
  length lvs = length (labelNames g) ->
  WithLabelValues_Set g lvs v ≫= k = prepend [GaugeSet g lvs v] (k tt).
Proof. intros H. rewrite WithLabelValues_Set_ok by done. apply bind_pair_Next. Qed.

Lemma bind_prepend {A B} evs (m : M A) (k : A -> M B) :
  prepend evs m ≫= k = prepend evs (m ≫= k).
Proof.
  destruct m as [evs' [a| | |]]; unfold prepend, mbind, M_bind; cbn; try done.
  destruct (k a). cbn. by rewrite app_assoc.
Qed.

Lemma bind_ret {A B} (a : A) (k : A -> M B) : mret a ≫= k = k a.
Proof. unfold mret, M_ret, mbind, M_bind. by destruct (k a). Qed.

(** ** The runs of the loop body, case by case *)

Lemma finishJob_eq jobname job lastCompletedBuild resultset :
   (WithLabelValues_Set jenkinsCompletedBuildSuccess
      [Job.GetName job; Itoa (Build.GetBuildNumber lastCompletedBuild)]
      (buildResult (Build.GetResult lastCompletedBuild)) ;;
    range (TestResult.Suites resultset) (fun suite =>
      range (Suite.Cases suite) (fun testcase =>
        if negb (TestCase.Skipped testcase)
           && negb (bool_decide (TestCase.Status testcase = "PASSED"))
        then
          WithLabelValues_Set jenkinsCompletedBuildTestCaseFailureAge
            ([Job.GetName job; Itoa (Build.GetBuildNumber lastCompletedBuild)] ++
             [Suite.Name suite;
              TestCase.Name testcase;
              TestCase.Status testcase;
              Itoa (TestCase.FailedSince testcase)])
            (ofInt (TestCase.Age testcase))
        else mret tt)) ;;
    r ← sdk (CallGetPipelineRun (Itoa (Build.GetBuildNumber lastCompletedBuild)))
            (Job.GetPipelineRun job (Itoa (Build.GetBuildNumber lastCompletedBuild)));
    lastCompletedPipeline ← deref r;
    range (PipelineRun.Stages lastCompletedPipeline) (fun stage =>
      WithLabelValues_Set jenkinsCompletedBuildPipelineDurationSeconds
        [Job.GetName job;
         Itoa (Build.GetBuildNumber lastCompletedBuild);
         Sprintf_03s (PipelineNode.ID stage);
         PipelineNode.Name stage]
        (ofInt (Go.div (PipelineNode.Duration stage) 1000))) ;;
    Debugf "Finished collecting metrics for job: %s" [jobname])
   = finishJob jobname job lastCompletedBuild resultset.
Proof.
  unfold finishJob, testsJournal.
  rewrite bind_Set by reflexivity.
  rewrite failures_loop, bind_pair_Next, prepend_prepend.
  apply (f_equal (prepend _)).
  rewrite bind_sdk.
  destruct (Job.GetPipelineRun _ _) as [lastCompletedPipeline|err]; [|done].
  rewrite bind_deref_Ok, durations_loop, bind_pair_Next.
  done.
Qed.

Lemma updateJob_eq jenkinsCli jobname :
  updateJob jenkinsCli jobname = updateJob_runs jenkinsCli jobname.
Proof.
  unfold updateJob, updateJob_runs. cbv zeta.
  rewrite bind_sdk.
  destruct (Jenkins.GetJob jenkinsCli jobname) as [job|err]; [|done].
  cbv beta. rewrite bind_check_Ok, bind_sdk.
  destruct (Job.GetLastCompletedBuild job) as [lastCompletedBuild|err]; [|done].
  cbv beta. rewrite bind_check_Ok, bind_sdk.
  destruct (Job.GetLastBuild job) as [lastBuild|err]; [|done].
  cbv beta. rewrite bind_check_Ok.
  rewrite !bind_Set by reflexivity.
  rewrite !prepend_prepend.
  apply (f_equal (prepend _)).
  rewrite bind_sdk.
  destruct (Build.GetResultSet lastCompletedBuild) as [resultset|err]; [|done].
  cbv beta. cbn [WithLabelValues_Set_deref].
  rewrite bind_Set, bind_deref_Ok by reflexivity.
  rewrite finishJob_eq.
  rewrite !bind_Set by reflexivity.
  rewrite bind_sdk.
  rewrite bind_Set by reflexivity.
  rewrite !prepend_prepend.
  apply (f_equal (prepend _)).
  fold (isRunning job).
  destruct (isRunning job).
  - rewrite decide_True by done.
    rewrite bind_sdk.
    destruct (Job.GetPipelineRun job (Itoa (Build.GetBuildNumber lastBuild))) as [livePipe|err];
      [|done].
    cbv beta. rewrite bind_deref_Ok, stages_loop, bind_pair_Next.
    rewrite WithLabelValues_Set_ok by done.
    rewrite !prepend_pair, bind_pair_Next. done.
  - rewrite decide_False by done. by rewrite bind_ret.
Qed.

(** ** What a journal says about one gauge vector *)

Lemma journal_bind {A B} (m : M A) (k : A -> M B) :
  journal (m ≫= k) =
  journal m ++ match flow m with Next a => journal (k a) | _ => [] end.
Proof.
  destruct m as [evs [a| | |]]; unfold mbind, M_bind, journal; cbn;
    try by rewrite app_nil_r.
  by destruct (k a).
Qed.

Lemma flow_bind {A B} (m : M A) (k : A -> M B) :
  flow (m ≫= k) =
  match flow m with
  | Next a => flow (k a)
  | Returned => Returned
  | Panicked p => Panicked p
  | Exited s => Exited s
  end.
Proof.
  destruct m as [evs [a| | |]]; unfold mbind, M_bind, flow; cbn; try done.
  by destruct (k a).
Qed.

Lemma pipelineStatusSets_Forall (P : Event -> Prop) job lastBuild stages :
  (forall stage, P (GaugeSet jenkinsRunningBuildPipelineStatus
                      (stageLabels job lastBuild stage)
                      (stageStatus (PipelineNode.Status stage)))) ->
  Forall P (pipelineStatusSets job lastBuild stages).
Proof. intros HP. unfold pipelineStatusSets. apply Forall_fmap, Forall_forall. intros; apply HP. Qed.

Lemma pipelineDurationSets_Forall (P : Event -> Prop) job lastCompletedBuild stages :
  (forall stage, P (GaugeSet jenkinsCompletedBuildPipelineDurationSeconds
                      (stageLabels job lastCompletedBuild stage)
                      (ofInt (Go.div (PipelineNode.Duration stage) 1000)))) ->
  Forall P (pipelineDurationSets job lastCompletedBuild stages).
Proof. intros HP. unfold pipelineDurationSets. apply Forall_fmap, Forall_forall. intros; apply HP. Qed.

Lemma failureAgeSets_Forall (P : Event -> Prop) args suites :
  (forall suite testcase,
     P (GaugeSet jenkinsCompletedBuildTestCaseFailureAge
          (failureLabels args suite testcase) (ofInt (TestCase.Age testcase)))) ->
  Forall P (failureAgeSets args suites).
Proof.
  intros HP. unfold failureAgeSets.
  induction suites as [|suite suites IH]; cbn [flat_map]; [constructor|].
  apply Forall_app; split; [|done].
  induction (Suite.Cases suite) as [|testcase cases IHc]; cbn [flat_map]; [constructor|].
  apply Forall_app; split; [|done].
  destruct (reported testcase); repeat constructor. apply HP.
Qed.

(** Discharges [Forall P] on a journal of the case table. *)
Ltac journal_Forall :=
  repeat first
    [ apply Forall_nil_2
    | apply Forall_cons; split
    | apply Forall_app; split
    | apply pipelineStatusSets_Forall; intros ?
    | apply pipelineDurationSets_Forall; intros ?
    | apply failureAgeSets_Forall; intros ? ? ].

(** Case analysis on the answers of the SDK, following the case table. *)
Ltac job_cases jenkinsCli jobname :=
  rewrite ?updateJob_eq; unfold updateJob_runs, finishJob, nilPipeline;
  destruct (Jenkins.GetJob jenkinsCli jobname) as [job|?] eqn:HGetJob;
  [ destruct (Job.GetLastCompletedBuild job) as [lastCompletedBuild|?] eqn:HLastCompleted;
    [ destruct (Job.GetLastBuild job) as [lastBuild|?] eqn:HLastBuild;
      [ destruct (Build.GetResultSet lastCompletedBuild) as [resultset|?] eqn:HResultSet;
        [ destruct (Job.GetPipelineRun job (Itoa (Build.GetBuildNumber lastCompletedBuild)))
            as [lastCompletedPipeline|?] eqn:HCompletedPipeline;
          (destruct (isRunning job) eqn:HisRunning;
           [ destruct (Job.GetPipelineRun job (Itoa (Build.GetBuildNumber lastBuild)))
               as [livePipe|?] eqn:HLivePipe | ])
        | ]
      | ]
    | ]
  | ];
  rewrite ?prepend_prepend, ?prepend_pair.

Lemma updateJob_events jenkinsCli jobname :
  Forall (jobEvent jenkinsCli jobname) (journal (updateJob jenkinsCli jobname)).
Proof.
  job_cases jenkinsCli jobname; unfold journal; cbn [fst];
    unfold fetchedJournal, countsJournal, liveJournal, testsJournal, completedJournal;
    journal_Forall; cbn; eauto.
Qed.

(** ** Replaying a journal *)

Lemma series_withSeries g g' s r :
  series g (withSeries g' s r) = if decide (g' = g) then s else series g r.
Proof. by destruct g, g'. Qed.

Lemma series_apply g e r :
  series g (apply e r) =
  match e with
  | GaugeReset g' => if decide (g' = g) then ∅ else series g r
  | GaugeSet g' lvs v => if decide (g' = g) then <[lvs := v]> (series g r) else series g r
  | GaugeWith g' lvs =>
      if decide (g' = g)
      then <[lvs := default (ofInt 0) (series g r !! lvs)]> (series g r)
      else series g r
  | _ => series g r
  end.
Proof.
  destruct e; try done; cbn [apply];
    unfold prometheus.Reset, prometheus.Set_, prometheus.With;
    rewrite series_withSeries; by case_decide; subst.
Qed.

Lemma replay_app evs evs' r : replay (evs ++ evs') r = replay evs' (replay evs r).
Proof. apply fold_left_app. Qed.

(** A series that a scrape sees was either there before the journal,
    or stored by a [Set] call of the journal, or created by a
    [WithLabelValues] call of the journal. *)
Lemma replay_lookup_inv g lvs v evs r :
  series g (replay evs r) !! lvs = Some v ->
  series g r !! lvs = Some v \/ In (GaugeSet g lvs v) evs \/ In (GaugeWith g lvs) evs.
Proof.
  revert r. induction evs as [|e evs IH]; intros r; [by left|].
  cbn [replay fold_left]. intros H.
  apply IH in H as [H|[H|H]]; [|right; left; by right|right; right; by right].
  rewrite series_apply in H. destruct e; auto.
  - case_decide; [by rewrite lookup_empty in H | auto].
  - case_decide; [|auto]. subst.
    destruct (decide (lvs0 = lvs)) as [->|Hne].
    + rewrite lookup_insert_eq in H. injection H as ->. right; left; by left.
    + rewrite lookup_insert_ne in H by done. auto.
  - case_decide; [|auto]. subst.
    destruct (decide (lvs0 = lvs)) as [->|Hne].
    + right; right; by left.
    + rewrite lookup_insert_ne in H by done. auto.
Qed.

(** Without [Reset] and without [WithLabelValues] alone, the vector [g]
    after the journal is its content before, updated by the [Set] calls
    on [g] in order. *)
Lemma series_replay g evs r :
  Forall (fun e => e <> GaugeReset g /\ forall lvs, e <> GaugeWith g lvs) evs ->
  series g (replay evs r) =
  fold_left (fun s p => <[p.1 := p.2]> s) (setsOf g evs) (series g r).
Proof.
  revert r. induction evs as [|e evs IH]; intros r Hevs; [done|].
  apply Forall_cons in Hevs as [[He Hwith] Hevs].
  cbn [replay fold_left setsOf flat_map]. rewrite fold_left_app.
  fold (replay evs (apply e r)). fold (setsOf g evs).
  rewrite IH by done. f_equal. rewrite series_apply.
  destruct e; try done; case_decide; subst; try done.
  by destruct (Hwith lvs).
Qed.

Lemma apply_is_Some g e r lvs :
  e <> GaugeReset g ->
  is_Some (series g (apply e r) !! lvs) <->
  is_Some (series g r !! lvs) \/ (exists v, e = GaugeSet g lvs v) \/ e = GaugeWith g lvs.
Proof.
  intros He. rewrite series_apply.
  destruct e; try (split; [by left|by intros [?|[[? [=]]|[=]]]]).
  - case_decide; [by subst|]. split; [by left|by intros [?|[[? [=]]|[=]]]].
  - case_decide as Hg.
    + subst. destruct (decide (lvs0 = lvs)) as [->|Hne].
      * rewrite lookup_insert_eq. split; [|done]. intros _. right. left. by exists v.
      * rewrite lookup_insert_ne by done. split; [by left|].
        intros [?|[[v' [=]]|[=]]]; [done|congruence].
    + split; [by left|]. intros [?|[[v' [=]]|[=]]]; [done|congruence].
  - case_decide as Hg.
    + subst. destruct (decide (lvs0 = lvs)) as [->|Hne].
      * rewrite lookup_insert_eq. split; [|done]. intros _. right. by right.
      * rewrite lookup_insert_ne by done. split; [by left|].
        intros [?|[[v' [=]]|[=]]]; [done|congruence].
    + split; [by left|]. intros [?|[[v' [=]]|[=]]]; [done|congruence].
Qed.

(** Without [Reset], a series is there after the journal when it was
    there before, or a [Set] call of the journal stored it, or a
    [WithLabelValues] call of the journal created it. *)
Lemma series_replay_is_Some g evs r lvs :
  Forall (fun e => e <> GaugeReset g) evs ->
  is_Some (series g (replay evs r) !! lvs) <->
  is_Some (series g r !! lvs) \/ (exists v, In (GaugeSet g lvs v) evs) \/
  In (GaugeWith g lvs) evs.
Proof.
  revert r. induction evs as [|e evs IH]; intros r Hevs.
  { cbn. split; [by left|]. by intros [?|[[? []]|[]]]. }
  apply Forall_cons in Hevs as [He Hevs].
  cbn [replay fold_left]. fold (replay evs (apply e r)).
  rewrite IH, apply_is_Some by done. cbn [In]. split.
  - intros [[?|[[v ?]|?]]|[[v ?]|?]]; eauto 6.
  - intros [?|[[v [?|?]]|[?|?]]]; eauto 6.
Qed.

Lemma replay_silent evs r : Forall silent evs -> replay evs r = r.
Proof.
  revert r. induction evs as [|e evs IH]; intros r Hevs; [done|].
  apply Forall_cons in Hevs as [He Hevs]. cbn [replay fold_left].
  fold (replay evs (apply e r)). rewrite IH by done. by destruct e.
Qed.

Lemma setsOf_app g evs evs' : setsOf g (evs ++ evs') = setsOf g evs ++ setsOf g evs'.
Proof. apply flat_map_app. Qed.


Lemma setsOf_pipelineStatusSets g job lastBuild stages :
  setsOf g (pipelineStatusSets job lastBuild stages) =
  if decide (jenkinsRunningBuildPipelineStatus = g)
  then map (fun stage => (stageLabels job lastBuild stage,
                          stageStatus (PipelineNode.Status stage))) stages
  else [].
Proof.
  unfold setsOf, pipelineStatusSets.
  induction stages as [|stage stages IH]; cbn [map flat_map]; [by case_decide|].
  rewrite IH. by case_decide.
Qed.

Lemma setsOf_pipelineDurationSets g job lastCompletedBuild stages :
  setsOf g (pipelineDurationSets job lastCompletedBuild stages) =
  if decide (jenkinsCompletedBuildPipelineDurationSeconds = g)
  then map (fun stage => (stageLabels job lastCompletedBuild stage,
                          ofInt (Go.div (PipelineNode.Duration stage) 1000))) stages
  else [].
Proof.
  unfold setsOf, pipelineDurationSets.
  induction stages as [|stage stages IH]; cbn [map flat_map]; [by case_decide|].
  rewrite IH. by case_decide.
Qed.

Lemma setsOf_failureAgeSets g args suites :
  setsOf g (failureAgeSets args suites) =
  if decide (jenkinsCompletedBuildTestCaseFailureAge = g)
  then failureSeries args suites else [].
Proof.
  unfold failureAgeSets, failureSeries.
  induction suites as [|suite suites IH]; cbn [flat_map]; [by case_decide|].
  rewrite setsOf_app, IH.
  assert (setsOf g
            (flat_map (fun testcase =>
               if reported testcase
               then [GaugeSet jenkinsCompletedBuildTestCaseFailureAge
                       (failureLabels args suite testcase)
                       (ofInt (TestCase.Age testcase))]
               else []) (Suite.Cases suite)) =
          if decide (jenkinsCompletedBuildTestCaseFailureAge = g)
          then flat_map (fun testcase =>
                 if reported testcase
                 then [(failureLabels args suite testcase, ofInt (TestCase.Age testcase))]
                 else []) (Suite.Cases suite)
          else []) as ->.
  { induction (Suite.Cases suite) as [|testcase cases IHc]; cbn [flat_map];
      [by case_decide|].
    rewrite setsOf_app, IHc. destruct (reported testcase); cbn; by case_decide. }
  by case_decide.
Qed.

Lemma setsOf_step g e evs :
  setsOf g (e :: evs) =
  match e with
  | GaugeSet g' lvs v => if decide (g' = g) then [(lvs, v)] else []
  | _ => []
  end ++ setsOf g evs.
Proof. reflexivity. Qed.

Lemma setsOf_nil g : setsOf g [] = [].
Proof. reflexivity. Qed.

Lemma In_setsOf g lvs v evs :
  In (lvs, v) (setsOf g evs) <-> In (GaugeSet g lvs v) evs.
Proof.
  induction evs as [|e evs IH]; [done|].
  rewrite setsOf_step, in_app_iff, IH. cbn [In]. split.
  - intros [H|H]; [left|by right].
    destruct e; try done. case_decide; [|done]. destruct H as [[= -> ->]|[]]. by subst.
  - intros [->|H]; [left|by right]. rewrite decide_True by done. by left.
Qed.

(** Computes [setsOf] on a journal of the case table. *)
Ltac setsOf_journal :=
  unfold fetchedJournal, countsJournal, liveJournal, testsJournal, completedJournal;
  repeat first
    [ rewrite setsOf_app | rewrite setsOf_step | rewrite setsOf_nil
    | rewrite setsOf_pipelineStatusSets | rewrite setsOf_pipelineDurationSets
    | rewrite setsOf_failureAgeSets
    | rewrite decide_True by done
    | rewrite decide_False by done ];
  cbn [app]; rewrite ?app_nil_r.

(** A run of the body that reaches its last statement. *)
Lemma updateJob_Next jenkinsCli jobname evs :
  updateJob jenkinsCli jobname = (evs, Next tt) ->
  exists job lastCompletedBuild lastBuild resultset lastCompletedPipeline,
    Jenkins.GetJob jenkinsCli jobname = Ok job /\
    Job.GetLastCompletedBuild job = Ok lastCompletedBuild /\
    Job.GetLastBuild job = Ok lastBuild /\
    Build.GetResultSet lastCompletedBuild = Ok resultset /\
    Job.GetPipelineRun job (Itoa (Build.GetBuildNumber lastCompletedBuild))
      = Ok lastCompletedPipeline /\
    ((isRunning job = false /\
      evs = (fetchedJournal jobname job lastCompletedBuild ++
             countsJournal job lastCompletedBuild lastBuild resultset) ++
            testsJournal job lastCompletedBuild resultset ++
            completedJournal jobname job lastCompletedBuild lastCompletedPipeline) \/
     (isRunning job = true /\
      exists livePipe,
        Job.GetPipelineRun job (Itoa (Build.GetBuildNumber lastBuild)) = Ok livePipe /\
        evs = (((fetchedJournal jobname job lastCompletedBuild ++
                 countsJournal job lastCompletedBuild lastBuild resultset) ++
                liveJournal job lastBuild livePipe) ++
               testsJournal job lastCompletedBuild resultset) ++
              completedJournal jobname job lastCompletedBuild lastCompletedPipeline)).
Proof.
  job_cases jenkinsCli jobname; intros [= <-];
    exists job, lastCompletedBuild, lastBuild, resultset, lastCompletedPipeline;
    repeat split; try done.
  - right. split; [done|]. by exists livePipe.
  - by left.
Qed.

(** ** int64 arithmetic of the elapsed time *)

Lemma int64_small z : min_int64 <= z <= max_int64 -> int64 z = z.
Proof.
  unfold min_int64, max_int64, int64. intros H.
  rewrite Z.mod_small; lia.
Qed.

Lemma int64_add_l a b : int64 (int64 a + b) = int64 (a + b).
Proof.
  unfold int64. f_equal.
  replace ((a + 2 ^ 63) mod 2 ^ 64 - 2 ^ 63 + b + 2 ^ 63)
    with ((a + 2 ^ 63) mod 2 ^ 64 + b) by lia.
  rewrite Zplus_mod_idemp_l. f_equal. lia.
Qed.

Lemma elapsedTime_after_int64 e stages :
  elapsedTime_after (int64 e) stages = int64 (e + stageSeconds stages).
Proof.
  revert e. induction stages as [|stage stages IH]; intros e; cbn.
  - by rewrite Z.add_0_r.
  - fold (elapsedTime_after
            (int64 (int64 e + Go.div (PipelineNode.Duration stage) 1000)) stages).
    rewrite IH, <- Z.add_assoc, int64_add_l. done.
Qed.

Lemma elapsedTime_after_0 stages :
  elapsedTime_after 0 stages = int64 (stageSeconds stages).
Proof. apply (elapsedTime_after_int64 0). Qed.

(** ** A sample server *)

Example updateJob_app_elapsed :
  setsOf jenkinsRunningBuildElapsedTime (journal (updateJob Sample.server "app"))
  = [(["app"; "43"; "0"], ofInt 1)].
Proof. vm_compute. reflexivity. Qed.

Example updateJob_app_status :
  setsOf jenkinsRunningBuildPipelineStatus (journal (updateJob Sample.server "app"))
  = [(["app"; "43"; "006"; "Build"], ofInt 0); (["app"; "43"; "012"; "Test"], ofInt 1)].
Proof. vm_compute. reflexivity. Qed.

Example updateMetrics_missing_job :
  flow (updateMetrics (Sample.config ["app"; "gone"; "app"]) Sample.server) = Returned.
Proof. vm_compute. reflexivity. Qed.

(** ** The gauges of one job *)

(** A run of the body that reaches its last statement has made no
    [WithLabelValues] call without its [Set]. *)
Lemma updateJob_Next_events jenkinsCli jobname evs :
  updateJob jenkinsCli jobname = (evs, Next tt) ->
  Forall (fun e => forall g lvs, e <> GaugeWith g lvs) evs.
Proof.
  intros Hrun.
  destruct (updateJob_Next _ _ _ Hrun)
    as (job & lastCompletedBuild & lastBuild & resultset & lastCompletedPipeline &
        _ & _ & _ & _ & _ & Hevs).
  destruct Hevs as [[_ ->]|[_ (livePipe & _ & ->)]];
    unfold fetchedJournal, countsJournal, liveJournal, testsJournal, completedJournal;
    journal_Forall; done.
Qed.

Lemma updateJob_series g jenkinsCli jobname evs r :
  updateJob jenkinsCli jobname = (evs, Next tt) ->
  series g (replay evs r) =
  fold_left (fun s p => <[p.1 := p.2]> s) (setsOf g evs) (series g r).
Proof.
  intros Hrun. apply series_replay.
  assert (Hev := updateJob_events jenkinsCli jobname). rewrite Hrun in Hev.
  apply Forall_and. split.
  - eapply Forall_impl; [exact Hev|]. by intros e He ->.
  - eapply Forall_impl; [by apply (updateJob_Next_events jenkinsCli jobname)|].
    intros e He lvs. apply He.
Qed.

(** C2.  When the body of the loop has run for a job, it has set
    jenkins_build_success exactly once, on the labels (job name, number
    of the last completed build), to 0 if the result of that build is
    the string FAILURE and to 1 for every other result; a scrape then
    reads that value. *)
Theorem build_success_value jenkinsCli jobname evs :
  updateJob jenkinsCli jobname = (evs, Next tt) ->
  exists job lastCompletedBuild v,
    Jenkins.GetJob jenkinsCli jobname = Ok job /\
    Job.GetLastCompletedBuild job = Ok lastCompletedBuild /\
    setsOf jenkinsCompletedBuildSuccess evs =
      [([Job.GetName job; Itoa (Build.GetBuildNumber lastCompletedBuild)], v)] /\
    (Build.GetResult lastCompletedBuild = "FAILURE" -> v = ofInt 0) /\
    (Build.GetResult lastCompletedBuild <> "FAILURE" -> v = ofInt 1) /\
    forall r,
      series jenkinsCompletedBuildSuccess (replay evs r)
        !! [Job.GetName job; Itoa (Build.GetBuildNumber lastCompletedBuild)] = Some v.
Proof.
  intros Hrun.
  assert (Hseries := fun r =>
            updateJob_series jenkinsCompletedBuildSuccess jenkinsCli jobname evs r Hrun).
  destruct (updateJob_Next _ _ _ Hrun)
    as (job & lastCompletedBuild & lastBuild & resultset & lastCompletedPipeline &
        HJob & HCompleted & HLast & HResult & HPipeline & Hevs).
  exists job, lastCompletedBuild, (buildResult (Build.GetResult lastCompletedBuild)).
  assert (setsOf jenkinsCompletedBuildSuccess evs =
          [(commonArgs job lastCompletedBuild,
            buildResult (Build.GetResult lastCompletedBuild))]) as Hsets.
  { destruct Hevs as [[_ ->]|[_ (livePipe & _ & ->)]]; by setsOf_journal. }
  split_and!; try done.
  - intros ->. reflexivity.
  - intros Hne. unfold buildResult. by rewrite decide_False.
  - intros r. rewrite Hseries, Hsets. cbn. apply lookup_insert_eq.
Qed.

Lemma build_success_value_witness :
  exists job lastCompletedBuild v,
    Jenkins.GetJob Sample.server "app" = Ok job /\
    Job.GetLastCompletedBuild job = Ok lastCompletedBuild /\
    setsOf jenkinsCompletedBuildSuccess (journal (updateJob Sample.server "app")) =
      [([Job.GetName job; Itoa (Build.GetBuildNumber lastCompletedBuild)], v)] /\
    (Build.GetResult lastCompletedBuild = "FAILURE" -> v = ofInt 0) /\
    (Build.GetResult lastCompletedBuild <> "FAILURE" -> v = ofInt 1) /\
    forall r,
      series jenkinsCompletedBuildSuccess
        (replay (journal (updateJob Sample.server "app")) r)
        !! [Job.GetName job; Itoa (Build.GetBuildNumber lastCompletedBuild)] = Some v.
Proof.
  apply (build_success_value Sample.server "app"). vm_compute. reflexivity.
Defined.

(** C3.  The value stored in jenkins_running_build_pipeline_status for a
    stage is a function of the status string of the stage: SUCCESS gives
    0, IN_PROGRESS 1, UNSTABLE 2, FAILED 3, any other string -1.  When
    the body of the loop has run for a job that is running, the [Set]
    calls on that vector are, in order, one per stage of the pipeline
    run of the last build, with that value; when the job is not running
    there is none. *)
Theorem pipeline_status_value jenkinsCli jobname evs :
  updateJob jenkinsCli jobname = (evs, Next tt) ->
  (forall Status,
     (Status = "SUCCESS" -> stageStatus Status = ofInt 0) /\
     (Status = "IN_PROGRESS" -> stageStatus Status = ofInt 1) /\
     (Status = "UNSTABLE" -> stageStatus Status = ofInt 2) /\
     (Status = "FAILED" -> stageStatus Status = ofInt 3) /\
     (Status <> "SUCCESS" -> Status <> "IN_PROGRESS" -> Status <> "UNSTABLE" ->
      Status <> "FAILED" -> stageStatus Status = ofInt (-1))) /\
  exists job lastBuild,
    Jenkins.GetJob jenkinsCli jobname = Ok job /\
    Job.GetLastBuild job = Ok lastBuild /\
    (isRunning job = false -> setsOf jenkinsRunningBuildPipelineStatus evs = []) /\
    (isRunning job = true ->
     exists livePipe,
       Job.GetPipelineRun job (Itoa (Build.GetBuildNumber lastBuild)) = Ok livePipe /\
       setsOf jenkinsRunningBuildPipelineStatus evs =
         map (fun stage =>
                ([Job.GetName job; Itoa (Build.GetBuildNumber lastBuild);
                  Sprintf_03s (PipelineNode.ID stage); PipelineNode.Name stage],
                 stageStatus (PipelineNode.Status stage)))
             (PipelineRun.Stages livePipe)).
Proof.
  intros Hrun. split.
  - intros Status. unfold stageStatus.
    split_and!; [by intros -> ..|]. intros. by rewrite !decide_False.
  - destruct (updateJob_Next _ _ _ Hrun)
      as (job & lastCompletedBuild & lastBuild & resultset & lastCompletedPipeline &
          HJob & HCompleted & HLast & HResult & HPipeline & Hevs).
    exists job, lastBuild. split_and!; try done.
    + intros Hnot. destruct Hevs as [[_ ->]|[Hrunning _]]; [|congruence].
      by setsOf_journal.
    + intros Hrunning. destruct Hevs as [[Hnot _]|[_ (livePipe & Hlive & ->)]]; [congruence|].
      exists livePipe. split; [done|]. by setsOf_journal.
Qed.

Lemma pipeline_status_value_witness :
  setsOf jenkinsRunningBuildPipelineStatus (journal (updateJob Sample.server "app"))
  = [(["app"; "43"; "006"; "Build"], ofInt 0); (["app"; "43"; "012"; "Test"], ofInt 1)].
Proof.
  destruct (pipeline_status_value Sample.server "app"
              (journal (updateJob Sample.server "app")))
    as (_ & job & lastBuild & HJob & HLast & _ & Hrunning);
    [vm_compute; reflexivity|].
  injection HJob as <-. injection HLast as <-.
  destruct Hrunning as (livePipe & Hlive & ->); [reflexivity|].
  injection Hlive as <-. reflexivity.
Defined.

(** C9.  When the body of the loop has run for a job, a [Set] call on
    jenkins_build_test_case_failure_age with given labels and value has
    been made if and only if the result set of the last completed build
    has a test case that is not skipped and whose status is not the
    string PASSED, whose age is the value and for which the labels are:
    job name, number of the last completed build, suite name, case
    name, status, failed-since build number.  A series that was not in
    the registry before is in it afterwards exactly when there is such a
    case with these labels. *)
Theorem failure_age_series jenkinsCli jobname evs :
  updateJob jenkinsCli jobname = (evs, Next tt) ->
  exists job lastCompletedBuild resultset,
    Jenkins.GetJob jenkinsCli jobname = Ok job /\
    Job.GetLastCompletedBuild job = Ok lastCompletedBuild /\
    Build.GetResultSet lastCompletedBuild = Ok resultset /\
    (forall lvs v,
       In (GaugeSet jenkinsCompletedBuildTestCaseFailureAge lvs v) evs <->
       failedCase job lastCompletedBuild resultset lvs v) /\
    (forall r lvs,
       series jenkinsCompletedBuildTestCaseFailureAge r !! lvs = None ->
       is_Some (series jenkinsCompletedBuildTestCaseFailureAge (replay evs r) !! lvs) <->
       exists v, failedCase job lastCompletedBuild resultset lvs v).
Proof.
  intros Hrun.
  assert (Hnoreset : Forall (fun e => e <> GaugeReset jenkinsCompletedBuildTestCaseFailureAge)
                            evs).
  { assert (Hev := updateJob_events jenkinsCli jobname). rewrite Hrun in Hev.
    eapply Forall_impl; [exact Hev|]. by intros e He ->. }
  destruct (updateJob_Next _ _ _ Hrun)
    as (job & lastCompletedBuild & lastBuild & resultset & lastCompletedPipeline &
        HJob & HCompleted & HLast & HResult & HPipeline & Hevs).
  exists job, lastCompletedBuild, resultset.
  assert (forall lvs v,
       In (GaugeSet jenkinsCompletedBuildTestCaseFailureAge lvs v) evs <->
       failedCase job lastCompletedBuild resultset lvs v) as Hsets.
  { intros lvs v. rewrite <- In_setsOf.
    assert (setsOf jenkinsCompletedBuildTestCaseFailureAge evs =
            failureSeries (commonArgs job lastCompletedBuild) (TestResult.Suites resultset))
      as ->.
    { destruct Hevs as [[_ ->]|[_ (livePipe & _ & ->)]]; by setsOf_journal. }
    unfold failureSeries, failedCase. rewrite in_flat_map. split.
    - intros (suite & Hsuite & Hin). apply in_flat_map in Hin as (testcase & Hcase & Hin).
      exists suite, testcase. unfold reported in Hin.
      destruct (TestCase.Skipped testcase); [done|].
      destruct (bool_decide_reflect (TestCase.Status testcase = "PASSED")); [done|].
      destruct Hin as [[= <- <-]|[]]. by split_and!.
    - intros (suite & testcase & Hsuite & Hcase & Hskip & Hstatus & -> & ->).
      exists suite. split; [done|]. apply in_flat_map. exists testcase. split; [done|].
      unfold reported. rewrite Hskip, bool_decide_eq_false_2 by done. by left. }
  split_and!; try done.
  intros r lvs Hfresh. rewrite series_replay_is_Some, Hfresh by done. split.
  - intros [[? [=]]|[[v Hin]|Hin]]; [exists v; by apply Hsets|].
    assert (Hset := updateJob_Next_events _ _ _ Hrun). rewrite Forall_forall in Hset.
    apply list_elem_of_In in Hin.
    by destruct (Hset _ Hin jenkinsCompletedBuildTestCaseFailureAge lvs).
  - intros [v Hcase]. right. left. exists v. by apply Hsets.
Qed.

Lemma failure_age_series_witness :
  In (GaugeSet jenkinsCompletedBuildTestCaseFailureAge
        ["app"; "42"; "s"; "t1"; "FAILED"; "40"] (ofInt 3))
     (journal (updateJob Sample.server "app")).
Proof.
  destruct (failure_age_series Sample.server "app" (journal (updateJob Sample.server "app")))
    as (job & lastCompletedBuild & resultset & HJob & HCompleted & HResult & Hiff & _);
    [vm_compute; reflexivity|].
  injection HJob as <-. injection HCompleted as <-. injection HResult as <-.
  apply Hiff. exists {| Suite.Cases := [Sample.failing; Sample.passing]; Suite.Name := "s" |},
    Sample.failing.
  split_and!; try reflexivity; [by left | by left | discriminate].
Defined.

(** C10.  When the body of the loop has run for a job, it has set
    jenkins_running_build once, to 1 if the job is running and to 0
    otherwise.  It has set jenkins_running_build_elapsed_time if and
    only if the job is running, and then once, on the same labels, to
    the sum over the stages of the running pipeline of the stage
    duration divided by 1000 with truncation; the sum is computed on
    int64, and is the exact sum whenever that fits in an int64. *)
Theorem running_build_elapsed_time jenkinsCli jobname evs :
  updateJob jenkinsCli jobname = (evs, Next tt) ->
  exists job lastBuild,
    Jenkins.GetJob jenkinsCli jobname = Ok job /\
    Job.GetLastBuild job = Ok lastBuild /\
    let lvs := [Job.GetName job; Itoa (Build.GetBuildNumber lastBuild);
                if Build.IsGood lastBuild then "1" else "0"] in
    setsOf jenkinsRunningBuild evs =
      [(lvs, if isRunning job then ofInt 1 else ofInt 0)] /\
    (setsOf jenkinsRunningBuildElapsedTime evs <> [] <-> isRunning job = true) /\
    (isRunning job = true ->
     exists livePipe,
       Job.GetPipelineRun job (Itoa (Build.GetBuildNumber lastBuild)) = Ok livePipe /\
       let sum := stageSeconds (PipelineRun.Stages livePipe) in
       setsOf jenkinsRunningBuildElapsedTime evs = [(lvs, ofInt (int64 sum))] /\
       (min_int64 <= sum <= max_int64 -> int64 sum = sum) /\
       forall r, series jenkinsRunningBuildElapsedTime (replay evs r) !! lvs
                 = Some (ofInt (int64 sum))).
Proof.
  intros Hrun.
  assert (Hseries := fun r =>
            updateJob_series jenkinsRunningBuildElapsedTime jenkinsCli jobname evs r Hrun).
  destruct (updateJob_Next _ _ _ Hrun)
    as (job & lastCompletedBuild & lastBuild & resultset & lastCompletedPipeline &
        HJob & HCompleted & HLast & HResult & HPipeline & Hevs).
  exists job, lastBuild. do 2 (split; [done|]). cbv zeta. split_and!.
  - destruct Hevs as [[_ ->]|[_ (livePipe & _ & ->)]]; by setsOf_journal.
  - destruct Hevs as [[Hnot ->]|[Hrunning (livePipe & _ & ->)]]; setsOf_journal;
      rewrite ?Hnot, ?Hrunning; by split.
  - intros Hrunning.
    destruct Hevs as [[Hnot _]|[_ (livePipe & Hlive & ->)]]; [congruence|].
    exists livePipe.
    assert (setsOf jenkinsRunningBuildElapsedTime
              ((((fetchedJournal jobname job lastCompletedBuild ++
                  countsJournal job lastCompletedBuild lastBuild resultset) ++
                 liveJournal job lastBuild livePipe) ++
                testsJournal job lastCompletedBuild resultset) ++
               completedJournal jobname job lastCompletedBuild lastCompletedPipeline)
            = [(runningLabels job lastBuild,
                ofInt (int64 (stageSeconds (PipelineRun.Stages livePipe))))]) as Hsets.
    { setsOf_journal. by rewrite elapsedTime_after_0. }
    split_and!; try done.
    + apply int64_small.
    + intros r. rewrite Hseries, Hsets. cbn. apply lookup_insert_eq.
Qed.

Lemma running_build_elapsed_time_witness :
  setsOf jenkinsRunningBuild (journal (updateJob Sample.server "app"))
    = [(["app"; "43"; "0"], ofInt 1)] /\
  setsOf jenkinsRunningBuildElapsedTime (journal (updateJob Sample.server "app"))
    = [(["app"; "43"; "0"], ofInt 1)].
Proof.
  destruct (running_build_elapsed_time Sample.server "app"
              (journal (updateJob Sample.server "app")))
    as (job & lastBuild & HJob & HLast & Hbuild & _ & Hrunning);
    [vm_compute; reflexivity|].
  injection HJob as <-. injection HLast as <-. split; [exact Hbuild|].
  destruct Hrunning as (livePipe & Hlive & Hsets & _); [reflexivity|].
  injection Hlive as <-. exact Hsets.
Defined.

(** Truncation is towards zero, also for a negative duration. *)
Example stageSeconds_sample :
  stageSeconds [Sample.build; Sample.test] = 1 /\ Go.div (-1500) 1000 = -1.
Proof. split; reflexivity. Qed.

(** ** The polling cycle *)

Lemma range_In {X} (xs : list X) (body : X -> M unit) e :
  In e (journal (range xs body)) -> exists x, In x xs /\ In e (journal (body x)).
Proof.
  induction xs as [|x xs IH]; [done|].
  cbn [range]. rewrite journal_bind, in_app_iff. intros [H|H].
  - exists x. split; [by left | done].
  - destruct (flow (body x)); try done.
    destruct (IH H) as (x' & Hx' & He). exists x'. split; [by right | done].
Qed.

Lemma range_flow {X} (xs : list X) (body : X -> M unit) :
  flow (range xs body) = Next tt \/
  exists x, In x xs /\ flow (range xs body) = flow (body x).
Proof.
  induction xs as [|x xs IH]; [by left|].
  cbn [range]. rewrite flow_bind.
  destruct (flow (body x)) as [[]| | |] eqn:Hx.
  - destruct IH as [IH|(x' & Hx' & IH)]; [by left|].
    right. exists x'. split; [by right | done].
  - right. exists x. split; [by left | by rewrite Hx].
  - right. exists x. split; [by left | by rewrite Hx].
  - right. exists x. split; [by left | by rewrite Hx].
Qed.

Lemma range_app {X} (xs ys : list X) (body : X -> M unit) :
  range (xs ++ ys) body = (range xs body ;; range ys body).
Proof.
  induction xs as [|x xs IH]; cbn [range app].
  - by rewrite bind_ret.
  - rewrite IH. destruct (body x) as [evs [[]| | |]]; try done.
    rewrite !bind_pair_Next, bind_prepend. done.
Qed.

Lemma range_Next {X} (xs : list X) (body : X -> M unit) :
  flow (range xs body) = Next tt ->
  journal (range xs body) = flat_map (fun x => journal (body x)) xs /\
  Forall (fun x => flow (body x) = Next tt) xs.
Proof.
  induction xs as [|x xs IH]; [done|].
  cbn [range flat_map]. rewrite journal_bind, flow_bind.
  destruct (flow (body x)) as [[]| | |] eqn:Hx; try done.
  intros [-> Hxs]%IH. split; [done|]. by constructor.
Qed.

(** A loop over the jobs that runs to its end has made no
    [WithLabelValues] call without its [Set]. *)
Lemma loop_Next_events jenkinsCli jobs :
  flow (range jobs (updateJob jenkinsCli)) = Next tt ->
  Forall (fun e => forall g lvs, e <> GaugeWith g lvs)
         (journal (range jobs (updateJob jenkinsCli))).
Proof.
  intros [-> Hall]%range_Next. apply Forall_flat_map.
  eapply Forall_impl; [exact Hall|]. intros jobname Hjob. cbv beta in *.
  apply (updateJob_Next_events jenkinsCli jobname).
  destruct (updateJob jenkinsCli jobname) as [evs f]. unfold flow in Hjob.
  cbn [snd] in Hjob. by subst f.
Qed.

Lemma updateMetrics_unreachable config jenkinsCli err :
  Jenkins.Init jenkinsCli = Err err ->
  updateMetrics config jenkinsCli = (connectJournal config ++ unreachable err, Returned).
Proof.
  intros HInit. unfold updateMetrics, connectJournal. rewrite HInit.
  by destruct (decide (User (Jenkins config) ≠ "")).
Qed.

Lemma updateMetrics_connected config jenkinsCli u :
  Jenkins.Init jenkinsCli = Ok u ->
  updateMetrics config jenkinsCli =
  (connectJournal config ++ Called CallInit None :: resetJournal ++
   journal (range (Jobs (Jenkins config)) (updateJob jenkinsCli)) ++
   [CloseIdleConnections],
   flow (range (Jobs (Jenkins config)) (updateJob jenkinsCli))).
Proof.
  intros HInit. unfold updateMetrics, connectJournal. rewrite HInit.
  destruct (range (Jobs (Jenkins config)) (updateJob jenkinsCli)) as [evs f].
  destruct (decide (User (Jenkins config) ≠ "")); by destruct f.
Qed.

Lemma replay_resetJournal r : replay resetJournal r = prometheus.empty.
Proof. reflexivity. Qed.

Lemma connectJournal_silent config : Forall silent (connectJournal config).
Proof. by repeat constructor. Qed.

(** After a cycle that reached the server, the registry is the replay of
    the loop over the jobs on the empty registry. *)
Lemma updateMetrics_registry config jenkinsCli u r :
  Jenkins.Init jenkinsCli = Ok u ->
  replay (journal (updateMetrics config jenkinsCli)) r =
  replay (journal (range (Jobs (Jenkins config)) (updateJob jenkinsCli))) prometheus.empty.
Proof.
  intros HInit. rewrite (updateMetrics_connected _ _ _ HInit). unfold journal at 1. cbn [fst].
  rewrite replay_app, (replay_silent (connectJournal config)) by apply connectJournal_silent.
  change (Called CallInit None :: resetJournal ++ ?l) with ([Called CallInit None] ++ resetJournal ++ l).
  rewrite !replay_app, replay_resetJournal. reflexivity.
Qed.

Lemma updateMetrics_Next_connected config jenkinsCli :
  flow (updateMetrics config jenkinsCli) = Next tt -> Jenkins.Init jenkinsCli = Ok tt.
Proof.
  destruct (Jenkins.Init jenkinsCli) as [[]|err] eqn:HInit; [done|].
  by rewrite (updateMetrics_unreachable _ _ _ HInit).
Qed.

(** C1.  After a cycle in which [updateMetrics] completes its pass, the
    registry is what the calls of that cycle alone produce from the
    empty registry, whatever it held before: the nine vectors are reset
    before the first [Set].  So every series a scrape then sees was
    stored during the cycle, and its first label value is the name of a
    job that [GetJob] returned for a configured job name; when the
    server names a job as it was asked for, that is a configured name. *)
Theorem reset_before_populate config jenkinsCli r :
  flow (updateMetrics config jenkinsCli) = Next tt ->
  let cycle := journal (updateMetrics config jenkinsCli) in
  replay cycle r = replay cycle prometheus.empty /\
  (exists before after,
     cycle = before ++ resetJournal ++ after /\
     Forall silent before /\
     Forall (fun e => forall g, e <> GaugeReset g) after) /\
  (forall g lvs v,
     series g (replay cycle r) !! lvs = Some v ->
     In (GaugeSet g lvs v) cycle /\
     exists jobname job,
       In jobname (Jobs (Jenkins config)) /\
       Jenkins.GetJob jenkinsCli jobname = Ok job /\
       head lvs = Some (Job.GetName job)) /\
  ((forall jobname job,
      Jenkins.GetJob jenkinsCli jobname = Ok job -> Job.GetName job = jobname) ->
   forall g lvs v,
     series g (replay cycle r) !! lvs = Some v ->
     exists jobname, In jobname (Jobs (Jenkins config)) /\ head lvs = Some jobname).
Proof.
  intros Hflow cycle. apply updateMetrics_Next_connected in Hflow as HInit.
  assert (forall g lvs v,
     series g (replay cycle r) !! lvs = Some v ->
     In (GaugeSet g lvs v) cycle /\
     exists jobname job,
       In jobname (Jobs (Jenkins config)) /\
       Jenkins.GetJob jenkinsCli jobname = Ok job /\
       head lvs = Some (Job.GetName job)) as Hseries.
  { intros g lvs v. unfold cycle. rewrite (updateMetrics_registry _ _ _ _ HInit).
    intros Hlookup. apply replay_lookup_inv in Hlookup as [Hlookup|[Hin|Hin]].
    { by destruct g. }
    2:{ rewrite (updateMetrics_connected _ _ _ HInit) in Hflow.
        apply loop_Next_events in Hflow. rewrite Forall_forall in Hflow.
        apply list_elem_of_In in Hin. by destruct (Hflow _ Hin g lvs). }
    split.
    - rewrite (updateMetrics_connected _ _ _ HInit). unfold journal at 1. cbn [fst].
      apply in_app_iff. right. right. rewrite !in_app_iff. right. by left.
    - apply range_In in Hin as (jobname & Hjobname & Hin).
      assert (Hev := updateJob_events jenkinsCli jobname).
      rewrite Forall_forall in Hev. apply list_elem_of_In, Hev in Hin.
      destruct Hin as (_ & job & HJob & Hhead). by exists jobname, job. }
  split_and!.
  - unfold cycle. by rewrite !(updateMetrics_registry _ _ _ _ HInit).
  - exists (connectJournal config ++ [Called CallInit None]),
      (journal (range (Jobs (Jenkins config)) (updateJob jenkinsCli)) ++
       [CloseIdleConnections]).
    split_and!.
    + unfold cycle. rewrite (updateMetrics_connected _ _ _ HInit). unfold journal at 1.
      cbn [fst]. by rewrite <- !app_assoc.
    + apply Forall_app. split; [apply connectJournal_silent | by repeat constructor].
    + apply Forall_app. split; [|by repeat constructor].
      apply Forall_forall. intros e He%list_elem_of_In g ->.
      apply range_In in He as (jobname & _ & He).
      assert (Hev := updateJob_events jenkinsCli jobname).
      rewrite Forall_forall in Hev. by apply list_elem_of_In, Hev in He.
  - done.
  - intros Hnames g lvs v Hlookup.
    destruct (Hseries g lvs v Hlookup) as (_ & jobname & job & Hjobname & HJob & Hhead).
    exists jobname. split; [done|]. by rewrite Hhead, (Hnames _ _ HJob).
Qed.

(** The body of the loop runs for a configured job when the server was
    reached and the body ran to its end for the jobs before it; its
    journal is then a segment of the journal of the cycle. *)
Lemma updateMetrics_job_segment config jenkinsCli u done jobname rest :
  Jenkins.Init jenkinsCli = Ok u ->
  Jobs (Jenkins config) = done ++ jobname :: rest ->
  flow (range done (updateJob jenkinsCli)) = Next tt ->
  exists before after,
    journal (updateMetrics config jenkinsCli) =
    before ++ journal (updateJob jenkinsCli jobname) ++ after.
Proof.
  intros HInit HJobs Hdone.
  rewrite (updateMetrics_connected _ _ _ HInit), HJobs, range_app. unfold journal at 1.
  cbn [fst range]. rewrite !journal_bind, Hdone.
  exists (connectJournal config ++ Called CallInit None :: resetJournal ++
          journal (range done (updateJob jenkinsCli))),
    (match flow (updateJob jenkinsCli jobname) with
     | Next _ => journal (range rest (updateJob jenkinsCli))
     | _ => []
     end ++ [CloseIdleConnections]).
  cbn [app]. rewrite <- !app_assoc. cbn [app]. by rewrite <- !app_assoc.
Qed.

Lemma reset_before_populate_witness :
  series jenkinsCompletedBuildSuccess stale !! ["old"; "7"] = Some (ofInt 1) /\
  series jenkinsCompletedBuildSuccess
    (replay (journal (updateMetrics (Sample.config ["app"]) Sample.server)) stale)
    !! ["old"; "7"] = None.
Proof.
  split; [vm_compute; reflexivity|].
  destruct (reset_before_populate (Sample.config ["app"]) Sample.server stale)
    as [Hfresh _]; [vm_compute; reflexivity|].
  rewrite Hfresh. vm_compute. reflexivity.
Defined.

(** C8.  When [Init] returns an error, [updateMetrics] logs it and
    returns; its journal has no [Reset] and no [Set], so the registry,
    and with it what a scrape sees, is what the previous cycle left. *)
Theorem unreachable_keeps_registry config jenkinsCli err :
  Jenkins.Init jenkinsCli = Err err ->
  updateMetrics config jenkinsCli =
    (connectJournal config ++
     [Called CallInit (Some err);
      Log ErrorLevel "Unable to connect to Jenkins" [err];
      CloseIdleConnections], Returned) /\
  Forall silent (journal (updateMetrics config jenkinsCli)) /\
  forall r, replay (journal (updateMetrics config jenkinsCli)) r = r.
Proof.
  intros HInit. rewrite (updateMetrics_unreachable _ _ _ HInit).
  assert (Forall silent (connectJournal config ++ unreachable err)) as Hsilent.
  { apply Forall_app. split; [apply connectJournal_silent | by repeat constructor]. }
  split_and!; [done..|]. intros r. by apply replay_silent.
Qed.

Lemma unreachable_keeps_registry_witness :
  replay (journal (updateMetrics (Sample.config ["app"]) Sample.down)) stale = stale.
Proof.
  destruct (unreachable_keeps_registry (Sample.config ["app"]) Sample.down
              "connection refused") as (_ & _ & Hkeep); [reflexivity|].
  apply Hkeep.
Defined.

(** ** Errors of the upstream API *)

Lemma abandons_bind (m : M unit) (k : unit -> M unit) :
  abandons m -> abandons (k tt) -> abandons (m ≫= k).
Proof.
  destruct m as [evs [[]| | |]]; [|done..].
  destruct (k tt) as [evs' f'] eqn:Hk.
  unfold abandons, mbind, M_bind, journal, flow. rewrite Hk. cbn.
  intros Hm Hk'. destruct f'; try by apply Forall_app.
  destruct Hk' as (pre & c & err & format & Hc & -> & Hpre).
  exists (evs ++ pre), c, err, format. split_and!; [done| |by apply Forall_app].
  by rewrite app_assoc.
Qed.

Lemma range_abandons {X} (xs : list X) (body : X -> M unit) :
  (forall x, abandons (body x)) -> abandons (range xs body).
Proof.
  intros Hbody. induction xs as [|x xs IH]; [by constructor|].
  cbn [range]. by apply abandons_bind.
Qed.

Lemma updateJob_abandons jenkinsCli jobname : abandons (updateJob jenkinsCli jobname).
Proof.
  job_cases jenkinsCli jobname; unfold abandons, flow, journal; cbn [fst snd];
    try (unfold fetchedJournal, countsJournal, liveJournal, testsJournal, completedJournal;
         journal_Forall; cbn; try tauto; destruct (Job.IsRunning job); cbn; tauto).
  - eexists [Called (CallGetJob jobname) None; Called CallGetLastCompletedBuild None],
      CallGetLastBuild, _, _.
    split_and!; [done|reflexivity|]. repeat constructor; cbn; tauto.
  - eexists [Called (CallGetJob jobname) None], CallGetLastCompletedBuild, _, _.
    split_and!; [done|reflexivity|]. repeat constructor; cbn; tauto.
  - eexists [], (CallGetJob jobname), _, _.
    split_and!; [done|reflexivity|]. constructor.
Qed.

Lemma pollOnce_Returned config jenkinsCli :
  flow (updateMetrics config jenkinsCli) = Returned ->
  pollOnce config jenkinsCli =
  (journal (updateMetrics config jenkinsCli) ++ [Sleep (sleepTime config)], Next tt).
Proof.
  unfold pollOnce. destruct (updateMetrics config jenkinsCli) as [evs f].
  unfold flow, journal. cbn. by intros ->.
Qed.

Lemma clean_In (evs : list Event) e :
  Forall (fun e => ~ upstreamError e) evs -> upstreamError e -> ~ In e evs.
Proof. rewrite Forall_forall. intros Hclean He Hin%list_elem_of_In. by apply (Hclean e). Qed.

(** C5, as the specification states it, fails: not every error of the
    upstream API is logged and ends the processing.  In a cycle during
    which [IsRunning] returns an error for the job app, the failed call
    is recorded, no error is logged, the body of the loop goes on to
    set the gauges that come after the call, and the cycle completes
    its pass. *)
Lemma isRunning_error_is_not_logged :
  In (Called CallIsRunning (Some "timeout")) (journal Faulty.timeoutCycle) /\
  Forall (fun e => ~ errorLog e) (journal Faulty.timeoutCycle) /\
  flow Faulty.timeoutCycle = Next tt /\
  exists pre post,
    journal Faulty.timeoutCycle = pre ++ Called CallIsRunning (Some "timeout") :: post /\
    In (GaugeSet jenkinsRunningBuild ["app"; "43"; "0"] (ofInt 0)) post /\
    In (GaugeSet jenkinsCompletedBuildSuccess ["app"; "42"] (ofInt 0)) post.
Proof.
  split_and!.
  - vm_compute. repeat first [by left | right].
  - vm_compute. repeat (constructor; [by intros []|]). constructor.
  - vm_compute. reflexivity.
  - exists (take 21 (journal Faulty.timeoutCycle)), (drop 22 (journal Faulty.timeoutCycle)).
    split_and!; vm_compute; [reflexivity| |]; repeat first [by left | right].
Qed.

(** C5, amended.  When a call whose error the exporter checks ([Init], [GetJob],
    [GetLastCompletedBuild], [GetLastBuild]) returns an error during a
    cycle, that call is the first one of the cycle to fail, the next
    call of [updateMetrics] logs the error, and the function returns:
    after the log line the journal holds the deferred
    [CloseIdleConnections] only, so no SDK call is repeated or made for
    a later job and no gauge is touched.  The polling loop then sleeps
    for the configured interval, as after any cycle, and goes on with
    its next turn. *)
Theorem upstream_error_abandons_cycle config jenkinsCli c err :
  checked c ->
  In (Called c (Some err)) (journal (updateMetrics config jenkinsCli)) ->
  exists pre format,
    journal (updateMetrics config jenkinsCli) =
      pre ++ [Called c (Some err); Log ErrorLevel format [err]; CloseIdleConnections] /\
    Forall (fun e => ~ upstreamError e) pre /\
    flow (updateMetrics config jenkinsCli) = Returned /\
    pollOnce config jenkinsCli =
      (journal (updateMetrics config jenkinsCli) ++ [Sleep (sleepTime config)], Next tt) /\
    forall ticks,
      poll config (jenkinsCli :: ticks) =
      prepend (journal (updateMetrics config jenkinsCli) ++ [Sleep (sleepTime config)])
              (poll config ticks).
Proof.
  intros Hc Hin.
  assert (Forall (fun e => ~ upstreamError e) (connectJournal config)) as Hconnect.
  { repeat constructor; cbn; tauto. }
  assert (upstreamError (Called c (Some err))) as Hup by done.
  cut (exists pre format,
         journal (updateMetrics config jenkinsCli) =
           pre ++ [Called c (Some err); Log ErrorLevel format [err]; CloseIdleConnections] /\
         Forall (fun e => ~ upstreamError e) pre /\
         flow (updateMetrics config jenkinsCli) = Returned).
  { intros (pre & format & Hj & Hpre & Hflow). exists pre, format.
    split_and!; try done; [by apply pollOnce_Returned|].
    intros ticks. unfold poll. cbn [range].
    rewrite (pollOnce_Returned _ _ Hflow). by rewrite bind_pair_Next. }
  destruct (Jenkins.Init jenkinsCli) as [u|err0] eqn:HInit.
  - rewrite (updateMetrics_connected _ _ _ HInit) in *. unfold journal at 1, flow at 1 in Hin.
    unfold journal at 1, flow at 1. cbn [fst snd] in *.
    assert (Hloop := range_abandons (Jobs (Jenkins config)) (updateJob jenkinsCli)
                       (updateJob_abandons jenkinsCli)).
    unfold abandons in Hloop.
    set (loop := range (Jobs (Jenkins config)) (updateJob jenkinsCli)) in *.
    assert (~ In (Called c (Some err)) (connectJournal config)) as Hn1
      by by apply clean_In.
    assert (Forall (fun e => ~ upstreamError e) (Called CallInit None :: resetJournal))
      as Hresets by (repeat constructor; cbn; tauto).
    assert (~ In (Called c (Some err)) (Called CallInit None :: resetJournal)) as Hn2
      by by apply clean_In.
    change (Called CallInit None :: resetJournal ++ ?l)
      with ((Called CallInit None :: resetJournal) ++ l) in *.
    rewrite !in_app_iff in Hin.
    destruct Hin as [Hin|[Hin|[Hin|Hin]]]; [done|done| |by destruct Hin as [[=]|[]]].
    destruct (flow loop) eqn:Hflow; try (exfalso; by apply (clean_In _ _ Hloop Hup)).
    destruct Hloop as (pre & c0 & err1 & format & Hc0 & Hj & Hpre).
    rewrite Hj in Hin |- *. apply in_app_iff in Hin as [Hin|[[= -> ->]|[[=]|[]]]].
    { exfalso. by apply (clean_In _ _ Hpre Hup). }
    exists (connectJournal config ++ (Called CallInit None :: resetJournal) ++ pre), format.
    split_and!; [by rewrite <- !app_assoc| |done].
    by rewrite !Forall_app.
  - rewrite (updateMetrics_unreachable _ _ _ HInit) in *. unfold journal, flow in *.
    cbn [fst snd] in *. apply in_app_iff in Hin as [Hin|[[= <- <-]|[[=]|[[=]|[]]]]].
    { exfalso. by apply (clean_In _ _ Hconnect Hup). }
    by exists (connectJournal config), "Unable to connect to Jenkins".
Qed.

Lemma upstream_error_abandons_cycle_witness :
  exists pre format,
    journal (updateMetrics (Sample.config ["app"; "gone"; "app"]) Sample.server) =
      pre ++ [Called (CallGetJob "gone") (Some "404");
              Log ErrorLevel format ["404"]; CloseIdleConnections] /\
    Forall (fun e => ~ upstreamError e) pre /\
    flow (updateMetrics (Sample.config ["app"; "gone"; "app"]) Sample.server) = Returned /\
    pollOnce (Sample.config ["app"; "gone"; "app"]) Sample.server =
      (journal (updateMetrics (Sample.config ["app"; "gone"; "app"]) Sample.server) ++
       [Sleep (sleepTime (Sample.config ["app"; "gone"; "app"]))], Next tt).
Proof.
  destruct (upstream_error_abandons_cycle
              (Sample.config ["app"; "gone"; "app"]) Sample.server (CallGetJob "gone") "404")
    as (pre & format & Hjournal & Hpre & Hflow & Hpoll & _).
  - exact I.
  - vm_compute. do 33 right. left. reflexivity.
  - by exists pre, format.
Defined.

(** ** The catalogue of gauge families *)

Lemma updateJob_flow jenkinsCli jobname :
  flow (updateJob jenkinsCli jobname) = Next tt \/
  flow (updateJob jenkinsCli jobname) = Returned \/
  flow (updateJob jenkinsCli jobname) = Panicked NilDereference.
Proof. job_cases jenkinsCli jobname; unfold flow; cbn [snd]; auto. Qed.

Lemma updateMetrics_flow config jenkinsCli :
  flow (updateMetrics config jenkinsCli) = Next tt \/
  flow (updateMetrics config jenkinsCli) = Returned \/
  flow (updateMetrics config jenkinsCli) = Panicked NilDereference.
Proof.
  destruct (Jenkins.Init jenkinsCli) as [u|err] eqn:HInit.
  - rewrite (updateMetrics_connected _ _ _ HInit). unfold flow at 1 3 5. cbn [snd].
    destruct (range_flow (Jobs (Jenkins config)) (updateJob jenkinsCli))
      as [H|(jobname & _ & ->)]; [by left|]. apply updateJob_flow.
  - rewrite (updateMetrics_unreachable _ _ _ HInit). auto.
Qed.

Lemma updateMetrics_sets config jenkinsCli g lvs v :
  In (GaugeSet g lvs v) (journal (updateMetrics config jenkinsCli)) ->
  exists jobname, In jobname (Jobs (Jenkins config)) /\
                  jobEvent jenkinsCli jobname (GaugeSet g lvs v).
Proof.
  destruct (Jenkins.Init jenkinsCli) as [u|err] eqn:HInit.
  - rewrite (updateMetrics_connected _ _ _ HInit). unfold journal at 1. cbn [fst].
    change (Called CallInit None :: resetJournal ++ ?l)
      with ((Called CallInit None :: resetJournal) ++ l).
    rewrite !in_app_iff. intros [Hin|[Hin|[Hin|Hin]]].
    + cbn in Hin. by destruct Hin as [[=]|[[=]|[]]].
    + cbn in Hin. repeat (destruct Hin as [[=]|Hin]). done.
    + apply range_In in Hin as (jobname & Hjobname & Hin). exists jobname. split; [done|].
      assert (Hev := updateJob_events jenkinsCli jobname).
      rewrite Forall_forall in Hev. by apply list_elem_of_In, Hev in Hin.
    + by destruct Hin as [[=]|[]].
  - rewrite (updateMetrics_unreachable _ _ _ HInit). unfold journal. cbn.
    intros Hin. repeat (destruct Hin as [[=]|Hin]). done.
Qed.

Lemma updateMetrics_withs config jenkinsCli g lvs :
  In (GaugeWith g lvs) (journal (updateMetrics config jenkinsCli)) ->
  exists jobname, In jobname (Jobs (Jenkins config)) /\
                  jobEvent jenkinsCli jobname (GaugeWith g lvs).
Proof.
  destruct (Jenkins.Init jenkinsCli) as [u|err] eqn:HInit.
  - rewrite (updateMetrics_connected _ _ _ HInit). unfold journal at 1. cbn [fst].
    change (Called CallInit None :: resetJournal ++ ?l)
      with ((Called CallInit None :: resetJournal) ++ l).
    rewrite !in_app_iff. intros [Hin|[Hin|[Hin|Hin]]].
    + cbn in Hin. by destruct Hin as [[=]|[[=]|[]]].
    + cbn in Hin. repeat (destruct Hin as [[=]|Hin]). done.
    + apply range_In in Hin as (jobname & Hjobname & Hin). exists jobname. split; [done|].
      assert (Hev := updateJob_events jenkinsCli jobname).
      rewrite Forall_forall in Hev. by apply list_elem_of_In, Hev in Hin.
    + by destruct Hin as [[=]|[]].
  - rewrite (updateMetrics_unreachable _ _ _ HInit). unfold journal. cbn.
    intros Hin. repeat (destruct Hin as [[=]|Hin]). done.
Qed.

(** C6.  The exporter has nine gauge families, those of the catalogue,
    each with its label names.  Every [Set] call of a cycle is on one of
    them and gives as many values as the family has labels, so
    [WithLabelValues] never panics, and a registry whose series all have
    the labels of their family still has that property after the cycle. *)
Theorem fixed_catalogue config jenkinsCli :
  (forall g, In (Name g, labelNames g) catalogue) /\
  length catalogue = 9%nat /\
  NoDup (map fst catalogue) /\
  (forall g lvs v,
     In (GaugeSet g lvs v) (journal (updateMetrics config jenkinsCli)) ->
     In (Name g, labelNames g) catalogue /\ length lvs = length (labelNames g)) /\
  (forall g, flow (updateMetrics config jenkinsCli) <> Panicked (LabelCardinality g)) /\
  (forall r, wellLabelled r ->
             wellLabelled (replay (journal (updateMetrics config jenkinsCli)) r)).
Proof.
  assert (forall g, In (Name g, labelNames g) catalogue) as Hcat.
  { intros g. destruct g; cbn; tauto. }
  assert (forall g lvs v,
     In (GaugeSet g lvs v) (journal (updateMetrics config jenkinsCli)) ->
     length lvs = length (labelNames g)) as Harity.
  { intros g lvs v Hin. by apply updateMetrics_sets in Hin as (jobname & _ & Harity & _). }
  split_and!; try done.
  - apply (bool_decide_unpack (NoDup (map fst catalogue))). vm_compute. exact I.
  - intros g lvs v Hin. eauto.
  - intros g. by destruct (updateMetrics_flow config jenkinsCli) as [->|[->| ->]].
  - intros r Hr g lvs [v Hlookup].
    apply replay_lookup_inv in Hlookup as [Hlookup|[Hin|Hin]].
    + by apply Hr.
    + by apply Harity in Hin.
    + by apply updateMetrics_withs in Hin as (jobname & _ & Hlength & _).
Qed.

(** ** Start-up *)

(** [init] either exits with status 1 after a fatal log line, or goes on
    with the configuration it loaded, the update interval defaulted. *)
Lemma init_cases args fs :
  (exists evs format a,
     init args fs = (evs ++ [Log FatalLevel format a], Exited 1) /\
     (Stat fs (configFile args) <> None \/ (loadConfig fs (configFile args)).2 <> None)) \/
  (exists evs config,
     init args fs = (evs, Next config) /\
     Stat fs (configFile args) = None /\
     (loadConfig fs (configFile args)).2 = None /\
     let loaded := (loadConfig fs (configFile args)).1 in
     URL (Jenkins config) = URL (Jenkins loaded) /\
     User (Jenkins config) = User (Jenkins loaded) /\
     Password (Jenkins config) = Password (Jenkins loaded) /\
     Jobs (Jenkins config) = Jobs (Jenkins loaded) /\
     UpdateInterval (Jenkins config) =
       if (UpdateInterval (Jenkins loaded) <=? 0)%N then 1800%N
       else UpdateInterval (Jenkins loaded)).
Proof.
  unfold init, configFile.
  set (path := flag_String (config_path args) "./config.toml").
  destruct (Stat fs path) as [e|] eqn:HStat.
  { left. destruct (flag_Bool (debug args) false).
    - eexists [SetLevel DebugLevel], _, _. split; [reflexivity|]. by left.
    - eexists [], _, _. split; [reflexivity|]. by left. }
  destruct (loadConfig fs path) as [loaded [e|]] eqn:Hload.
  { left. destruct (flag_Bool (debug args) false).
    - eexists [SetLevel DebugLevel], _, _. split; [reflexivity|]. by right.
    - eexists [], _, _. split; [reflexivity|]. by right. }
  right. cbn [fst snd].
  destruct (flag_Bool (debug args) false);
    destruct (UpdateInterval (Jenkins loaded) <=? 0)%N eqn:Hle;
    eexists _, _; (split; [cbn; rewrite Hle; reflexivity|]); by split_and!.
Qed.

(** C4.  When [init] goes on after loading the configuration, the update
    interval is 1800 if the loaded value is not positive, which is the
    case when the file does not set it, and is the loaded value
    otherwise. *)
Theorem default_update_interval args fs evs config :
  init args fs = (evs, Next config) ->
  let doc := (ReadToml fs (configFile args)).1 in
  let loaded := (loadConfig fs (configFile args)).1 in
  (toml.updateInterval doc = None -> UpdateInterval (Jenkins config) = 1800%N) /\
  (forall n, toml.updateInterval doc = Some n -> UpdateInterval (Jenkins loaded) = n) /\
  ((UpdateInterval (Jenkins loaded) <= 0)%N -> UpdateInterval (Jenkins config) = 1800%N) /\
  ((0 < UpdateInterval (Jenkins loaded))%N ->
   UpdateInterval (Jenkins config) = UpdateInterval (Jenkins loaded)).
Proof.
  intros Hinit doc loaded.
  assert (UpdateInterval (Jenkins config) =
          if (UpdateInterval (Jenkins loaded) <=? 0)%N then 1800%N
          else UpdateInterval (Jenkins loaded)) as Hinterval.
  { destruct (init_cases args fs) as [(evs' & format & a & Hfatal & _)|
                                      (evs' & config' & Hnext & _ & _ & Hloaded)].
    - rewrite Hinit in Hfatal. discriminate.
    - rewrite Hinit in Hnext. injection Hnext as _ <-. apply Hloaded. }
  assert (UpdateInterval (Jenkins loaded) = default 0%N (toml.updateInterval doc)) as Hdoc.
  { unfold loaded, doc, loadConfig, DecodeFile.
    by destruct (ReadToml fs (configFile args)). }
  split_and!.
  - intros Hunset. by rewrite Hinterval, Hdoc, Hunset.
  - intros n Hn. by rewrite Hdoc, Hn.
  - intros Hle. rewrite Hinterval. by apply N.leb_le in Hle as ->.
  - intros Hlt. rewrite Hinterval. by apply N.leb_gt in Hlt as ->.
Qed.

Lemma default_update_interval_witness :
  exists evs config,
    init Startup.noFlags Startup.disk = (evs, Next config) /\
    UpdateInterval (Jenkins config) = 1800%N.
Proof.
  eexists _, _. split; [vm_compute; reflexivity|].
  refine (proj1 (default_update_interval Startup.noFlags Startup.disk _ _ _) _);
    [vm_compute; reflexivity | reflexivity].
Defined.

(** C7, as the specification states it, fails: started without
    [-config] in a directory that holds a valid [config.toml], [init]
    does not exit. *)
Lemma config_flag_is_optional :
  config_path Startup.noFlags = None /\
  flow (init Startup.noFlags Startup.disk) <> Exited 1 /\
  exists config, flow (init Startup.noFlags Startup.disk) = Next config.
Proof.
  split_and!; [reflexivity | by vm_compute | eexists; vm_compute; reflexivity].
Qed.

(** C7, amended.  [-config] is optional and defaults to ./config.toml.
    When [os.Stat] fails on the file at that path (the value of the
    flag, or the default when the flag is not given) or the file fails
    to parse, [init] logs a fatal line and exits with status 1. *)
Theorem init_exits_without_configuration args fs :
  (config_path args = None -> configFile args = "./config.toml") /\
  (forall path, config_path args = Some path -> configFile args = path) /\
  (Stat fs (configFile args) <> None \/ (loadConfig fs (configFile args)).2 <> None ->
   flow (init args fs) = Exited 1 /\
   exists evs format a, journal (init args fs) = evs ++ [Log FatalLevel format a]).
Proof.
  split_and!.
  - unfold configFile. by intros ->.
  - unfold configFile. by intros path ->.
  - destruct (init_cases args fs) as [(evs & format & a & -> & Hwhy)|
                                      (evs & config & -> & HStat & Hload & _)].
    + intros _. split; [done|]. by exists evs, format, a.
    + by intros [?|?].
Qed.

(** * Further properties of the exporter *)

(** ** How the body of the loop ends *)

(** X1.  The body of the loop ends in one of three ways, decided by the
    answers of the SDK: it returns when [GetJob], [GetLastCompletedBuild]
    or [GetLastBuild] fails; it panics on a nil pointer when, these
    having succeeded, [GetResultSet] fails, or the job is running and
    the pipeline run of the last build cannot be fetched, or the
    pipeline run of the last completed build cannot be fetched; it runs
    to its end otherwise. *)
Theorem updateJob_outcome jenkinsCli jobname :
  (flow (updateJob jenkinsCli jobname) = Returned <->
   (exists err, Jenkins.GetJob jenkinsCli jobname = Err err) \/
   (exists job err,
      Jenkins.GetJob jenkinsCli jobname = Ok job /\
      Job.GetLastCompletedBuild job = Err err) \/
   (exists job lastCompletedBuild err,
      Jenkins.GetJob jenkinsCli jobname = Ok job /\
      Job.GetLastCompletedBuild job = Ok lastCompletedBuild /\
      Job.GetLastBuild job = Err err)) /\
  (flow (updateJob jenkinsCli jobname) = Panicked NilDereference <->
   exists job lastCompletedBuild lastBuild,
     Jenkins.GetJob jenkinsCli jobname = Ok job /\
     Job.GetLastCompletedBuild job = Ok lastCompletedBuild /\
     Job.GetLastBuild job = Ok lastBuild /\
     (err_of (Build.GetResultSet lastCompletedBuild) <> None \/
      (isRunning job = true /\
       err_of (Job.GetPipelineRun job (Itoa (Build.GetBuildNumber lastBuild))) <> None) \/
      err_of (Job.GetPipelineRun job (Itoa (Build.GetBuildNumber lastCompletedBuild)))
        <> None)) /\
  (flow (updateJob jenkinsCli jobname) = Next tt \/
   flow (updateJob jenkinsCli jobname) = Returned \/
   flow (updateJob jenkinsCli jobname) = Panicked NilDereference).
Proof.
  split_and!; [split|split|apply updateJob_flow].
  - job_cases jenkinsCli jobname; unfold flow; cbn [snd]; intros [=]; eauto 10.
  - rewrite updateJob_eq. unfold updateJob_runs.
    intros [(err & ->)|[(job & err & -> & ->)|(job & lcb & err & -> & -> & ->)]]; done.
  - job_cases jenkinsCli jobname; unfold flow; cbn [snd]; intros [=];
      exists job, lastCompletedBuild, lastBuild; split_and!; try done;
      rewrite ?HResultSet, ?HCompletedPipeline, ?HLivePipe; cbn; intuition congruence.
  - rewrite updateJob_eq. unfold updateJob_runs, finishJob, nilPipeline.
    intros (job & lastCompletedBuild & lastBuild & -> & -> & -> & Hwhy).
    destruct (Build.GetResultSet lastCompletedBuild); [|done].
    destruct (Job.GetPipelineRun job (Itoa (Build.GetBuildNumber lastCompletedBuild)));
      (destruct (isRunning job);
       [destruct (Job.GetPipelineRun job (Itoa (Build.GetBuildNumber lastBuild)))|]);
      cbn in *; try done; intuition congruence.
Qed.

Lemma replay_lookup_frame g lvs evs r :
  Forall (fun e => e <> GaugeReset g /\ (forall v, e <> GaugeSet g lvs v) /\
                   e <> GaugeWith g lvs) evs ->
  series g (replay evs r) !! lvs = series g r !! lvs.
Proof.
  revert r. induction evs as [|e evs IH]; intros r Hevs; [done|].
  apply Forall_cons in Hevs as [(Hreset & Hset & Hwith) Hevs].
  cbn [replay fold_left]. fold (replay evs (apply e r)).
  rewrite IH, series_apply by done.
  destruct e; try done; case_decide; subst; try done.
  - apply lookup_insert_ne. intros ->. by apply (Hset v).
  - apply lookup_insert_ne. by intros ->.
Qed.

(** The series that the body of the loop leaves behind when the result
    set is nil. *)
Lemma nilResultSet_series jobname job lastCompletedBuild err r :
  let lvs := [Job.GetName job; Itoa (Build.GetBuildNumber lastCompletedBuild); "fail"] in
  series jenkinsCompletedBuildTestCount
    (replay (fetchedJournal jobname job lastCompletedBuild ++
             [Called CallGetResultSet (Some err);
              GaugeWith jenkinsCompletedBuildTestCount lvs]) r) !! lvs
  = Some (default (ofInt 0) (series jenkinsCompletedBuildTestCount r !! lvs)).
Proof.
  intros lvs. rewrite replay_app.
  change (replay [?a; ?b] ?r') with (apply b (apply a r')).
  rewrite !series_apply, decide_True, lookup_insert_eq by done. reflexivity.
Qed.

(** X2.  When the body of the loop panics, the panic is a nil
    dereference, and the last SDK method it called is one whose error it
    does not check, [GetResultSet] or [GetPipelineRun], which returned
    an error; the body has logged no error.  After a failed
    [GetPipelineRun] it has done nothing more.  After a failed
    [GetResultSet] it has called [WithLabelValues] for the fail count,
    without the [Set]: the series (job name, number of the last
    completed build, fail) of jenkins_build_test_count is then in the
    registry, with the value 0 if it was not there before. *)
Theorem updateJob_panic_unlogged jenkinsCli jobname p :
  flow (updateJob jenkinsCli jobname) = Panicked p ->
  p = NilDereference /\
  (exists pre c err after,
     journal (updateJob jenkinsCli jobname) = pre ++ Called c (Some err) :: after /\
     (((exists id, c = CallGetPipelineRun id) /\ after = []) \/
      (c = CallGetResultSet /\
       exists job lastCompletedBuild,
         Jenkins.GetJob jenkinsCli jobname = Ok job /\
         Job.GetLastCompletedBuild job = Ok lastCompletedBuild /\
         let lvs := [Job.GetName job; Itoa (Build.GetBuildNumber lastCompletedBuild);
                     "fail"] in
         after = [GaugeWith jenkinsCompletedBuildTestCount lvs] /\
         forall r,
           series jenkinsCompletedBuildTestCount
             (replay (journal (updateJob jenkinsCli jobname)) r) !! lvs
           = Some (default (ofInt 0) (series jenkinsCompletedBuildTestCount r !! lvs))))) /\
  Forall (fun e => ~ errorLog e) (journal (updateJob jenkinsCli jobname)).
Proof.
  job_cases jenkinsCli jobname; unfold flow, journal; cbn [fst snd]; intros [= <-];
    (split_and!;
     [ done
     | eexists _, _, _, _; split; [reflexivity|];
       first [ left; split; [by eexists|reflexivity]
             | right; split; [reflexivity|]; eexists _, _;
               split_and!; [reflexivity|eassumption|reflexivity|];
               intros r; apply nilResultSet_series ]
     | unfold fetchedJournal, countsJournal, liveJournal, testsJournal, completedJournal;
       journal_Forall; cbn; tauto ]).
Qed.

Lemma updateJob_panic_unlogged_witness :
  series jenkinsCompletedBuildTestCount
    (replay (journal (updateJob (Faulty.serving Faulty.unreported) "app")) prometheus.empty)
    !! ["app"; "43"; "fail"] = Some (ofInt 0).
Proof.
  destruct (updateJob_panic_unlogged (Faulty.serving Faulty.unreported) "app" NilDereference)
    as (_ & (pre & c & err & after & Hjournal & [[[id ->] _]|Hresult]) & _);
    [vm_compute; reflexivity|vm_compute; reflexivity|].
  destruct Hresult as (_ & job & lastCompletedBuild & HJob & HCompleted & _ & Hseries).
  injection HJob as <-. injection HCompleted as <-. apply Hseries.
Defined.

Lemma updateJob_Next_unlogged jenkinsCli jobname evs :
  updateJob jenkinsCli jobname = (evs, Next tt) -> Forall (fun e => ~ errorLog e) evs.
Proof.
  intros Hrun.
  destruct (updateJob_Next _ _ _ Hrun)
    as (job & lastCompletedBuild & lastBuild & resultset & lastCompletedPipeline &
        _ & _ & _ & _ & _ & Hevs).
  destruct Hevs as [[_ ->]|[_ (livePipe & _ & ->)]];
    unfold fetchedJournal, countsJournal, liveJournal, testsJournal, completedJournal;
    journal_Forall; cbn; tauto.
Qed.

(** X3.  An error of [IsRunning] is neither logged nor fatal for the
    job: the body goes on as for a job that is not running.  When it
    runs to its end it has recorded the failed call, logged no error,
    set jenkins_running_build to 0 and set neither the elapsed time nor
    any pipeline status. *)
Theorem isRunning_error_means_not_running jenkinsCli jobname job err evs :
  Jenkins.GetJob jenkinsCli jobname = Ok job ->
  Job.IsRunning job = Err err ->
  updateJob jenkinsCli jobname = (evs, Next tt) ->
  In (Called CallIsRunning (Some err)) evs /\
  Forall (fun e => ~ errorLog e) evs /\
  (exists lastBuild,
     Job.GetLastBuild job = Ok lastBuild /\
     setsOf jenkinsRunningBuild evs =
       [([Job.GetName job; Itoa (Build.GetBuildNumber lastBuild);
          if Build.IsGood lastBuild then "1" else "0"], ofInt 0)]) /\
  setsOf jenkinsRunningBuildElapsedTime evs = [] /\
  setsOf jenkinsRunningBuildPipelineStatus evs = [].
Proof.
  intros HJob HIs Hrun.
  assert (Hunlogged := updateJob_Next_unlogged _ _ _ Hrun).
  destruct (updateJob_Next _ _ _ Hrun)
    as (job' & lastCompletedBuild & lastBuild & resultset & lastCompletedPipeline &
        HJob' & HCompleted & HLast & HResult & HPipeline & Hevs).
  rewrite HJob in HJob'. injection HJob' as <-.
  assert (isRunning job = false) as Hnot by (unfold isRunning; by rewrite HIs).
  destruct Hevs as [[_ ->]|[Hrunning _]]; [|congruence].
  split_and!; try done.
  - apply in_app_iff. left. apply in_app_iff. right.
    unfold countsJournal. rewrite HIs. cbn. tauto.
  - exists lastBuild. split; [done|]. setsOf_journal. by rewrite Hnot.
  - by setsOf_journal.
  - by setsOf_journal.
Qed.

Lemma isRunning_error_means_not_running_witness :
  setsOf jenkinsRunningBuild (journal (updateJob (Faulty.serving Faulty.unknown) "app"))
  = [(["app"; "43"; "0"], ofInt 0)].
Proof.
  destruct (isRunning_error_means_not_running
              (Faulty.serving Faulty.unknown) "app" Faulty.unknown "timeout"
              (journal (updateJob (Faulty.serving Faulty.unknown) "app")))
    as (_ & _ & (lastBuild & HLast & Hsets) & _); [reflexivity..|vm_compute; reflexivity|].
  injection HLast as <-. exact Hsets.
Defined.

(** ** The other gauges of one job *)

(** X4.  When the body of the loop has run for a job, it has set
    jenkins_build_test_count three times, on the labels (job name,
    number of the last completed build) followed by fail, skip and
    pass, to the fail, skip and pass counts of the result set; a scrape
    then reads these three values. *)
Theorem test_count_series jenkinsCli jobname evs :
  updateJob jenkinsCli jobname = (evs, Next tt) ->
  exists job lastCompletedBuild resultset,
    Jenkins.GetJob jenkinsCli jobname = Ok job /\
    Job.GetLastCompletedBuild job = Ok lastCompletedBuild /\
    Build.GetResultSet lastCompletedBuild = Ok resultset /\
    let name := Job.GetName job in
    let id := Itoa (Build.GetBuildNumber lastCompletedBuild) in
    setsOf jenkinsCompletedBuildTestCount evs =
      [([name; id; "fail"], ofInt (TestResult.FailCount resultset));
       ([name; id; "skip"], ofInt (TestResult.SkipCount resultset));
       ([name; id; "pass"], ofInt (TestResult.PassCount resultset))] /\
    forall r,
      let counts := series jenkinsCompletedBuildTestCount (replay evs r) in
      counts !! [name; id; "fail"] = Some (ofInt (TestResult.FailCount resultset)) /\
      counts !! [name; id; "skip"] = Some (ofInt (TestResult.SkipCount resultset)) /\
      counts !! [name; id; "pass"] = Some (ofInt (TestResult.PassCount resultset)).
Proof.
  intros Hrun.
  assert (Hseries := fun r =>
            updateJob_series jenkinsCompletedBuildTestCount jenkinsCli jobname evs r Hrun).
  destruct (updateJob_Next _ _ _ Hrun)
    as (job & lastCompletedBuild & lastBuild & resultset & lastCompletedPipeline &
        HJob & HCompleted & HLast & HResult & HPipeline & Hevs).
  exists job, lastCompletedBuild, resultset. do 3 (split; [done|]). cbv zeta.
  assert (setsOf jenkinsCompletedBuildTestCount evs =
      [([Job.GetName job; Itoa (Build.GetBuildNumber lastCompletedBuild); "fail"],
        ofInt (TestResult.FailCount resultset));
       ([Job.GetName job; Itoa (Build.GetBuildNumber lastCompletedBuild); "skip"],
        ofInt (TestResult.SkipCount resultset));
       ([Job.GetName job; Itoa (Build.GetBuildNumber lastCompletedBuild); "pass"],
        ofInt (TestResult.PassCount resultset))]) as Hsets.
  { destruct Hevs as [[_ ->]|[_ (livePipe & _ & ->)]]; by setsOf_journal. }
  split; [done|]. intros r. rewrite Hseries, Hsets. cbn.
  split_and!.
  - rewrite lookup_insert_ne, lookup_insert_ne, lookup_insert_eq; [done|by intros [=]..].
  - rewrite lookup_insert_ne, lookup_insert_eq; [done|by intros [=]].
  - by rewrite lookup_insert_eq.
Qed.

Lemma test_count_series_witness :
  setsOf jenkinsCompletedBuildTestCount (journal (updateJob Sample.server "app")) =
  [(["app"; "42"; "fail"], ofInt 1); (["app"; "42"; "skip"], ofInt 0);
   (["app"; "42"; "pass"], ofInt 1)].
Proof.
  destruct (test_count_series Sample.server "app" (journal (updateJob Sample.server "app")))
    as (job & lastCompletedBuild & resultset & HJob & HCompleted & HResult & Hsets & _);
    [vm_compute; reflexivity|].
  injection HJob as <-. injection HCompleted as <-. injection HResult as <-. exact Hsets.
Defined.

(** X5.  When the body of the loop has run for a job, it has set
    jenkins_build_duration_seconds and jenkins_build_timestamp once
    each, on the labels (job name, number of the last completed build):
    the first to the duration of that build divided by 1000, the second
    to the Unix time, in seconds, of its timestamp. *)
Theorem duration_and_timestamp_series jenkinsCli jobname evs :
  updateJob jenkinsCli jobname = (evs, Next tt) ->
  exists job lastCompletedBuild,
    Jenkins.GetJob jenkinsCli jobname = Ok job /\
    Job.GetLastCompletedBuild job = Ok lastCompletedBuild /\
    let lvs := [Job.GetName job; Itoa (Build.GetBuildNumber lastCompletedBuild)] in
    setsOf jenkinsCompletedBuildDurationSeconds evs =
      [(lvs, ofMillisDiv1000 (Build.GetDuration lastCompletedBuild))] /\
    setsOf jenkinsCompletedBuildTimestamp evs =
      [(lvs, ofInt (Unix (Build.GetTimestamp lastCompletedBuild)))] /\
    forall r,
      series jenkinsCompletedBuildDurationSeconds (replay evs r) !! lvs
        = Some (ofMillisDiv1000 (Build.GetDuration lastCompletedBuild)) /\
      series jenkinsCompletedBuildTimestamp (replay evs r) !! lvs
        = Some (ofInt (Unix (Build.GetTimestamp lastCompletedBuild))).
Proof.
  intros Hrun.
  assert (Hseries := fun g r => updateJob_series g jenkinsCli jobname evs r Hrun).
  destruct (updateJob_Next _ _ _ Hrun)
    as (job & lastCompletedBuild & lastBuild & resultset & lastCompletedPipeline &
        HJob & HCompleted & HLast & HResult & HPipeline & Hevs).
  exists job, lastCompletedBuild. do 2 (split; [done|]). cbv zeta.
  assert (setsOf jenkinsCompletedBuildDurationSeconds evs =
          [(commonArgs job lastCompletedBuild,
            ofMillisDiv1000 (Build.GetDuration lastCompletedBuild))]) as Hduration.
  { destruct Hevs as [[_ ->]|[_ (livePipe & _ & ->)]]; by setsOf_journal. }
  assert (setsOf jenkinsCompletedBuildTimestamp evs =
          [(commonArgs job lastCompletedBuild,
            ofInt (Unix (Build.GetTimestamp lastCompletedBuild)))]) as Htimestamp.
  { destruct Hevs as [[_ ->]|[_ (livePipe & _ & ->)]]; by setsOf_journal. }
  split_and!; try done.
  intros r. rewrite !Hseries, Hduration, Htimestamp. cbn.
  split; apply lookup_insert_eq.
Qed.

Lemma duration_and_timestamp_series_witness :
  setsOf jenkinsCompletedBuildTimestamp (journal (updateJob Sample.server "app")) =
  [(["app"; "42"], ofInt 1600000000)].
Proof.
  destruct (duration_and_timestamp_series Sample.server "app"
              (journal (updateJob Sample.server "app")))
    as (job & lastCompletedBuild & HJob & HCompleted & _ & Hsets & _);
    [vm_compute; reflexivity|].
  injection HJob as <-. injection HCompleted as <-. exact Hsets.
Defined.

(** X6.  When the body of the loop has run for a job, the [Set] calls
    on jenkins_build_pipeline_duration_seconds are, in order, one per
    stage of the pipeline run of the last completed build, on the
    labels (job name, build number, stage id padded to three
    characters, stage name), with the stage duration divided by 1000,
    truncated towards zero; this is so whether the job is running or
    not. *)
Theorem pipeline_duration_series jenkinsCli jobname evs :
  updateJob jenkinsCli jobname = (evs, Next tt) ->
  exists job lastCompletedBuild lastCompletedPipeline,
    Jenkins.GetJob jenkinsCli jobname = Ok job /\
    Job.GetLastCompletedBuild job = Ok lastCompletedBuild /\
    Job.GetPipelineRun job (Itoa (Build.GetBuildNumber lastCompletedBuild))
      = Ok lastCompletedPipeline /\
    setsOf jenkinsCompletedBuildPipelineDurationSeconds evs =
      map (fun stage =>
             ([Job.GetName job; Itoa (Build.GetBuildNumber lastCompletedBuild);
               Sprintf_03s (PipelineNode.ID stage); PipelineNode.Name stage],
              ofInt (Z.quot (PipelineNode.Duration stage) 1000)))
          (PipelineRun.Stages lastCompletedPipeline).
Proof.
  intros Hrun.
  destruct (updateJob_Next _ _ _ Hrun)
    as (job & lastCompletedBuild & lastBuild & resultset & lastCompletedPipeline &
        HJob & HCompleted & HLast & HResult & HPipeline & Hevs).
  exists job, lastCompletedBuild, lastCompletedPipeline. split_and!; try done.
  destruct Hevs as [[_ ->]|[_ (livePipe & _ & ->)]]; by setsOf_journal.
Qed.

Lemma pipeline_duration_series_witness :
  setsOf jenkinsCompletedBuildPipelineDurationSeconds
    (journal (updateJob Sample.server "app")) =
  [(["app"; "42"; "006"; "Build"], ofInt 2); (["app"; "42"; "012"; "Test"], ofInt (-1))].
Proof.
  destruct (pipeline_duration_series Sample.server "app"
              (journal (updateJob Sample.server "app")))
    as (job & lastCompletedBuild & lastCompletedPipeline & HJob & HCompleted & HPipeline &
        Hsets); [vm_compute; reflexivity|].
  injection HJob as <-. injection HCompleted as <-. injection HPipeline as <-. exact Hsets.
Defined.

(** ** The calls on the SDK *)

Lemma callsOf_app evs evs' : callsOf (evs ++ evs') = callsOf evs ++ callsOf evs'.
Proof. apply flat_map_app. Qed.

Lemma callsOf_step e evs :
  callsOf (e :: evs) = match e with Called c _ => [c] | _ => [] end ++ callsOf evs.
Proof. reflexivity. Qed.

Lemma callsOf_nil : callsOf [] = [].
Proof. reflexivity. Qed.

Lemma callsOf_none evs :
  Forall (fun e => forall c err, e <> Called c err) evs -> callsOf evs = [].
Proof.
  induction 1 as [|e evs He _ IH]; [done|].
  unfold callsOf. cbn [flat_map]. fold (callsOf evs). rewrite IH.
  destruct e; try done. by destruct (He c err).
Qed.

(** X7.  When the body of the loop has run for a job, the SDK methods
    returning an error that it has called are, in this order:
    [GetJob], [GetLastCompletedBuild], [GetLastBuild], [GetResultSet],
    [IsRunning], [GetPipelineRun] for the last build if and only if the
    job is running, and [GetPipelineRun] for the last completed build.
    That is six such calls, or seven for a running job.  The accessors
    of the SDK, which return no error, are not counted. *)
Theorem updateJob_calls jenkinsCli jobname evs :
  updateJob jenkinsCli jobname = (evs, Next tt) ->
  exists job lastCompletedBuild lastBuild,
    Jenkins.GetJob jenkinsCli jobname = Ok job /\
    Job.GetLastCompletedBuild job = Ok lastCompletedBuild /\
    Job.GetLastBuild job = Ok lastBuild /\
    callsOf evs =
      [CallGetJob jobname; CallGetLastCompletedBuild; CallGetLastBuild;
       CallGetResultSet; CallIsRunning] ++
      (if isRunning job
       then [CallGetPipelineRun (Itoa (Build.GetBuildNumber lastBuild))] else []) ++
      [CallGetPipelineRun (Itoa (Build.GetBuildNumber lastCompletedBuild))] /\
    length (callsOf evs) = (if isRunning job then 7 else 6)%nat.
Proof.
  intros Hrun.
  destruct (updateJob_Next _ _ _ Hrun)
    as (job & lastCompletedBuild & lastBuild & resultset & lastCompletedPipeline &
        HJob & HCompleted & HLast & HResult & HPipeline & Hevs).
  exists job, lastCompletedBuild, lastBuild. do 3 (split; [done|]).
  assert (forall args suites, callsOf (failureAgeSets args suites) = []) as Hfailures.
  { intros. apply callsOf_none. by journal_Forall. }
  assert (forall j b stages, callsOf (pipelineStatusSets j b stages) = []) as Hstatus.
  { intros. apply callsOf_none. by journal_Forall. }
  assert (forall j b stages, callsOf (pipelineDurationSets j b stages) = []) as Hdurations.
  { intros. apply callsOf_none. by journal_Forall. }
  destruct Hevs as [[-> ->]|[-> (livePipe & _ & ->)]];
    unfold fetchedJournal, countsJournal, liveJournal, testsJournal, completedJournal;
    repeat first [ rewrite callsOf_app | rewrite callsOf_step | rewrite callsOf_nil
                 | rewrite Hfailures | rewrite Hstatus | rewrite Hdurations ];
    cbn [app]; done.
Qed.

Lemma updateJob_calls_witness :
  callsOf (journal (updateJob Sample.server "app")) =
  [CallGetJob "app"; CallGetLastCompletedBuild; CallGetLastBuild; CallGetResultSet;
   CallIsRunning; CallGetPipelineRun "43"; CallGetPipelineRun "42"].
Proof.
  destruct (updateJob_calls Sample.server "app" (journal (updateJob Sample.server "app")))
    as (job & lastCompletedBuild & lastBuild & HJob & HCompleted & HLast & Hcalls & _);
    [vm_compute; reflexivity|].
  injection HJob as <-. injection HCompleted as <-. injection HLast as <-. exact Hcalls.
Defined.

(** ** The registry across jobs and cycles *)

Lemma loop_events jenkinsCli jobs :
  Forall (fun e => exists jobname, In jobname jobs /\ jobEvent jenkinsCli jobname e)
         (journal (range jobs (updateJob jenkinsCli))).
Proof.
  apply Forall_forall. intros e He%list_elem_of_In.
  apply range_In in He as (jobname & Hjobname & He). exists jobname. split; [done|].
  assert (Hev := updateJob_events jenkinsCli jobname).
  rewrite Forall_forall in Hev. by apply list_elem_of_In, Hev in He.
Qed.

Lemma loop_no_reset jenkinsCli jobs g :
  Forall (fun e => e <> GaugeReset g) (journal (range jobs (updateJob jenkinsCli))).
Proof.
  eapply Forall_impl; [apply loop_events|]. by intros e (jobname & _ & He) ->.
Qed.

(** X8.  Within a cycle, the body of the loop for one job never removes
    a series, and it leaves alone every series whose first label value
    is not the name of that job: the jobs of a cycle cannot disturb
    each other's series. *)
Theorem updateJob_frame jenkinsCli jobname g lvs r :
  (is_Some (series g r !! lvs) ->
   is_Some (series g (replay (journal (updateJob jenkinsCli jobname)) r) !! lvs)) /\
  ((forall job, Jenkins.GetJob jenkinsCli jobname = Ok job ->
                head lvs <> Some (Job.GetName job)) ->
   series g (replay (journal (updateJob jenkinsCli jobname)) r) !! lvs
   = series g r !! lvs).
Proof.
  assert (Hev := updateJob_events jenkinsCli jobname). split.
  - intros Hbefore. apply series_replay_is_Some; [|by left].
    eapply Forall_impl; [exact Hev|]. by intros e He ->.
  - intros Hother. apply replay_lookup_frame.
    eapply Forall_impl; [exact Hev|]. intros e He. split_and!; [by intros ->| |].
    + intros v ->. destruct He as (_ & job & HJob & Hhead). by apply (Hother job).
    + intros ->. destruct He as (_ & job & HJob & Hhead). by apply (Hother job).
Qed.

Lemma updateJob_Returned_silent jenkinsCli jobname :
  flow (updateJob jenkinsCli jobname) = Returned ->
  Forall silent (journal (updateJob jenkinsCli jobname)).
Proof.
  job_cases jenkinsCli jobname; unfold flow, journal; cbn [fst snd]; intros [=];
    by repeat constructor.
Qed.

(** The body of the loop calls [WithLabelValues] without [Set] only in
    a run that panics. *)
Lemma updateJob_With_panics jenkinsCli jobname g lvs :
  In (GaugeWith g lvs) (journal (updateJob jenkinsCli jobname)) ->
  flow (updateJob jenkinsCli jobname) = Panicked NilDereference.
Proof.
  intros Hin%list_elem_of_In.
  destruct (updateJob_flow jenkinsCli jobname) as [Hflow|[Hflow|Hflow]]; [| |done].
  - assert (Hset := updateJob_Next_events jenkinsCli jobname
                      (journal (updateJob jenkinsCli jobname))).
    rewrite Forall_forall in Hset.
    destruct (updateJob jenkinsCli jobname) as [evs f]. unfold flow in Hflow.
    cbn [snd] in Hflow. subst f. by destruct (Hset eq_refl _ Hin g lvs).
  - apply updateJob_Returned_silent in Hflow. rewrite Forall_forall in Hflow.
    by destruct (Hflow _ Hin).
Qed.

Lemma range_panics {X} (xs : list X) (body : X -> M unit) e p :
  (forall x, In e (journal (body x)) -> flow (body x) = Panicked p) ->
  In e (journal (range xs body)) -> flow (range xs body) = Panicked p.
Proof.
  intros Hbody. induction xs as [|x xs IH]; [done|].
  cbn [range]. rewrite journal_bind, flow_bind, in_app_iff. intros [Hin|Hin].
  - by rewrite (Hbody x Hin).
  - destruct (flow (body x)) as [[]| | |]; try done. by apply IH.
Qed.

(** The gauge calls of a cycle that reached the server, after the nine
    [Reset] calls, are those of the loop over the jobs. *)
Lemma cycle_gauges config jenkinsCli u e :
  Jenkins.Init jenkinsCli = Ok u ->
  (exists g lvs, (exists v, e = GaugeSet g lvs v) \/ e = GaugeWith g lvs) ->
  In e (journal (updateMetrics config jenkinsCli)) <->
  In e (journal (range (Jobs (Jenkins config)) (updateJob jenkinsCli))).
Proof.
  intros HInit He. rewrite (updateMetrics_connected _ _ _ HInit). unfold journal at 1.
  cbn [fst].
  change (Called CallInit None :: resetJournal ++ ?l)
    with ((Called CallInit None :: resetJournal) ++ l).
  rewrite !in_app_iff. split; [|by auto].
  intros [Hin|[Hin|[Hin|Hin]]]; [| |done|]; exfalso;
    destruct He as (g & lvs & [[v ->]| ->]); cbn in Hin;
    repeat (destruct Hin as [[=]|Hin]); done.
Qed.

Lemma cycle_sets config jenkinsCli u g lvs v :
  Jenkins.Init jenkinsCli = Ok u ->
  In (GaugeSet g lvs v) (journal (updateMetrics config jenkinsCli)) <->
  In (GaugeSet g lvs v) (journal (range (Jobs (Jenkins config)) (updateJob jenkinsCli))).
Proof. intros HInit. apply (cycle_gauges _ _ _ _ HInit). exists g, lvs. left. by exists v. Qed.

Lemma cycle_withs config jenkinsCli u g lvs :
  Jenkins.Init jenkinsCli = Ok u ->
  In (GaugeWith g lvs) (journal (updateMetrics config jenkinsCli)) <->
  In (GaugeWith g lvs) (journal (range (Jobs (Jenkins config)) (updateJob jenkinsCli))).
Proof. intros HInit. apply (cycle_gauges _ _ _ _ HInit). exists g, lvs. by right. Qed.

(** X9.  After a cycle that reached the server, however it ended, a
    series is in the registry exactly when the cycle called
    [WithLabelValues] for it, with the [Set] that follows or, in a cycle
    that panicked, without it.  After a cycle that did not panic, that
    is exactly when the cycle stored a value in it; after a cycle that
    completed its pass, exactly when the body of the loop stored a value
    in it for one of the configured jobs. *)
Theorem cycle_series_present config jenkinsCli u r g lvs :
  Jenkins.Init jenkinsCli = Ok u ->
  let cycle := journal (updateMetrics config jenkinsCli) in
  (is_Some (series g (replay cycle r) !! lvs) <->
   (exists v, In (GaugeSet g lvs v) cycle) \/ In (GaugeWith g lvs) cycle) /\
  ((forall p, flow (updateMetrics config jenkinsCli) <> Panicked p) ->
   is_Some (series g (replay cycle r) !! lvs) <-> exists v, In (GaugeSet g lvs v) cycle) /\
  (flow (updateMetrics config jenkinsCli) = Next tt ->
   is_Some (series g (replay cycle r) !! lvs) <->
   exists jobname v,
     In jobname (Jobs (Jenkins config)) /\
     In (GaugeSet g lvs v) (journal (updateJob jenkinsCli jobname))).
Proof.
  intros HInit cycle.
  assert (is_Some (series g (replay cycle r) !! lvs) <->
          (exists v, In (GaugeSet g lvs v) cycle) \/ In (GaugeWith g lvs) cycle) as Hpresent.
  { unfold cycle. rewrite (updateMetrics_registry _ _ _ _ HInit).
    rewrite series_replay_is_Some by apply loop_no_reset.
    split.
    - intros [[? Hempty]|[[v Hin]|Hin]]; [by destruct g| |].
      + left. exists v. by apply (cycle_sets _ _ _ _ _ _ HInit).
      + right. by apply (cycle_withs _ _ _ _ _ HInit).
    - intros [[v Hin]|Hin]; right.
      + left. exists v. by apply (cycle_sets _ _ _ _ _ _ HInit) in Hin.
      + right. by apply (cycle_withs _ _ _ _ _ HInit) in Hin. }
  assert ((forall p, flow (updateMetrics config jenkinsCli) <> Panicked p) ->
          is_Some (series g (replay cycle r) !! lvs) <->
          exists v, In (GaugeSet g lvs v) cycle) as Hstored.
  { intros Hflow. rewrite Hpresent. split; [|by left]. intros [Hin|Hin]; [done|].
    destruct (Hflow NilDereference). apply (cycle_withs _ _ _ _ _ HInit) in Hin.
    rewrite (updateMetrics_connected _ _ _ HInit). unfold flow at 1. cbn [snd].
    revert Hin. apply range_panics. intros jobname. apply updateJob_With_panics. }
  split_and!; [done..|]. intros Hflow. rewrite Hstored by (rewrite Hflow; by intros p).
  unfold cycle.
  rewrite (updateMetrics_connected _ _ _ HInit) in Hflow. unfold flow at 1 in Hflow.
  cbn [snd] in Hflow. apply range_Next in Hflow as [Hjournal _].
  split.
  - intros [v Hin]. apply (cycle_sets _ _ _ _ _ _ HInit), range_In in Hin
      as (jobname & Hjobname & Hin). by exists jobname, v.
  - intros (jobname & v & Hjobname & Hin). exists v.
    apply (cycle_sets _ _ _ _ _ _ HInit). rewrite Hjournal. apply in_flat_map. eauto.
Qed.

Lemma cycle_series_present_witness :
  is_Some (series jenkinsCompletedBuildTestCount
             (replay (journal (updateMetrics (Sample.config ["app"])
                                 (Faulty.serving Faulty.unreported))) stale)
           !! ["app"; "43"; "fail"]).
Proof.
  destruct (cycle_series_present (Sample.config ["app"]) (Faulty.serving Faulty.unreported)
              tt stale jenkinsCompletedBuildTestCount ["app"; "43"; "fail"])
    as [Hpresent _]; [reflexivity|].
  apply Hpresent. right. vm_compute. repeat first [by left | right].
Defined.

(** X10.  Polling is idempotent on the registry: when the server is
    reached, the registry after the cycle does not depend on the
    registry before, however the cycle ends, so a second cycle with the
    same answers leaves it as the first one did. *)
Theorem cycle_idempotent config jenkinsCli u r r' :
  Jenkins.Init jenkinsCli = Ok u ->
  let cycle := journal (updateMetrics config jenkinsCli) in
  replay cycle r = replay cycle r' /\
  replay cycle (replay cycle r) = replay cycle r.
Proof.
  intros HInit cycle. unfold cycle.
  by rewrite !(updateMetrics_registry _ _ _ _ HInit).
Qed.

Lemma cycle_idempotent_witness :
  replay (journal (updateMetrics (Sample.config ["app"; "gone"]) Sample.server)) stale =
  replay (journal (updateMetrics (Sample.config ["app"; "gone"]) Sample.server))
    prometheus.empty.
Proof.
  destruct (cycle_idempotent (Sample.config ["app"; "gone"]) Sample.server tt
              stale prometheus.empty) as [Hsame _]; [reflexivity|].
  exact Hsame.
Defined.

(** X11.  A job that cannot be fetched ends the cycle for the jobs that
    follow it in the configuration as well: when the body of the loop
    returns for a job, after having run to its end for the jobs before
    it, [updateMetrics] returns, the SDK is not called for any later
    job, and the registry holds the series of the earlier jobs only. *)
Theorem missing_job_hides_later_jobs config jenkinsCli u done jobname rest r :
  Jenkins.Init jenkinsCli = Ok u ->
  Jobs (Jenkins config) = done ++ jobname :: rest ->
  flow (range done (updateJob jenkinsCli)) = Next tt ->
  flow (updateJob jenkinsCli jobname) = Returned ->
  let cycle := journal (updateMetrics config jenkinsCli) in
  flow (updateMetrics config jenkinsCli) = Returned /\
  cycle = connectJournal config ++ Called CallInit None :: resetJournal ++
          journal (range done (updateJob jenkinsCli)) ++
          journal (updateJob jenkinsCli jobname) ++ [CloseIdleConnections] /\
  replay cycle r = replay (journal (range done (updateJob jenkinsCli))) prometheus.empty /\
  forall g lvs v,
    In (GaugeSet g lvs v) cycle ->
    exists earlier, In earlier done /\
                    In (GaugeSet g lvs v) (journal (updateJob jenkinsCli earlier)).
Proof.
  intros HInit HJobs Hdone Hjob cycle.
  assert (range (Jobs (Jenkins config)) (updateJob jenkinsCli) =
          (journal (range done (updateJob jenkinsCli)) ++
           journal (updateJob jenkinsCli jobname), Returned)) as Hloop.
  { rewrite HJobs, range_app. cbn [range].
    destruct (range done (updateJob jenkinsCli)) as [evs f]. unfold flow in Hdone.
    cbn [snd] in Hdone. subst f. rewrite bind_pair_Next.
    destruct (updateJob jenkinsCli jobname) as [evs' f']. unfold flow in Hjob.
    cbn [snd] in Hjob. by subst f'. }
  assert (cycle = connectJournal config ++ Called CallInit None :: resetJournal ++
          journal (range done (updateJob jenkinsCli)) ++
          journal (updateJob jenkinsCli jobname) ++ [CloseIdleConnections]) as Hcycle.
  { unfold cycle. rewrite (updateMetrics_connected _ _ _ HInit), Hloop.
    unfold journal at 1 2. cbn [fst]. by rewrite <- !app_assoc. }
  assert (Forall silent (journal (updateJob jenkinsCli jobname))) as Hsilent
    by by apply updateJob_Returned_silent.
  split_and!; try done.
  - rewrite (updateMetrics_connected _ _ _ HInit), Hloop. done.
  - unfold cycle. rewrite (updateMetrics_registry _ _ _ _ HInit), Hloop.
    unfold journal at 1. cbn [fst]. rewrite replay_app. by apply replay_silent.
  - intros g lvs v Hin. unfold cycle in Hin.
    apply (cycle_sets _ _ _ _ _ _ HInit) in Hin. rewrite Hloop in Hin.
    unfold journal at 1 in Hin. cbn [fst] in Hin. apply in_app_iff in Hin as [Hin|Hin].
    + apply range_In in Hin as (earlier & Hearlier & Hin). by exists earlier.
    + rewrite Forall_forall in Hsilent. by apply list_elem_of_In, Hsilent in Hin.
Qed.

Lemma missing_job_hides_later_jobs_witness :
  replay (journal (updateMetrics (Sample.config ["gone"; "app"]) Sample.server)) stale
  = prometheus.empty.
Proof.
  destruct (missing_job_hides_later_jobs
              (Sample.config ["gone"; "app"]) Sample.server tt [] "gone" ["app"] stale)
    as (_ & _ & Hregistry & _); [reflexivity..|].
  exact Hregistry.
Defined.

(** X12.  Every run of [updateMetrics] ends with the deferred
    [CloseIdleConnections], called once: when the server cannot be
    reached, when a job cannot be fetched, when the pass completes, and
    also when the body of the loop panics. *)
Theorem updateMetrics_closes_connections config jenkinsCli :
  exists evs,
    journal (updateMetrics config jenkinsCli) = evs ++ [CloseIdleConnections] /\
    Forall (fun e => e <> CloseIdleConnections) evs.
Proof.
  destruct (Jenkins.Init jenkinsCli) as [u|err] eqn:HInit.
  - rewrite (updateMetrics_connected _ _ _ HInit). unfold journal at 1. cbn [fst].
    exists (connectJournal config ++ Called CallInit None :: resetJournal ++
            journal (range (Jobs (Jenkins config)) (updateJob jenkinsCli))).
    split; [by rewrite <- !app_assoc|].
    apply Forall_app. split; [by repeat constructor|].
    change (Called CallInit None :: resetJournal ++ ?l)
      with ((Called CallInit None :: resetJournal) ++ l).
    apply Forall_app. split; [by repeat constructor|].
    eapply Forall_impl; [apply loop_events|]. by intros e (jobname & _ & He) ->.
  - rewrite (updateMetrics_unreachable _ _ _ HInit). unfold journal. cbn [fst].
    exists (connectJournal config ++
            [Called CallInit (Some err); Log ErrorLevel "Unable to connect to Jenkins" [err]]).
    split; [by rewrite <- app_assoc|]. by repeat constructor.
Qed.

(** X13.  Every run of [updateMetrics] creates one client, before its
    first call on the SDK, which is [Init]: with the configured user and
    password when the user is not empty, and without credentials when
    it is, whatever the configured password. *)
Theorem updateMetrics_credentials config jenkinsCli :
  exists auth rest,
    journal (updateMetrics config jenkinsCli) =
      Log DebugLevel "Connecting to Jenkins API and collecting metrics..." [] ::
      CreateJenkins (URL (Jenkins config)) auth ::
      Called CallInit (err_of (Jenkins.Init jenkinsCli)) :: rest /\
    (User (Jenkins config) = "" -> auth = None) /\
    (User (Jenkins config) <> "" ->
     auth = Some (User (Jenkins config), Password (Jenkins config))) /\
    Forall (fun e => forall base a, e <> CreateJenkins base a) rest.
Proof.
  exists (if decide (User (Jenkins config) ≠ "")
          then Some (User (Jenkins config), Password (Jenkins config)) else None).
  destruct (Jenkins.Init jenkinsCli) as [u|err] eqn:HInit.
  - rewrite (updateMetrics_connected _ _ _ HInit). unfold journal at 1. cbn [fst].
    eexists. split_and!; [reflexivity| | |].
    + intros Huser. by rewrite decide_False by (by intros ?).
    + intros Huser. by rewrite decide_True.
    + apply Forall_app. split; [by repeat constructor|].
      apply Forall_app. split; [|by repeat constructor].
      eapply Forall_impl; [apply loop_events|]. by intros e (jobname & _ & He) base a ->.
  - rewrite (updateMetrics_unreachable _ _ _ HInit). unfold journal. cbn [fst].
    eexists. split_and!; [reflexivity| | |].
    + intros Huser. by rewrite decide_False by (by intros ?).
    + intros Huser. by rewrite decide_True.
    + by repeat constructor.
Qed.

(** X14.  With an empty job list, a cycle that reaches the server calls
    [Init] only and leaves every gauge vector empty. *)
Theorem no_jobs_empties_registry config jenkinsCli u r :
  Jenkins.Init jenkinsCli = Ok u ->
  Jobs (Jenkins config) = [] ->
  flow (updateMetrics config jenkinsCli) = Next tt /\
  callsOf (journal (updateMetrics config jenkinsCli)) = [CallInit] /\
  replay (journal (updateMetrics config jenkinsCli)) r = prometheus.empty.
Proof.
  intros HInit HJobs.
  rewrite (updateMetrics_registry _ _ _ _ HInit), (updateMetrics_connected _ _ _ HInit).
  rewrite HJobs. by split_and!.
Qed.

Lemma no_jobs_empties_registry_witness :
  replay (journal (updateMetrics (Sample.config []) Sample.server)) stale
  = prometheus.empty.
Proof.
  destruct (no_jobs_empties_registry (Sample.config []) Sample.server tt stale)
    as (_ & _ & Hregistry); [reflexivity..|].
  exact Hregistry.
Defined.

(** ** The polling loop *)

Lemma updateMetrics_events config jenkinsCli :
  Forall cycleEvent (journal (updateMetrics config jenkinsCli)).
Proof.
  destruct (Jenkins.Init jenkinsCli) as [u|err] eqn:HInit.
  - rewrite (updateMetrics_connected _ _ _ HInit). unfold journal at 1. cbn [fst].
    apply Forall_app. split; [by repeat constructor|].
    change (Called CallInit None :: resetJournal ++ ?l)
      with ((Called CallInit None :: resetJournal) ++ l).
    apply Forall_app. split; [by repeat constructor|].
    apply Forall_app. split; [|by repeat constructor].
    eapply Forall_impl; [apply loop_events|]. intros e (jobname & _ & He). by destruct e.
  - rewrite (updateMetrics_unreachable _ _ _ HInit). by repeat constructor.
Qed.

Lemma sleepsOf_app evs evs' : sleepsOf (evs ++ evs') = sleepsOf evs ++ sleepsOf evs'.
Proof. apply flat_map_app. Qed.

Lemma sleepsOf_cycle config jenkinsCli :
  sleepsOf (journal (updateMetrics config jenkinsCli)) = [].
Proof.
  assert (Hev := updateMetrics_events config jenkinsCli).
  induction Hev as [|e evs He _ IH]; [done|].
  unfold sleepsOf. cbn [flat_map]. fold (sleepsOf evs). rewrite IH. by destruct e.
Qed.

Lemma pollOnce_no_panic config jenkinsCli :
  (forall p, flow (updateMetrics config jenkinsCli) <> Panicked p) ->
  pollOnce config jenkinsCli =
  (journal (updateMetrics config jenkinsCli) ++ [Sleep (sleepTime config)], Next tt).
Proof.
  intros Hno. destruct (updateMetrics_flow config jenkinsCli) as [H|[H|H]].
  - unfold pollOnce. destruct (updateMetrics config jenkinsCli) as [evs f].
    unfold flow in H. cbn [snd] in H. by subst f.
  - by apply pollOnce_Returned.
  - by destruct (Hno NilDereference).
Qed.

Lemma pollOnce_panic config jenkinsCli p :
  flow (updateMetrics config jenkinsCli) = Panicked p ->
  pollOnce config jenkinsCli = (journal (updateMetrics config jenkinsCli), Panicked p).
Proof.
  unfold pollOnce. destruct (updateMetrics config jenkinsCli) as [evs f].
  unfold flow, journal. cbn [fst snd]. by intros ->.
Qed.

(** The journal of the turns of the loop that do not panic. *)
Lemma poll_no_panic config ticks :
  Forall (fun jenkinsCli => forall p, flow (updateMetrics config jenkinsCli) <> Panicked p)
         ticks ->
  poll config ticks =
  (flat_map (fun jenkinsCli =>
               journal (updateMetrics config jenkinsCli) ++ [Sleep (sleepTime config)])
            ticks, Next tt).
Proof.
  induction 1 as [|jenkinsCli ticks Hno _ IH]; [done|].
  unfold poll in *. cbn [range flat_map].
  by rewrite (pollOnce_no_panic _ _ Hno), bind_pair_Next, IH.
Qed.

(** X15.  The polling loop has a fixed period: as long as no cycle
    panics, every turn runs [updateMetrics] once and then sleeps for the
    same duration, whether the cycle completed its pass or returned
    early; [updateMetrics] itself never sleeps. *)
Theorem poll_fixed_period config ticks :
  Forall (fun jenkinsCli => forall p, flow (updateMetrics config jenkinsCli) <> Panicked p)
         ticks ->
  flow (poll config ticks) = Next tt /\
  sleepsOf (journal (poll config ticks)) = replicate (length ticks) (sleepTime config) /\
  callsOf (journal (poll config ticks)) =
    flat_map (fun jenkinsCli => callsOf (journal (updateMetrics config jenkinsCli))) ticks.
Proof.
  intros Hno. rewrite (poll_no_panic _ _ Hno).
  split_and!; [done| |]; unfold journal at 1; cbn [fst].
  - clear Hno. induction ticks as [|jenkinsCli ticks IH]; [done|].
    cbn [flat_map length replicate]. rewrite !sleepsOf_app, IH, sleepsOf_cycle. done.
  - clear Hno. induction ticks as [|jenkinsCli ticks IH]; [done|].
    cbn [flat_map]. rewrite !callsOf_app, IH. cbn. by rewrite app_nil_r.
Qed.

Lemma poll_fixed_period_witness :
  sleepsOf (journal (poll (Sample.config ["app"]) [Sample.server; Sample.down; Sample.server]))
  = [1800000000000; 1800000000000; 1800000000000].
Proof.
  destruct (poll_fixed_period (Sample.config ["app"])
              [Sample.server; Sample.down; Sample.server]) as (_ & Hsleeps & _).
  - repeat constructor; intros p; vm_compute; discriminate.
  - exact Hsleeps.
Defined.

(** X16.  A panic of [updateMetrics] ends the polling loop: the turns
    before it ran and slept as usual, the journal ends with the journal
    of the panicking cycle, and no later turn runs. *)
Theorem poll_stops_at_panic config before jenkinsCli after p :
  Forall (fun jenkinsCli => forall p, flow (updateMetrics config jenkinsCli) <> Panicked p)
         before ->
  flow (updateMetrics config jenkinsCli) = Panicked p ->
  poll config (before ++ jenkinsCli :: after) =
  (journal (poll config before) ++ journal (updateMetrics config jenkinsCli), Panicked p).
Proof.
  intros Hbefore Hpanic. unfold poll. rewrite range_app. fold (poll config before).
  rewrite (poll_no_panic _ _ Hbefore), bind_pair_Next. cbn [range].
  by rewrite (pollOnce_panic _ _ _ Hpanic).
Qed.

Lemma poll_stops_at_panic_witness :
  flow (poll (Sample.config ["app"])
          [Sample.server; Faulty.serving Faulty.freestyle; Sample.server])
  = Panicked NilDereference.
Proof.
  assert (Hpoll := poll_stops_at_panic (Sample.config ["app"]) [Sample.server]
                     (Faulty.serving Faulty.freestyle) [Sample.server] NilDereference).
  cbn [app] in Hpoll. rewrite Hpoll.
  - reflexivity.
  - repeat constructor; intros p; vm_compute; discriminate.
  - vm_compute. reflexivity.
Defined.

(** X17.  For an update interval of at most 9223372036 seconds, the
    duration given to [time.Sleep] is that number of seconds in
    nanoseconds, and it is positive when the interval is.  The bound is
    sharp: one second more and the int64 multiplication wraps to a
    negative duration. *)
Theorem sleepTime_exact config :
  (UpdateInterval (Jenkins config) <= maxInterval)%N ->
  sleepTime config = Z.of_N (UpdateInterval (Jenkins config)) * 1000000000 /\
  ((0 < UpdateInterval (Jenkins config))%N -> 0 < sleepTime config) /\
  sleepTime (withInterval config (maxInterval + 1)) < 0.
Proof.
  intros Hle. unfold maxInterval in *.
  assert (sleepTime config = Z.of_N (UpdateInterval (Jenkins config)) * 1000000000) as Heq.
  { unfold sleepTime, Second. rewrite (int64_small (Z.of_N _)), int64_small;
      unfold min_int64, max_int64; lia. }
  split_and!; [done|lia|]. by vm_compute.
Qed.

Lemma sleepTime_exact_witness :
  sleepTime (Sample.config []) = 1800000000000.
Proof.
  destruct (sleepTime_exact (Sample.config [])) as [Heq _]; [by vm_compute|].
  exact Heq.
Defined.

(** ** Start-up, continued *)

(** X18.  When [init] goes on, the configuration it leaves is the loaded
    one in everything but the update interval: server URL, user,
    password and job list are untouched, the update interval is
    positive, nothing fatal was logged, and the log level was set to
    debug exactly when [-debug] was given as true. *)
Theorem init_keeps_configuration args fs evs config :
  init args fs = (evs, Next config) ->
  let loaded := (loadConfig fs (configFile args)).1 in
  URL (Jenkins config) = URL (Jenkins loaded) /\
  User (Jenkins config) = User (Jenkins loaded) /\
  Password (Jenkins config) = Password (Jenkins loaded) /\
  Jobs (Jenkins config) = Jobs (Jenkins loaded) /\
  (0 < UpdateInterval (Jenkins config))%N /\
  (In (SetLevel DebugLevel) evs <-> debug args = Some true) /\
  Forall (fun e => forall format a, e <> Log FatalLevel format a) evs.
Proof.
  unfold init, configFile.
  set (path := flag_String (config_path args) "./config.toml").
  destruct (Stat fs path) as [e|] eqn:HStat.
  { by destruct (flag_Bool (debug args) false). }
  destruct (loadConfig fs path) as [loaded [e|]] eqn:Hload.
  { by destruct (flag_Bool (debug args) false). }
  cbn [fst].
  destruct (debug args) as [[|]|]; cbn [flag_Bool default];
    destruct (UpdateInterval (Jenkins loaded) <=? 0)%N eqn:Hle;
    cbn; rewrite Hle; intros [= <- <-]; cbn;
    split_and!; try done; try (by repeat constructor); try (by apply N.leb_gt in Hle);
    intuition discriminate.
Qed.

Lemma init_keeps_configuration_witness :
  exists evs config,
    init Startup.noFlags Startup.disk = (evs, Next config) /\
    Jobs (Jenkins config) = ["app"] /\ ~ In (SetLevel DebugLevel) evs.
Proof.
  eexists _, _. split; [vm_compute; reflexivity|].
  destruct (init_keeps_configuration Startup.noFlags Startup.disk _ _ eq_refl)
    as (_ & _ & _ & HJobs & _ & Hdebug & _).
  split; [exact HJobs|]. intros Hin. by apply Hdebug in Hin.
Defined.

(** ** Registration *)

Lemma registerAll_None gs : fold_left (fun registered g => registered ≫= MustRegister g) gs None = None.
Proof. by induction gs. Qed.

Lemma registerAll_Some gs registered registered' :
  registerAll gs registered = Some registered' <->
  registered' = registered ++ map Name gs /\
  NoDup (map Name gs) /\
  Forall (fun g => Name g ∉ registered) gs.
Proof.
  unfold registerAll. revert registered.
  induction gs as [|g gs IH]; intros registered; cbn [fold_left map].
  { rewrite app_nil_r. split; [intros [= <-]|intros (-> & _)]; [|done].
    split_and!; [done|constructor|constructor]. }
  unfold MustRegister at 2. cbn [mbind option_bind]. case_decide as Hg.
  - rewrite registerAll_None. split; [done|]. intros (_ & _ & Hfresh).
    apply Forall_cons in Hfresh as [Hfresh _]. done.
  - rewrite IH, NoDup_cons, Forall_cons, <- app_assoc. cbn [app].
    rewrite !Forall_forall. split.
    + intros (-> & Hnodup & Hfresh). split_and!; try done.
      * intros Hin%list_elem_of_fmap. destruct Hin as (g' & Hname & Hin).
        apply (Hfresh g' Hin). rewrite <- Hname. apply elem_of_app. right. by left.
      * intros g' Hin Hreg. apply (Hfresh g' Hin). apply elem_of_app. by left.
    + intros (-> & (Hnotin & Hnodup) & Hg' & Hfresh). split_and!; try done.
      intros g' Hin [Hreg|Hsame%list_elem_of_singleton]%elem_of_app.
      * by apply (Hfresh g').
      * apply Hnotin. rewrite <- Hsame. by apply list_elem_of_fmap_2.
Qed.

Lemma registerMetrics_registerAll registered :
  registerMetrics registered = registerAll registrationOrder registered.
Proof.
  unfold registerMetrics, registerAll, registrationOrder. cbn [fold_left].
  cbn [mbind option_bind].
  repeat match goal with
         | |- context [MustRegister ?g ?r] =>
             is_var r; destruct (MustRegister g r); cbn [mbind option_bind]; [|done]
         end.
  done.
Qed.

(** X19.  The nine registrations of [init] succeed, and leave the nine
    gauge families registered in the order of the source, exactly when
    none of their names is registered already; otherwise [MustRegister]
    panics.  In particular no two of the nine vectors share a name. *)
Theorem registerMetrics_succeeds registered :
  (registerMetrics registered = Some (registered ++ map Name registrationOrder) <->
   forall g, Name g ∉ registered) /\
  (registerMetrics registered = None <-> exists g, Name g ∈ registered).
Proof.
  assert (NoDup (map Name registrationOrder)) as Hnodup.
  { apply (bool_decide_unpack (NoDup (map Name registrationOrder))). vm_compute. exact I. }
  assert (forall g, g ∈ registrationOrder) as Hall.
  { intros g. apply list_elem_of_In. destruct g; cbn; tauto. }
  assert (registerMetrics registered = Some (registered ++ map Name registrationOrder) <->
          forall g, Name g ∉ registered) as Hsome.
  { rewrite registerMetrics_registerAll, registerAll_Some, Forall_forall. split.
    - intros (_ & _ & Hfresh) g. by apply Hfresh.
    - intros Hfresh. split_and!; try done. }
  split; [done|]. split.
  - intros Hnone.
    destruct (decide (Exists (fun g => Name g ∈ registered) registrationOrder))
      as [Hex|Hno].
    + apply Exists_exists in Hex as (g & _ & Hg). by exists g.
    + apply not_Exists_Forall in Hno; [|intros g; apply _].
      rewrite Forall_forall in Hno.
      assert (registerMetrics registered = Some (registered ++ map Name registrationOrder))
        as Hok by (apply Hsome; intros g; by apply Hno).
      congruence.
  - intros (g & Hg). destruct (registerMetrics registered) as [registered'|] eqn:Hreg; [|done].
    rewrite registerMetrics_registerAll in Hreg.
    apply registerAll_Some in Hreg as (_ & _ & Hfresh).
    rewrite Forall_forall in Hfresh. by destruct (Hfresh g (Hall g)).
Qed.

(** ** Rounding of the elapsed time *)

Lemma stageSeconds_bounds stages :
  Forall (fun stage => 0 <= PipelineNode.Duration stage) stages ->
  1000 * stageSeconds stages <= totalMillis stages
    <= 1000 * stageSeconds stages + 999 * Z.of_nat (length stages).
Proof.
  induction 1 as [|stage stages Hd _ IH]; [done|].
  cbn [stageSeconds totalMillis foldr length]. fold (stageSeconds stages).
  fold (totalMillis stages). unfold Go.div.
  assert (Hqr := Z.quot_rem' (PipelineNode.Duration stage) 1000).
  assert (Hr := Z.rem_bound_pos (PipelineNode.Duration stage) 1000 Hd ltac:(lia)).
  set (q := Z.quot (PipelineNode.Duration stage) 1000) in *.
  set (m := Z.rem (PipelineNode.Duration stage) 1000) in *.
  clearbody q m. rewrite Nat2Z.inj_succ. lia.
Qed.

(** X20.  The elapsed time rounds every stage down to whole seconds
    before adding: for stage durations that are not negative and whose
    total fits in an int64, the value of [elapsedTime] after the loop,
    in milliseconds, is at most the total duration of the stages and
    falls short of it by at most 999 milliseconds per stage. *)
Theorem elapsedTime_rounding stages :
  Forall (fun stage => 0 <= PipelineNode.Duration stage) stages ->
  totalMillis stages <= max_int64 ->
  let elapsedTime := elapsedTime_after 0 stages in
  0 <= elapsedTime /\
  1000 * elapsedTime <= totalMillis stages
    <= 1000 * elapsedTime + 999 * Z.of_nat (length stages).
Proof.
  intros Hpos Hfits elapsedTime. unfold elapsedTime.
  assert (Hbounds := stageSeconds_bounds stages Hpos).
  assert (0 <= stageSeconds stages) as Hnonneg.
  { clear Hbounds Hfits. induction Hpos as [|stage stages Hd _ IH]; [done|].
    cbn [stageSeconds foldr]. fold (stageSeconds stages). unfold Go.div.
    apply Z.add_nonneg_nonneg; [apply Z.quot_pos; lia | exact IH]. }
  rewrite elapsedTime_after_0, int64_small; [lia|].
  unfold min_int64, max_int64 in *. lia.
Qed.

Lemma elapsedTime_rounding_witness :
  1000 * elapsedTime_after 0 [Sample.build; Sample.build]
    <= totalMillis [Sample.build; Sample.build]
    <= 1000 * elapsedTime_after 0 [Sample.build; Sample.build] + 999 * 2.
Proof.
  destruct (elapsedTime_rounding [Sample.build; Sample.build]) as [_ Hbounds].
  - repeat constructor; by vm_compute.
  - by vm_compute.
  - exact Hbounds.
Defined.

(** ** A completed cycle, job by job *)

(** Computes [callsOf] on a journal of the case table. *)
Ltac callsOf_journal :=
  unfold fetchedJournal, countsJournal, liveJournal, testsJournal, completedJournal,
    failureAgeSets, pipelineStatusSets, pipelineDurationSets;
  repeat first
    [ rewrite callsOf_app | rewrite callsOf_step | rewrite callsOf_nil
    | rewrite (callsOf_none (flat_map _ _))
        by (apply Forall_flat_map, Forall_forall; intros ? _;
            apply Forall_flat_map, Forall_forall; intros t _;
            destruct (reported t); by repeat constructor)
    | rewrite (callsOf_none (map _ _)) by (by apply Forall_fmap, Forall_forall) ];
  cbn [app].

Lemma updateJob_calls_count jenkinsCli jobname evs :
  updateJob jenkinsCli jobname = (evs, Next tt) ->
  (6 <= length (callsOf evs) <= 7)%nat.
Proof.
  intros Hrun.
  destruct (updateJob_Next _ _ _ Hrun)
    as (job & lastCompletedBuild & lastBuild & resultset & lastCompletedPipeline &
        _ & _ & _ & _ & _ & Hevs).
  destruct Hevs as [[_ ->]|[_ (livePipe & _ & ->)]]; callsOf_journal; cbn; lia.
Qed.

Lemma flat_map_length_bounds {X Y} (f : X -> list Y) (xs : list X) (lo hi : nat) :
  Forall (fun x => (lo <= length (f x) <= hi)%nat) xs ->
  (lo * length xs <= length (flat_map f xs) <= hi * length xs)%nat.
Proof.
  induction 1 as [|x xs Hx _ IH]; cbn [flat_map length]; [lia|].
  rewrite length_app. lia.
Qed.

(** X21.  In a cycle that completes its pass, the calls on SDK methods
    that return an error are [Init], once, and then, for each
    configured job in the order of the configuration, those of the body
    of the loop for that job: in all, one such call plus six or seven
    per configured job.  [CreateJenkins] and the accessors of the SDK,
    which return no error, are not counted. *)
Theorem completed_cycle_calls config jenkinsCli :
  flow (updateMetrics config jenkinsCli) = Next tt ->
  let calls := callsOf (journal (updateMetrics config jenkinsCli)) in
  let jobs := Jobs (Jenkins config) in
  calls = CallInit ::
          flat_map (fun jobname => callsOf (journal (updateJob jenkinsCli jobname))) jobs /\
  (1 + 6 * length jobs <= length calls <= 1 + 7 * length jobs)%nat.
Proof.
  intros Hflow calls jobs. apply updateMetrics_Next_connected in Hflow as HInit.
  rewrite (updateMetrics_connected _ _ _ HInit) in Hflow. unfold flow at 1 in Hflow.
  cbn [snd] in Hflow. apply range_Next in Hflow as [Hjournal Hall].
  assert (calls = CallInit ::
          flat_map (fun jobname => callsOf (journal (updateJob jenkinsCli jobname))) jobs)
    as Hcalls.
  { unfold calls. rewrite (updateMetrics_connected _ _ _ HInit). unfold journal at 1.
    cbn [fst]. rewrite Hjournal.
    change (Called CallInit None :: resetJournal ++ ?l)
      with ((Called CallInit None :: resetJournal) ++ l).
    rewrite !callsOf_app. cbn. f_equal. rewrite app_nil_r. fold jobs.
    clear. induction jobs as [|jobname jobs IH]; [done|].
    cbn [flat_map]. by rewrite callsOf_app, IH. }
  split; [done|]. rewrite Hcalls. cbn [length].
  assert (Hbounds := flat_map_length_bounds
            (fun jobname => callsOf (journal (updateJob jenkinsCli jobname))) jobs 6 7).
  destruct Hbounds as [Hlo Hhi]; [|lia].
  eapply Forall_impl; [exact Hall|]. intros jobname Hjob. cbv beta in *.
  apply (updateJob_calls_count jenkinsCli jobname).
  destruct (updateJob jenkinsCli jobname) as [evs f]. unfold flow in Hjob.
  cbn [snd] in Hjob. by subst f.
Qed.

Lemma completed_cycle_calls_witness :
  length (callsOf (journal (updateMetrics (Sample.config ["app"; "app"]) Sample.server)))
  = 15%nat.
Proof.
  destruct (completed_cycle_calls (Sample.config ["app"; "app"]) Sample.server)
    as [Hcalls _]; [vm_compute; reflexivity|].
  rewrite Hcalls. vm_compute. reflexivity.
Defined.

(** ** The series of one job after a cycle *)

Lemma replay_lookup_ext g lvs evs r r' :
  series g r !! lvs = series g r' !! lvs ->
  series g (replay evs r) !! lvs = series g (replay evs r') !! lvs.
Proof.
  revert r r'. induction evs as [|e evs IH]; intros r r' Hsame; [done|].
  cbn [replay fold_left]. fold (replay evs (apply e r)). fold (replay evs (apply e r')).
  apply IH. rewrite !series_apply.
  destruct e; try done; case_decide; subst; try done;
    (destruct (decide (lvs0 = lvs)) as [->|Hother];
     [by rewrite !lookup_insert_eq, ?Hsame | by rewrite !lookup_insert_ne]).
Qed.

Lemma jobs_frame jenkinsCli jobs g lvs :
  (forall other job, In other jobs -> Jenkins.GetJob jenkinsCli other = Ok job ->
                     head lvs <> Some (Job.GetName job)) ->
  Forall (fun e => e <> GaugeReset g /\ (forall v, e <> GaugeSet g lvs v) /\
                   e <> GaugeWith g lvs)
         (flat_map (fun jobname => journal (updateJob jenkinsCli jobname)) jobs).
Proof.
  intros Hothers. apply Forall_flat_map, Forall_forall. intros other Hother%list_elem_of_In.
  eapply Forall_impl; [apply updateJob_events|]. intros e He. split_and!; [by intros ->| |].
  - intros v ->. destruct He as (_ & job & HJob & Hhead). by apply (Hothers other job).
  - intros ->. destruct He as (_ & job & HJob & Hhead). by apply (Hothers other job).
Qed.

(** X22.  After a cycle that completed its pass, the series of a job
    are the ones the body of the loop stored for it: when no other
    configured job has the same name on the server, every series whose
    first label value is the name of the job reads as it does after the
    body of the loop for that job alone, run on empty vectors, whatever
    the registry held before the cycle and whatever the other jobs
    stored. *)
Theorem cycle_job_series config jenkinsCli before jobname after job r g lvs :
  Jobs (Jenkins config) = before ++ jobname :: after ->
  flow (updateMetrics config jenkinsCli) = Next tt ->
  Jenkins.GetJob jenkinsCli jobname = Ok job ->
  head lvs = Some (Job.GetName job) ->
  (forall other job', In other (before ++ after) ->
                      Jenkins.GetJob jenkinsCli other = Ok job' ->
                      Job.GetName job' <> Job.GetName job) ->
  series g (replay (journal (updateMetrics config jenkinsCli)) r) !! lvs =
  series g (replay (journal (updateJob jenkinsCli jobname)) prometheus.empty) !! lvs.
Proof.
  intros HJobs Hflow HJob Hhead Hothers.
  apply updateMetrics_Next_connected in Hflow as HInit.
  rewrite (updateMetrics_registry _ _ _ _ HInit).
  rewrite (updateMetrics_connected _ _ _ HInit) in Hflow. unfold flow at 1 in Hflow.
  cbn [snd] in Hflow. apply range_Next in Hflow as [-> _].
  rewrite HJobs, flat_map_app. cbn [flat_map]. rewrite !replay_app.
  rewrite replay_lookup_frame.
  - apply replay_lookup_ext, replay_lookup_frame, jobs_frame.
    intros other job' Hin HJob'. rewrite Hhead. intros [= Hname].
    apply (Hothers other job'); [apply in_app_iff; by left|done|done].
  - apply jobs_frame. intros other job' Hin HJob'. rewrite Hhead. intros [= Hname].
    apply (Hothers other job'); [apply in_app_iff; by right|done|done].
Qed.

Lemma cycle_job_series_witness :
  series jenkinsRunningBuild
    (replay (journal (updateMetrics (Sample.config ["lib"; "app"]) Fleet.server)) stale)
    !! ["app"; "43"; "0"] =
  series jenkinsRunningBuild
    (replay (journal (updateJob Fleet.server "app")) prometheus.empty)
    !! ["app"; "43"; "0"].
Proof.
  apply (cycle_job_series (Sample.config ["lib"; "app"]) Fleet.server ["lib"] "app" []
           Sample.app).
  - reflexivity.
  - vm_compute. reflexivity.
  - reflexivity.
  - reflexivity.
  - intros other job' [<-|[]] [= <-]. discriminate.
Defined.
